(** * MMC block driver: request issue, recovery ladder and completion accounting

    A shallow embedding of [drivers/mmc/card/block.c]: the open/release
    reference counting ([mmc_blk_get], [mmc_blk_put], [mmc_blk_open]), the
    SD written-blocks query ([mmc_sd_num_wr_blocks]), [remove_card] and the
    request loop of [mmc_blk_issue_rq] with its status poll, its [recovery]
    label and its [cmd_err] exit.

    Machine integers are [Z]; unsigned 32-bit arithmetic is wrapped with
    [u32] where the source can overflow.  What the driver asks of its
    collaborators (the transport, the card, the clock) is read from an
    explicit per-cycle record of observations, and every call the driver
    makes to a collaborator is appended to a trace of events.  The embedding
    follows the build without [CONFIG_MMC_BLOCK_DEFERRED_RESUME],
    [CONFIG_MMC_PERF_PROFILING] and the [CONFIG_ARCH_MSM7X30] write guard.
    Not modelled: [printk] calls, the data timeout, and the scatterlist
    set-up and bounce buffers of the queue. *)

From Stdlib Require Import ZArith List Bool Lia.
Import ListNotations.
Local Open Scope Z_scope.

(* ===================================================================== *)
(** ** Machine arithmetic and protocol constants *)
(* ===================================================================== *)

Definition u32 (x : Z) : Z := Z.land x 0xFFFFFFFF.

(** [(u32)-1], the failure value of [mmc_sd_num_wr_blocks]. *)
Definition U32_MINUS_1 : Z := 0xFFFFFFFF.

Definition nonzero (x : Z) : bool := negb (x =? 0).

(** Modelled from the spec: [fls] lives in the kernel's bitops, not under
    src/, and the spec only says that the delay is a function of the poll
    count.  The definition is the documented contract of the kernel helper,
    find-last-set on a 32-bit word: [fls 0 = 0], [fls 1 = 1],
    [fls 0x80000000 = 32]. *)
Definition fls (x : Z) : Z :=
  let w := u32 x in
  if w =? 0 then 0 else Z.log2 w + 1.

(** Errno values used by the driver. *)
Definition EIO : Z := 5.
Definition ENXIO : Z := 6.
Definition EINVAL : Z := 22.
Definition EROFS : Z := 30.
Definition ETIMEDOUT : Z := 110.

(** Card status bits of an R1 response ([linux/mmc/mmc.h]). *)
Definition R1_READY_FOR_DATA : Z := Z.shiftl 1 8.
Definition R1_APP_CMD : Z := Z.shiftl 1 5.
Definition R1_CURRENT_STATE (x : Z) : Z := Z.shiftr (Z.land x 0x00001E00) 9.

(** Opcodes ([linux/mmc/mmc.h], [linux/mmc/sd.h]). *)
Definition MMC_STOP_TRANSMISSION : Z := 12.
Definition MMC_SEND_STATUS : Z := 13.
Definition MMC_READ_SINGLE_BLOCK : Z := 17.
Definition MMC_READ_MULTIPLE_BLOCK : Z := 18.
Definition MMC_WRITE_BLOCK : Z := 24.
Definition MMC_WRITE_MULTIPLE_BLOCK : Z := 25.
Definition SD_APP_SEND_NUM_WR_BLKS : Z := 22.
Definition MMC_APP_CMD : Z := 55.

Definition FMODE_READ : Z := 1.
Definition FMODE_WRITE : Z := 2.

(* ===================================================================== *)
(** ** Open and release: the usage count of a slot *)
(* ===================================================================== *)

Module BlkDev.

(** [struct mmc_blk_data], the fields the open path reads and writes. *)
Record mmc_blk_data : Type := {
  usage : Z;       (* unsigned int *)
  read_only : Z    (* unsigned int *)
}.

(** The disk of one slot together with the global slot bitmap.
    [private_data = None] is the NULL pointer.  [released] records that
    [mmc_blk_put] dropped the last reference (queue cleaned up, disk put,
    [md] freed). *)
Record slot : Type := {
  private_data : option mmc_blk_data;
  first_minor : Z;
  dev_use : Z;
  released : bool
}.

Inductive open_event : Type :=
| EvCheckDiskChange
| EvCleanupQueue
| EvPutDisk
| EvKfree.

Section WithShift.

(** [MMC_SHIFT] is 6 on MSM7X30/MSM8X60 and 3 otherwise. *)
Variable MMC_SHIFT : Z.

Definition set_usage (m : mmc_blk_data) (u : Z) : mmc_blk_data :=
  {| usage := u; read_only := read_only m |}.

Definition with_md (w : slot) (m : mmc_blk_data) : slot :=
  {| private_data := Some m; first_minor := first_minor w;
     dev_use := dev_use w; released := released w |}.

(** [mmc_blk_get]: the returned pointer is [md] itself, so the result is the
    updated slot and whether the pointer is non-NULL. *)
Definition mmc_blk_get (w : slot) : bool * slot :=
  match private_data w with
  | None => (false, w)
  | Some m =>
      if usage m =? 0 then (false, w)
      else (true, with_md w (set_usage m (u32 (usage m + 1))))
  end.

(** [mmc_blk_put] on the slot's [md]. *)
Definition mmc_blk_put (w : slot) : slot * list open_event :=
  match private_data w with
  | None => (w, [])
  | Some m =>
      let u := u32 (usage m - 1) in
      let m' := set_usage m u in
      if u =? 0 then
        let devidx := Z.shiftr (first_minor w) MMC_SHIFT in
        ({| private_data := Some m'; first_minor := first_minor w;
            dev_use := Z.clearbit (dev_use w) devidx; released := true |},
         [EvCleanupQueue; EvPutDisk; EvKfree])
      else (with_md w m', [])
  end.

Definition md_usage (w : slot) : Z :=
  match private_data w with Some m => usage m | None => 0 end.

Definition md_read_only (w : slot) : Z :=
  match private_data w with Some m => read_only m | None => 0 end.

(** [mmc_blk_open]: return value, slot afterwards, and calls made. *)
Definition mmc_blk_open (w : slot) (mode : Z) : Z * slot * list open_event :=
  let '(got, w1) := mmc_blk_get w in
  if got then
    let ev1 := if md_usage w1 =? 2 then [EvCheckDiskChange] else [] in
    if nonzero (Z.land mode FMODE_WRITE) && nonzero (md_read_only w1) then
      let '(w2, ev2) := mmc_blk_put w1 in
      (- EROFS, w2, ev1 ++ ev2)
    else (0, w1, ev1)
  else (- ENXIO, w, []).

(** [mmc_blk_release]. *)
Definition mmc_blk_release (w : slot) : Z * slot * list open_event :=
  let '(w1, ev) := mmc_blk_put w in (0, w1, ev).

End WithShift.

End BlkDev.

(* ===================================================================== *)
(** ** The block layer's view of a request *)
(* ===================================================================== *)

Inductive direction : Type := READ | WRITE.

Definition direction_eqb (a b : direction) : bool :=
  match a, b with
  | READ, READ | WRITE, WRITE => true
  | _, _ => false
  end.

(** Modelled from the spec: the block layer ([struct request],
    [__blk_end_request], [blk_rq_*]) is not under src/.  A request is its
    current sector and the byte lengths of the segments still pending;
    completing [nr_bytes] consumes that many bytes from the front, a count
    larger than what is pending completes everything, and the call answers
    whether bytes remain pending (the spec's [end_request(bytes_ok,
    error_or_none)], "called one or more times per Request, monotonically
    covering the byte range"). *)
Record request : Type := {
  __sector : Z;
  bio_segs : list Z;
  cmd_dir : direction
}.

Definition sum_bytes (l : list Z) : Z := fold_right Z.add 0 l.

Definition blk_rq_pos (r : request) : Z := __sector r.
Definition blk_rq_bytes (r : request) : Z := sum_bytes (bio_segs r).
Definition blk_rq_sectors (r : request) : Z := Z.shiftr (blk_rq_bytes r) 9.
Definition blk_rq_cur_bytes (r : request) : Z := hd 0 (bio_segs r).
Definition rq_data_dir (r : request) : direction := cmd_dir r.

Fixpoint blk_update_request (segs : list Z) (nr_bytes : Z) : list Z :=
  match segs with
  | [] => []
  | s :: tl =>
      if s <=? nr_bytes then blk_update_request tl (nr_bytes - s)
      else (s - nr_bytes) :: tl
  end.

(** [__blk_end_request req error nr_bytes]: the request afterwards and the
    return value (non-zero while bytes are still pending). *)
Definition __blk_end_request (r : request) (error nr_bytes : Z) : request * Z :=
  let segs' := blk_update_request (bio_segs r) nr_bytes in
  let done := sum_bytes (bio_segs r) - sum_bytes segs' in
  ({| __sector := __sector r + Z.shiftr done 9;
      bio_segs := segs';
      cmd_dir := cmd_dir r |},
   match segs' with [] => 0 | _ :: _ => 1 end).

(** A request as the block layer hands it over: whole sectors only. *)
Definition seg_ok (s : Z) : Prop := 0 < s /\ s mod 512 = 0.

(* ===================================================================== *)
(** ** Card, host and what the transport reports *)
(* ===================================================================== *)

Inductive card_type : Type := MMC_TYPE_MMC | MMC_TYPE_SD | MMC_TYPE_SDIO.

Record mmc_card : Type := {
  type : card_type;
  blockaddr : bool;     (* MMC_STATE_BLOCKADDR *)
  present : bool;       (* MMC_STATE_PRESENT *)
  removed : bool;       (* card->removed *)
  rca : Z
}.

Record mmc_host : Type := {
  max_blk_count : Z;
  is_spi : bool         (* mmc_host_is_spi *)
}.

Definition mmc_card_sd (c : mmc_card) : bool :=
  match type c with MMC_TYPE_SD => true | _ => false end.
Definition mmc_card_mmc (c : mmc_card) : bool :=
  match type c with MMC_TYPE_MMC => true | _ => false end.
Definition mmc_card_blockaddr (c : mmc_card) : bool := blockaddr c.
Definition mmc_card_present (c : mmc_card) : bool := present c.
Definition mmc_host_is_spi (h : mmc_host) : bool := is_spi h.

Definition set_removed (c : mmc_card) : mmc_card :=
  {| type := type c; blockaddr := blockaddr c; present := present c;
     removed := true; rca := rca c |}.

(** Calls the driver makes to its collaborators, in program order. *)
Inductive event : Type :=
| EvClaimHost
| EvReleaseHost
| EvWaitForReq (opcode arg blocks : Z) (stop : bool)
| EvGetCardStatus
| EvMsleep (msec : Z)
| EvSendStatus
| EvReinitCard
| EvSetBlocklen
| EvRemovalWork
| EvAppCmd
| EvSendNumWrBlks
| EvEndRequest (error nr_bytes : Z).

(** What [mmc_wait_for_req] leaves in [brq] for one execution. *)
Record xfer_outcome : Type := {
  x_cmd_error : Z;
  x_data_error : Z;
  x_stop_error : Z;
  x_bytes_xfered : Z
}.

(** One round of the status poll: the result of [mmc_wait_for_cmd], the
    status word [cmd.resp[0]], and whether [time_after(jiffies, delay)]
    holds when it is tested. *)
Record poll_obs : Type := {
  p_err : Z;
  p_resp : Z;
  p_late : bool
}.

(** What the card answers to the written-blocks query: the APP_CMD result
    and response, whether the 4-byte buffer could be allocated, the four
    bytes the card sent (big endian) and the error fields afterwards. *)
Record sd_query : Type := {
  q_app_err : Z;
  q_app_resp : Z;
  q_kmalloc_ok : bool;
  q_b0 : Z; q_b1 : Z; q_b2 : Z; q_b3 : Z;
  q_cmd_error : Z;
  q_data_error : Z
}.

(** Everything one loop cycle may observe. *)
Record cycle_env : Type := {
  xfer : xfer_outcome;
  polls : list poll_obs;
  reinit_err : Z;       (* mmc_reinit_card *)
  sdq : sd_query
}.

(** [ntohl] of the four bytes read from the card. *)
Definition ntohl_bytes (b0 b1 b2 b3 : Z) : Z :=
  Z.lor (Z.shiftl (Z.land b0 255) 24)
    (Z.lor (Z.shiftl (Z.land b1 255) 16)
       (Z.lor (Z.shiftl (Z.land b2 255) 8) (Z.land b3 255))).

(** [mmc_sd_num_wr_blocks]: the count and the commands sent. *)
Definition mmc_sd_num_wr_blocks (h : mmc_host) (q : sd_query) : Z * list event :=
  if nonzero (q_app_err q) then (U32_MINUS_1, [EvAppCmd])
  else if negb (mmc_host_is_spi h) && negb (nonzero (Z.land (q_app_resp q) R1_APP_CMD))
  then (U32_MINUS_1, [EvAppCmd])
  else if negb (q_kmalloc_ok q) then (U32_MINUS_1, [EvAppCmd])
  else
    let result := ntohl_bytes (q_b0 q) (q_b1 q) (q_b2 q) (q_b3 q) in
    let result :=
      if nonzero (q_cmd_error q) || nonzero (q_data_error q)
      then U32_MINUS_1 else result in
    (result, [EvAppCmd; EvSendNumWrBlks]).

(** [mmc_blk_set_blksize] as the request loop calls it (its return value
    is ignored there): nothing for a block-addressed card; otherwise
    SET_BLOCKLEN is sent between a claim and a release of the host of its
    own. *)
Definition mmc_blk_set_blksize (c : mmc_card) : list event :=
  if mmc_card_blockaddr c then []
  else [EvClaimHost; EvSetBlocklen; EvReleaseHost].

(** [remove_card]; [host->card] is the card at hand. *)
Definition remove_card (c : mmc_card) : mmc_card * list event :=
  if removed c then (c, [])
  else if negb (mmc_card_present c) then (c, [])
  else (set_removed c, [EvRemovalWork]).

(* ===================================================================== *)
(** ** The request being built: [struct mmc_blk_request] *)
(* ===================================================================== *)

Record mmc_blk_request : Type := {
  cmd_opcode : Z;
  cmd_arg : Z;
  data_blksz : Z;
  data_blocks : Z;
  mrq_stop : bool;        (* brq.mrq.stop != NULL *)
  cmd_error : Z;
  data_error : Z;
  stop_error : Z;
  data_bytes_xfered : Z
}.

(** Block count of the next command: the request's sectors, capped by the
    host, and one when multi-block transfers are disabled. *)
Definition plan_blocks (h : mmc_host) (disable_multi : Z) (r : request) : Z :=
  let blocks := blk_rq_sectors r in
  let blocks := if blocks >? max_blk_count h then max_blk_count h else blocks in
  if nonzero disable_multi && (blocks >? 1) then 1 else blocks.

Definition plan_arg (c : mmc_card) (r : request) : Z :=
  let arg := u32 (blk_rq_pos r) in
  if mmc_card_blockaddr c then arg else u32 (Z.shiftl arg 9).

Definition plan_stop (h : mmc_host) (r : request) (blocks : Z) : bool :=
  if blocks >? 1
  then negb (mmc_host_is_spi h) || direction_eqb (rq_data_dir r) READ
  else false.

Definition plan_opcode (r : request) (blocks : Z) : Z :=
  let readcmd := if blocks >? 1 then MMC_READ_MULTIPLE_BLOCK else MMC_READ_SINGLE_BLOCK in
  let writecmd := if blocks >? 1 then MMC_WRITE_MULTIPLE_BLOCK else MMC_WRITE_BLOCK in
  if direction_eqb (rq_data_dir r) READ then readcmd else writecmd.

(** [brq] after [mmc_wait_for_req].  [brq] is zeroed at the top of each
    cycle and the transport only touches [brq.stop] when [brq.mrq.stop] is
    set, so without a stop command [brq.stop.error] stays 0. *)
Definition mmc_wait_for_req (h : mmc_host) (c : mmc_card) (disable_multi : Z)
    (r : request) (x : xfer_outcome) : mmc_blk_request :=
  let blocks := plan_blocks h disable_multi r in
  let stop := plan_stop h r blocks in
  {| cmd_opcode := plan_opcode r blocks;
     cmd_arg := plan_arg c r;
     data_blksz := 512;
     data_blocks := blocks;
     mrq_stop := stop;
     cmd_error := x_cmd_error x;
     data_error := x_data_error x;
     stop_error := if stop then x_stop_error x else 0;
     data_bytes_xfered := x_bytes_xfered x |}.

Definition brq_event (b : mmc_blk_request) : event :=
  EvWaitForReq (cmd_opcode b) (cmd_arg b) (data_blocks b) (mrq_stop b).

Definition brq_failed (b : mmc_blk_request) : bool :=
  nonzero (cmd_error b) || nonzero (data_error b) || nonzero (stop_error b).

(* ===================================================================== *)
(** ** Locals of [mmc_blk_issue_rq] *)
(* ===================================================================== *)

Record issue_state : Type := {
  req : request;
  card : mmc_card;
  ret : Z;
  disable_multi : Z;
  card_no_ready : Z;
  err : Z;
  try_recovery : Z;
  do_reinit : Z;
  do_remove : Z
}.

Definition set_req (s : issue_state) (r : request) (rc : Z) : issue_state :=
  {| req := r; card := card s; ret := rc; disable_multi := disable_multi s;
     card_no_ready := card_no_ready s; err := err s;
     try_recovery := try_recovery s; do_reinit := do_reinit s;
     do_remove := do_remove s |}.

Definition set_card (s : issue_state) (c : mmc_card) : issue_state :=
  {| req := req s; card := c; ret := ret s; disable_multi := disable_multi s;
     card_no_ready := card_no_ready s; err := err s;
     try_recovery := try_recovery s; do_reinit := do_reinit s;
     do_remove := do_remove s |}.

Definition set_disable_multi (s : issue_state) (v : Z) : issue_state :=
  {| req := req s; card := card s; ret := ret s; disable_multi := v;
     card_no_ready := card_no_ready s; err := err s;
     try_recovery := try_recovery s; do_reinit := do_reinit s;
     do_remove := do_remove s |}.

Definition set_card_no_ready (s : issue_state) (v : Z) : issue_state :=
  {| req := req s; card := card s; ret := ret s; disable_multi := disable_multi s;
     card_no_ready := v; err := err s;
     try_recovery := try_recovery s; do_reinit := do_reinit s;
     do_remove := do_remove s |}.

Definition set_err (s : issue_state) (v : Z) : issue_state :=
  {| req := req s; card := card s; ret := ret s; disable_multi := disable_multi s;
     card_no_ready := card_no_ready s; err := v;
     try_recovery := try_recovery s; do_reinit := do_reinit s;
     do_remove := do_remove s |}.

Definition set_do_reinit (s : issue_state) (v : Z) : issue_state :=
  {| req := req s; card := card s; ret := ret s; disable_multi := disable_multi s;
     card_no_ready := card_no_ready s; err := err s;
     try_recovery := try_recovery s; do_reinit := v;
     do_remove := do_remove s |}.

Definition set_do_remove (s : issue_state) (v : Z) : issue_state :=
  {| req := req s; card := card s; ret := ret s; disable_multi := disable_multi s;
     card_no_ready := card_no_ready s; err := err s;
     try_recovery := try_recovery s; do_reinit := do_reinit s;
     do_remove := v |}.

(** The rung decision shared by the status poll and the error branch:

      if (try_recovery == 1) do_reinit = 1;
      else if (mmc_card_sd(card) && (try_recovery == 2)) do_remove = 1;
      try_recovery++;
*)
Definition escalate (s : issue_state) : issue_state :=
  let s1 :=
    if try_recovery s =? 1 then set_do_reinit s 1
    else if mmc_card_sd (card s) && (try_recovery s =? 2) then set_do_remove s 1
    else s in
  {| req := req s1; card := card s1; ret := ret s1;
     disable_multi := disable_multi s1;
     card_no_ready := card_no_ready s1; err := err s1;
     try_recovery := try_recovery s1 + 1; do_reinit := do_reinit s1;
     do_remove := do_remove s1 |}.

Definition init_state (r : request) (c : mmc_card) : issue_state :=
  {| req := r; card := c; ret := 1; disable_multi := 0; card_no_ready := 0;
     err := 0; try_recovery := 1; do_reinit := 0; do_remove := 0 |}.

(* ===================================================================== *)
(** ** The status poll after a write *)
(* ===================================================================== *)

Definition card_ready (resp : Z) : bool :=
  nonzero (Z.land resp R1_READY_FOR_DATA).

(** The sleep before poll number [i]:

      if (sleepy && (fls(i) > 11)) { msec = fls(i >> 11); msleep(msec); }
*)
Definition poll_sleep (sleepy : bool) (i : Z) : option Z :=
  if sleepy && (fls i >? 11) then Some (fls (Z.shiftr i 11)) else None.

(** Milliseconds slept between poll [i - 1] and poll [i]. *)
Definition poll_delay (sleepy : bool) (i : Z) : Z :=
  match poll_sleep sleepy i with Some msec => msec | None => 0 end.

(** The test that ends the poll from inside. *)
Definition poll_timed_out (o : poll_obs) (i : Z) : bool :=
  p_late o && (fls i >? 10).

Definition poll_ready_idle (o : poll_obs) : bool :=
  card_ready (p_resp o) && (R1_CURRENT_STATE (p_resp o) =? 4).

(** The [while] condition of the poll. *)
Definition poll_again (o : poll_obs) : bool :=
  negb (card_ready (p_resp o)) || (R1_CURRENT_STATE (p_resp o) =? 7).

(** How the poll is left: past its end, by [goto cmd_err], or not at all
    within the observations given. *)
Inductive poll_exit : Type := PollDone | PollCmdErr | PollStarved.

(** The [do ... while] of the poll, one observation per round. *)
Fixpoint status_poll (sleepy : bool) (obs : list poll_obs) (i : Z)
    (s : issue_state) : poll_exit * issue_state * list event :=
  match obs with
  | [] => (PollStarved, s, [])
  | o :: rest =>
      let ev :=
        match poll_sleep sleepy i with
        | Some msec => [EvMsleep msec; EvSendStatus]
        | None => [EvSendStatus]
        end in
      let s1 := set_err s (p_err o) in
      if nonzero (p_err o) then (PollCmdErr, s1, ev)
      else if poll_timed_out o i then
        if poll_ready_idle o then (PollDone, s1, ev)
        else
          let s2 := set_err (escalate s1) 1 in
          (PollDone, set_card_no_ready s2 (card_no_ready s2 + 1), ev)
      else if poll_again o then
        let '(x, s2, ev2) := status_poll sleepy rest (i + 1) s1 in
        (x, s2, ev ++ ev2)
      else (PollDone, s1, ev)
  end.

(** The block guarded by
    [!mmc_host_is_spi(card->host) && rq_data_dir(req) != READ]. *)
Definition wait_card_ready (h : mmc_host) (e : cycle_env) (s : issue_state)
    : poll_exit * issue_state * list event :=
  if negb (mmc_host_is_spi h) && negb (direction_eqb (rq_data_dir (req s)) READ) then
    match status_poll (mmc_card_sd (card s)) (polls e) 0 (set_err s 0) with
    | (PollDone, s1, ev) =>
        (PollDone, if nonzero (err s1) then s1 else set_card_no_ready s1 0, ev)
    | other => other
    end
  else (PollDone, s, []).

(* ===================================================================== *)
(** ** The [recovery] label, the escalation ladder and completion *)
(* ===================================================================== *)

(** Where a cycle goes next: to the loop test [while (ret)] (from the end
    of the body or from a [continue]), or to [cmd_err]; [Starve] when an
    inner loop was not left. *)
Inductive flow : Type := LoopTest | GotoCmdErr | Starve.

(** The code from [recovery:] to the end of the loop body.  The
    [goto recovery] of the error branch is the recursive call. *)
Fixpoint recovery (fuel : nat) (e : cycle_env) (b : mmc_blk_request)
    (s : issue_state) : flow * issue_state * list event :=
  match fuel with
  | O => (Starve, s, [])
  | S fuel' =>
      if nonzero (do_reinit s) then
        let s1 := set_do_reinit s 0 in
        if removed (card s1) then (GotoCmdErr, s1, [])
        else
          let s2 := set_err s1 (reinit_err e) in
          if negb (nonzero (reinit_err e)) then
            (LoopTest, s2, EvReinitCard :: mmc_blk_set_blksize (card s2))
          else if mmc_card_sd (card s2) then
            let '(c', ev) := remove_card (card s2) in
            (GotoCmdErr, set_card s2 c', EvReinitCard :: ev)
          else (GotoCmdErr, s2, [EvReinitCard])
      else if nonzero (do_remove s) then
        let s1 := set_do_remove s 0 in
        let '(c', ev) := remove_card (card s1) in
        (GotoCmdErr, set_card s1 c', ev)
      else if brq_failed b || nonzero (card_no_ready s) then
        let s1 := escalate s in
        if nonzero (do_reinit s1) || nonzero (do_remove s1) then
          recovery fuel' e b s1
        else if direction_eqb (rq_data_dir (req s1)) READ then
          let '(r', rc) := __blk_end_request (req s1) (- EIO) (data_blksz b) in
          (LoopTest, set_req s1 r' rc, [EvEndRequest (- EIO) (data_blksz b)])
        else (GotoCmdErr, s1, [])
      else
        let '(r', rc) := __blk_end_request (req s) 0 (data_bytes_xfered b) in
        (LoopTest, set_req s r' rc, [EvEndRequest 0 (data_bytes_xfered b)])
  end.

(** One pass through the body of the [do ... while (ret)] loop: where it
    goes, the locals afterwards, the calls made, and [brq]. *)
Definition issue_cycle (h : mmc_host) (e : cycle_env) (s : issue_state)
    : flow * issue_state * list event * mmc_blk_request :=
  let b := mmc_wait_for_req h (card s) (disable_multi s) (req s) (xfer e) in
  if brq_failed b && (data_blocks b >? 1) && direction_eqb (rq_data_dir (req s)) READ
  then (LoopTest, set_disable_multi s 1, [brq_event b], b)
  else
    let '(s1, ev1) :=
      if brq_failed b then (s, [EvGetCardStatus])
      else if disable_multi s =? 1 then (set_disable_multi s 0, [])
      else (s, []) in
    match wait_card_ready h e s1 with
    | (PollStarved, s2, ev2) => (Starve, s2, brq_event b :: ev1 ++ ev2, b)
    | (PollCmdErr, s2, ev2) => (GotoCmdErr, s2, brq_event b :: ev1 ++ ev2, b)
    | (PollDone, s2, ev2) =>
        let '(f, s3, ev3) := recovery 2 e b s2 in
        (f, s3, brq_event b :: ev1 ++ ev2 ++ ev3, b)
    end.

(** The final loop of [cmd_err]:

      while (ret)
              ret = __blk_end_request(req, -EIO, blk_rq_cur_bytes(req));

    The boolean tells whether the loop was left. *)
Fixpoint fail_remaining (fuel : nat) (r : request) (rc : Z)
    : bool * request * Z * list event :=
  if rc =? 0 then (true, r, rc, [])
  else
    match fuel with
    | O => (false, r, rc, [])
    | S fuel' =>
        let n := blk_rq_cur_bytes r in
        let '(r', rc') := __blk_end_request r (- EIO) n in
        let '(out, r2, rc2, ev) := fail_remaining fuel' r' rc' in
        (out, r2, rc2, EvEndRequest (- EIO) n :: ev)
    end.

(** The success report at the head of [cmd_err]. *)
Definition cmd_err_prefix (h : mmc_host) (q : sd_query) (b : mmc_blk_request)
    (s : issue_state) : issue_state * list event :=
  if mmc_card_sd (card s) then
    let '(blocks, evq) := mmc_sd_num_wr_blocks h q in
    if negb (blocks =? U32_MINUS_1) then
      let n := u32 (Z.shiftl blocks 9) in
      let '(r', rc) := __blk_end_request (req s) 0 n in
      (set_req s r' rc, evq ++ [EvEndRequest 0 n])
    else (s, evq)
  else
    let '(r', rc) := __blk_end_request (req s) 0 (data_bytes_xfered b) in
    (set_req s r' rc, [EvEndRequest 0 (data_bytes_xfered b)]).

(** The [cmd_err] exit; the boolean tells whether its loop was left. *)
Definition cmd_err (h : mmc_host) (q : sd_query) (b : mmc_blk_request)
    (s : issue_state) : bool * issue_state * list event :=
  let '(s1, ev1) := cmd_err_prefix h q b s in
  let '(out, r2, rc2, ev2) :=
    fail_remaining (S (length (bio_segs (req s1)))) (req s1) (ret s1) in
  (out, set_req s1 r2 rc2, ev1 ++ EvReleaseHost :: ev2).

(* ===================================================================== *)
(** ** [mmc_blk_issue_rq] *)
(* ===================================================================== *)

(** How a run over a finite list of cycle observations ends: the function
    returned, the observations ran out with the loop still going, or an
    inner loop was not left. *)
Inductive run_end : Type :=
| Returned (rv : Z)
| OutOfInput
| Starved.

Record run : Type := {
  final : issue_state;
  trace : list event;
  cycles : nat;
  ending : run_end
}.

Definition after_cycle (ev : list event) (r : run) : run :=
  {| final := final r; trace := ev ++ trace r; cycles := S (cycles r);
     ending := ending r |}.

Fixpoint issue_loop (h : mmc_host) (envs : list cycle_env) (s : issue_state) : run :=
  match envs with
  | [] => {| final := s; trace := []; cycles := 0; ending := OutOfInput |}
  | e :: rest =>
      match issue_cycle h e s with
      | (Starve, s1, ev, _) =>
          {| final := s1; trace := ev; cycles := 1; ending := Starved |}
      | (LoopTest, s1, ev, _) =>
          if nonzero (ret s1) then after_cycle ev (issue_loop h rest s1)
          else {| final := s1; trace := ev ++ [EvReleaseHost]; cycles := 1;
                  ending := Returned 1 |}
      | (GotoCmdErr, s1, ev, b) =>
          let '(out, s2, ev2) := cmd_err h (sdq e) b s1 in
          {| final := s2; trace := ev ++ ev2; cycles := 1;
             ending := if out then Returned 0 else Starved |}
      end
  end.

Definition mmc_blk_issue_rq (h : mmc_host) (c : mmc_card) (r : request)
    (envs : list cycle_env) : run :=
  let out := issue_loop h envs (init_state r c) in
  {| final := final out; trace := EvClaimHost :: trace out;
     cycles := cycles out; ending := ending out |}.

(* ===================================================================== *)
(** ** Reading a trace *)
(* ===================================================================== *)

(** Byte counts passed to [__blk_end_request], all calls. *)
Fixpoint reported_bytes (tr : list event) : Z :=
  match tr with
  | [] => 0
  | EvEndRequest _ n :: tl => n + reported_bytes tl
  | _ :: tl => reported_bytes tl
  end.

(** Byte counts passed to [__blk_end_request] with error 0. *)
Fixpoint success_bytes (tr : list event) : Z :=
  match tr with
  | [] => 0
  | EvEndRequest e n :: tl => (if e =? 0 then n else 0) + success_bytes tl
  | _ :: tl => success_bytes tl
  end.

(** Byte counts passed to [__blk_end_request] with a non-zero error. *)
Fixpoint failed_bytes (tr : list event) : Z :=
  match tr with
  | [] => 0
  | EvEndRequest e n :: tl => (if e =? 0 then 0 else n) + failed_bytes tl
  | _ :: tl => failed_bytes tl
  end.

Definition is_transport_call (ev : event) : bool :=
  match ev with
  | EvWaitForReq _ _ _ _ | EvGetCardStatus | EvSendStatus
  | EvAppCmd | EvSendNumWrBlks | EvSetBlocklen => true
  | _ => false
  end.

(** Block counts of the read/write commands sent, in order. *)
Fixpoint issued_blocks (tr : list event) : list Z :=
  match tr with
  | [] => []
  | EvWaitForReq _ _ n _ :: tl => n :: issued_blocks tl
  | _ :: tl => issued_blocks tl
  end.

(** Bytes the transport reported as transferred, over the cycles run. *)
Definition transferred_bytes (envs : list cycle_env) : Z :=
  sum_bytes (map (fun e => x_bytes_xfered (xfer e)) envs).

(* ===================================================================== *)
(** ** Vocabulary of the statements *)
(* ===================================================================== *)

(** A pending segment has bytes in it. *)
Definition seg_pos (s : Z) : Prop := 0 < s.




(** The poll starting at count [i] is left within the observations given:
    by an error, by its deadline ([poll_timed_out], whether the card is
    ready or not), or by a card no longer busy. *)
Fixpoint poll_left (obs : list poll_obs) (i : Z) : bool :=
  match obs with
  | [] => false
  | o :: rest =>
      nonzero (p_err o) || poll_timed_out o i || negb (poll_again o)
      || poll_left rest (i + 1)
  end.



(** [brq] as the cycle starting in [s] builds and gets it back. *)
Definition brq_of (h : mmc_host) (s : issue_state) (e : cycle_env)
    : mmc_blk_request :=
  mmc_wait_for_req h (card s) (disable_multi s) (req s) (xfer e).

(** The request after a completion call, and the call's return value. *)
Definition req_after (r : request) (nr_bytes : Z) : request :=
  fst (__blk_end_request r 0 nr_bytes).
Definition ret_after (r : request) (nr_bytes : Z) : Z :=
  snd (__blk_end_request r 0 nr_bytes).

(* ===================================================================== *)
(** ** Concrete devices, requests and observations for the examples *)
(* ===================================================================== *)

Module Ex.

(** A slot held once and marked read-only. *)
Definition ro_md : BlkDev.mmc_blk_data :=
  {| BlkDev.usage := 1; BlkDev.read_only := 1 |}.
Definition ro_slot : BlkDev.slot :=
  {| BlkDev.private_data := Some ro_md; BlkDev.first_minor := 8;
     BlkDev.dev_use := 2; BlkDev.released := false |}.

Definition host : mmc_host := {| max_blk_count := 128; is_spi := false |}.

Definition emmc : mmc_card :=
  {| type := MMC_TYPE_MMC; blockaddr := true; present := true;
     removed := false; rca := 1 |}.
Definition sdcard : mmc_card :=
  {| type := MMC_TYPE_SD; blockaddr := true; present := true;
     removed := false; rca := 1 |}.

(** A request of [n] sectors at sector 100, in one segment. *)
Definition rq (d : direction) (n : Z) : request :=
  {| __sector := 100; bio_segs := [n * 512]; cmd_dir := d |}.
Definition rq_empty (d : direction) : request :=
  {| __sector := 100; bio_segs := []; cmd_dir := d |}.

(** Transfers: complete, failed with a data timeout, and complete but with
    a failed stop command. *)
Definition x_ok (bytes : Z) : xfer_outcome :=
  {| x_cmd_error := 0; x_data_error := 0; x_stop_error := 0;
     x_bytes_xfered := bytes |}.
Definition x_data_timeout : xfer_outcome :=
  {| x_cmd_error := 0; x_data_error := - ETIMEDOUT; x_stop_error := 0;
     x_bytes_xfered := 0 |}.
Definition x_stop_failed (bytes : Z) : xfer_outcome :=
  {| x_cmd_error := 0; x_data_error := 0; x_stop_error := - ETIMEDOUT;
     x_bytes_xfered := bytes |}.

(** Status words: ready in the transfer state (4), and busy programming (7). *)
Definition st_ready (late : bool) : poll_obs :=
  {| p_err := 0; p_resp := 0x900; p_late := late |}.

(** The written-blocks query answering [n] (below 256), and failing. *)
Definition q_count (n : Z) : sd_query :=
  {| q_app_err := 0; q_app_resp := R1_APP_CMD; q_kmalloc_ok := true;
     q_b0 := 0; q_b1 := 0; q_b2 := 0; q_b3 := n;
     q_cmd_error := 0; q_data_error := 0 |}.
Definition q_fail : sd_query :=
  {| q_app_err := - ETIMEDOUT; q_app_resp := 0; q_kmalloc_ok := true;
     q_b0 := 0; q_b1 := 0; q_b2 := 0; q_b3 := 0;
     q_cmd_error := 0; q_data_error := 0 |}.

(** A cycle in which the card is ready at the first status poll and a
    reinitialisation, if asked for, succeeds. *)
Definition env (x : xfer_outcome) (q : sd_query) : cycle_env :=
  {| xfer := x; polls := [st_ready false]; reinit_err := 0; sdq := q |}.

(** A card on which every multi-block read fails and every single-block
    read succeeds: [n] rounds of a failed cycle followed by a good one. *)
Fixpoint flaky_multi (n : nat) : list cycle_env :=
  match n with
  | O => []
  | S k => env x_data_timeout q_fail :: env (x_ok 512) q_fail :: flaky_multi k
  end.

Definition locals (r : request) (c : mmc_card) (dm try : Z) : issue_state :=
  {| req := r; card := c; ret := 1; disable_multi := dm; card_no_ready := 0;
     err := 0; try_recovery := try; do_reinit := 0; do_remove := 0 |}.

End Ex.

(* ===================================================================== *)
(** ** Slot allocation, probe and remove *)
(* ===================================================================== *)

Definition ENOMEM : Z := 12.
Definition ENOSPC : Z := 28.

(** Command classes of the CSD ([linux/mmc/card.h]). *)
Definition CCC_BLOCK_READ : Z := Z.shiftl 1 2.
Definition CCC_BLOCK_WRITE : Z := Z.shiftl 1 4.

Module BlkLife.

(** What [mmc_blk_alloc] and [mmc_blk_probe] read of the card beyond
    [mmc_card]: the write-protect state, and CSD and EXT_CSD fields. *)
Record card_info : Type := {
  ci_card : mmc_card;
  ci_readonly : bool;        (* mmc_card_readonly *)
  ci_cmdclass : Z;           (* csd.cmdclass *)
  ci_capacity : Z;           (* csd.capacity, unsigned int *)
  ci_read_blkbits : Z;       (* csd.read_blkbits *)
  ci_ext_sectors : Z         (* ext_csd.sectors, unsigned int *)
}.

(** The three steps of [mmc_blk_alloc] that can fail. *)
Record alloc_env : Type := {
  kzalloc_ok : bool;
  alloc_disk_ok : bool;
  init_queue_ret : Z         (* mmc_init_queue *)
}.

(** The disk of an allocated slot: the slot itself, the capacity given to
    [set_capacity], and the index printed into [disk_name]. *)
Record disk : Type := {
  d_slot : BlkDev.slot;
  d_capacity : Z;
  d_index : Z
}.

Definition with_slot (d : disk) (w : BlkDev.slot) : disk :=
  {| d_slot := w; d_capacity := d_capacity d; d_index := d_index d |}.

Inductive alloc_outcome : Type :=
| AllocOk (d : disk)
| AllocErr (err : Z) (dev_use : Z).   (* ERR_PTR(err), bitmap afterwards *)

(** [struct hd_geometry] ([linux/hdreg.h]): [cylinders] is an unsigned
    short, [heads] and [sectors] are unsigned chars. *)
Record hd_geometry : Type := {
  cylinders : Z;
  heads : Z;
  sectors : Z
}.

Inductive life_event : Type :=
| LCard (e : event)
| LOpen (e : BlkDev.open_event)
| LMmcCleanupQueue
| LSetDrvdata (bound : bool)
| LAddDisk
| LDelGendisk (async : bool).

(** Modelled from the spec: [find_first_zero_bit] lives in the kernel's
    bitops, not under src/, and the spec only speaks of a slot bitmap.
    The definition is the helper's documented contract: the lowest index
    below [size] whose bit is clear, and [size] when there is none. *)
Fixpoint first_zero_from (bits : Z) (i : Z) (n : nat) : Z :=
  match n with
  | O => i
  | S k => if Z.testbit bits i then first_zero_from bits (i + 1) k else i
  end.

Definition find_first_zero_bit (bits size : Z) : Z :=
  first_zero_from bits 0 (Z.to_nat size).

Definition mmc_blk_readonly (ci : card_info) : bool :=
  ci_readonly ci || negb (nonzero (Z.land (ci_cmdclass ci) CCC_BLOCK_WRITE)).

(** The argument of [set_capacity] in [mmc_blk_alloc]. *)
Definition disk_capacity (ci : card_info) : Z :=
  if negb (mmc_card_sd (ci_card ci)) && mmc_card_blockaddr (ci_card ci)
  then ci_ext_sectors ci
  else u32 (Z.shiftl (ci_capacity ci) (ci_read_blkbits ci - 9)).

(** [mmc_blk_getgeo]; it returns 0. *)
Definition mmc_blk_getgeo (capacity : Z) : hd_geometry :=
  {| cylinders := Z.land (capacity / (4 * 16)) 0xFFFF;
     heads := 4;
     sectors := 16 |}.

(** [mmc_blk_set_blksize] with its return value: nothing is sent to a
    block-addressed card; otherwise the host is claimed around one
    SET_BLOCKLEN and any error becomes [-EINVAL]. *)
Definition mmc_blk_set_blksize (c : mmc_card) (cmd_err : Z) : Z * list event :=
  if mmc_card_blockaddr c then (0, [])
  else (if nonzero cmd_err then - EINVAL else 0,
        [EvClaimHost; EvSetBlocklen; EvReleaseHost]).

Section WithShift.

Variable MMC_SHIFT : Z.

Definition MMC_NUM_MINORS : Z := Z.shiftr 256 MMC_SHIFT.

(** [mmc_blk_alloc] on the global bitmap [dev_use]. *)
Definition mmc_blk_alloc (dev_use : Z) (ci : card_info) (env : alloc_env)
    : alloc_outcome * list BlkDev.open_event :=
  let devidx := find_first_zero_bit dev_use MMC_NUM_MINORS in
  if devidx >=? MMC_NUM_MINORS then (AllocErr (- ENOSPC) dev_use, [])
  else
    let dev_use' := Z.setbit dev_use devidx in
    if negb (kzalloc_ok env) then (AllocErr (- ENOMEM) dev_use', [])
    else if negb (alloc_disk_ok env) then
      (AllocErr (- ENOMEM) dev_use', [BlkDev.EvKfree])
    else if nonzero (init_queue_ret env) then
      (AllocErr (init_queue_ret env) dev_use',
       [BlkDev.EvPutDisk; BlkDev.EvKfree])
    else
      (AllocOk
         {| d_slot :=
              {| BlkDev.private_data :=
                   Some {| BlkDev.usage := 1;
                           BlkDev.read_only :=
                             if mmc_blk_readonly ci then 1 else 0 |};
                 BlkDev.first_minor := Z.shiftl devidx MMC_SHIFT;
                 BlkDev.dev_use := dev_use';
                 BlkDev.released := false |};
            d_capacity := disk_capacity ci;
            d_index := devidx |},
       []).


(** [mmc_blk_remove] on the card's drvdata: the slot afterwards (it
    outlives the call while the device is held open) and the calls made. *)
Definition mmc_blk_remove (c : mmc_card) (drvdata : option disk)
    : option BlkDev.slot * list life_event :=
  match drvdata with
  | Some d =>
      let '(w', evp) := BlkDev.mmc_blk_put MMC_SHIFT (d_slot d) in
      (Some w',
       LDelGendisk (mmc_card_sd c) :: LMmcCleanupQueue
       :: map LOpen evp ++ [LSetDrvdata false])
  | None => (None, [LSetDrvdata false])
  end.

(** [n] calls of [mmc_blk_put] in a row. *)
Fixpoint put_times (n : nat) (w : BlkDev.slot) : BlkDev.slot :=
  match n with
  | O => w
  | S k => put_times k (fst (BlkDev.mmc_blk_put MMC_SHIFT w))
  end.

End WithShift.

End BlkLife.

(* ===================================================================== *)
(** ** Kinds of events *)
(* ===================================================================== *)

Definition is_write (d : direction) : bool := negb (direction_eqb d READ).

Definition is_host_event (ev : event) : bool :=
  match ev with EvClaimHost | EvReleaseHost => true | _ => false end.

Definition is_poll_event (ev : event) : bool :=
  match ev with EvMsleep _ | EvSendStatus => true | _ => false end.

Definition is_sleep (ev : event) : bool :=
  match ev with EvMsleep _ => true | _ => false end.

Definition is_sd_query (ev : event) : bool :=
  match ev with EvAppCmd | EvSendNumWrBlks => true | _ => false end.

Definition is_reinit (ev : event) : bool :=
  match ev with EvReinitCard => true | _ => false end.

Definition is_removal (ev : event) : bool :=
  match ev with EvRemovalWork => true | _ => false end.

Definition is_rw_command (ev : event) : bool :=
  match ev with EvWaitForReq _ _ _ _ => true | _ => false end.

(** A completion call failing bytes with [-EIO]. *)
Definition is_eio_report (ev : event) : bool :=
  match ev with EvEndRequest e _ => e =? - EIO | _ => false end.

(** A completion call reporting bytes with an error. *)
Definition is_failure_report (ev : event) : bool :=
  match ev with EvEndRequest e _ => negb (e =? 0) | _ => false end.

(** The opcode of a read/write command fits the direction of the request. *)
Definition opcode_fits (d : direction) (opcode : Z) : bool :=
  match d with
  | READ => (opcode =? MMC_READ_SINGLE_BLOCK) || (opcode =? MMC_READ_MULTIPLE_BLOCK)
  | WRITE => (opcode =? MMC_WRITE_BLOCK) || (opcode =? MMC_WRITE_MULTIPLE_BLOCK)
  end.

(** What a pass through the loop body may call, for a host, a kind of card
    ([sd]: SD card, [ba]: block-addressed) and a direction. *)
Definition cycle_event_ok (h : mmc_host) (sd ba : bool) (d : direction)
    (ev : event) : bool :=
  match ev with
  | EvAppCmd | EvSendNumWrBlks => false
  | EvClaimHost | EvReleaseHost => negb ba
  | EvWaitForReq opcode _ blocks _ =>
      (blocks <=? max_blk_count h) && opcode_fits d opcode
  | EvMsleep _ => sd && is_write d && negb (mmc_host_is_spi h)
  | EvSendStatus => is_write d && negb (mmc_host_is_spi h)
  | EvSetBlocklen => negb ba
  | EvGetCardStatus | EvReinitCard | EvRemovalWork | EvEndRequest _ _ => true
  end.

(** What the status poll may call: SEND_STATUS, and sleeps only when
    [sleepy]. *)
Definition poll_event_ok (sleepy : bool) (ev : event) : bool :=
  match ev with
  | EvMsleep _ => sleepy
  | EvSendStatus => true
  | _ => false
  end.

(** The events of the code from [recovery:] on, by where it goes: a good
    reinitialisation restarts the cycle, a completion call goes to the loop
    test, everything else leaves for [cmd_err], a removal coming last. *)
Definition recovery_trace_ok (c : mmc_card) (f : flow) (ev : list event) : Prop :=
  match f with
  | LoopTest =>
      ev = EvReinitCard :: mmc_blk_set_blksize c
      \/ exists er n, ev = [EvEndRequest er n]
  | GotoCmdErr =>
      ev = [] \/ ev = [EvReinitCard] \/ ev = [EvReinitCard; EvRemovalWork]
      \/ ev = [EvRemovalWork]
  | Starve => False
  end.

(** What [cmd_err] may call before it releases the host. *)
Definition cmd_err_event_ok (sd : bool) (ev : event) : bool :=
  match ev with
  | EvAppCmd | EvSendNumWrBlks => sd
  | EvEndRequest e _ => e =? 0
  | _ => false
  end.

(** What a whole call may do once the host is claimed: what a cycle may
    call, the written-blocks query on an SD card, and the release. *)
Definition run_event_ok (h : mmc_host) (sd ba : bool) (d : direction)
    (ev : event) : bool :=
  match ev with
  | EvReleaseHost => true
  | EvAppCmd | EvSendNumWrBlks => sd
  | _ => cycle_event_ok h sd ba d ev
  end.

Definition is_claim (ev : event) : bool :=
  match ev with EvClaimHost => true | _ => false end.

(** Claims and releases of the host inside a stretch of trace, counted
    from its start: the number of claims still open at the end, or [None]
    when a release comes with none of them open. *)
Fixpoint host_nesting (depth : nat) (tr : list event) : option nat :=
  match tr with
  | [] => Some depth
  | EvClaimHost :: tl => host_nesting (S depth) tl
  | EvReleaseHost :: tl =>
      match depth with
      | O => None
      | S k => host_nesting k tl
      end
  | _ :: tl => host_nesting depth tl
  end.

Definition count_events (p : event -> bool) (tr : list event) : nat :=
  length (filter p tr).

(** Once removal work is scheduled, no read/write command, no
    reinitialisation and no second removal follows. *)
Fixpoint quiet_after_removal (tr : list event) : bool :=
  match tr with
  | [] => true
  | EvRemovalWork :: tl =>
      forallb (fun ev => negb (is_rw_command ev || is_reinit ev || is_removal ev)) tl
  | _ :: tl => quiet_after_removal tl
  end.

(** The transport keeps to the command along a run: in every cycle it
    reports whole blocks, no more than the command asked for. *)
Fixpoint transport_honest (h : mmc_host) (envs : list cycle_env)
    (s : issue_state) : Prop :=
  match envs with
  | [] => True
  | e :: rest =>
      0 <= x_bytes_xfered (xfer e) <= 512 * data_blocks (brq_of h s e)
      /\ x_bytes_xfered (xfer e) mod 512 = 0
      /\ match issue_cycle h e s with
         | (LoopTest, s', _, _) => transport_honest h rest s'
         | _ => True
         end
  end.

Module Ex2.

(** A writable SD card of 1000 sectors, and a byte-addressed MMC. *)
Definition sd_info : BlkLife.card_info :=
  {| BlkLife.ci_card := Ex.sdcard; BlkLife.ci_readonly := false;
     BlkLife.ci_cmdclass := Z.lor CCC_BLOCK_READ CCC_BLOCK_WRITE;
     BlkLife.ci_capacity := 1000; BlkLife.ci_read_blkbits := 9;
     BlkLife.ci_ext_sectors := 0 |}.

Definition mmc_byte : mmc_card :=
  {| type := MMC_TYPE_MMC; blockaddr := false; present := true;
     removed := false; rca := 1 |}.


Definition alloc_good : BlkLife.alloc_env :=
  {| BlkLife.kzalloc_ok := true; BlkLife.alloc_disk_ok := true;
     BlkLife.init_queue_ret := 0 |}.

Definition alloc_no_disk : BlkLife.alloc_env :=
  {| BlkLife.kzalloc_ok := true; BlkLife.alloc_disk_ok := false;
     BlkLife.init_queue_ret := 0 |}.

(** The disk [mmc_blk_alloc] builds for [sd_info] when indices 0 and 2 are
    taken (bitmap 5) and [MMC_SHIFT] is 3. *)
Definition sd_disk : BlkLife.disk :=
  {| BlkLife.d_slot :=
       {| BlkDev.private_data :=
            Some {| BlkDev.usage := 1; BlkDev.read_only := 0 |};
          BlkDev.first_minor := 8;
          BlkDev.dev_use := 7;
          BlkDev.released := false |};
     BlkLife.d_capacity := 1000;
     BlkLife.d_index := 1 |}.


(** A cycle in which the transfer times out and the reinitialisation of
    the card fails as well. *)
Definition env_dead : cycle_env :=
  {| xfer := Ex.x_data_timeout; polls := [Ex.st_ready false];
     reinit_err := - ETIMEDOUT; sdq := Ex.q_fail |}.

End Ex2.

(* ===================================================================== *)
(** * Properties *)
(* ===================================================================== *)

(** ** Machine arithmetic *)

Lemma u32_mod (x : Z) : u32 x = x mod 2 ^ 32.
Proof.
  unfold u32. change 0xFFFFFFFF with (Z.ones 32).
  apply Z.land_ones. lia.
Qed.

Lemma u32_small (x : Z) : 0 <= x < 2 ^ 32 -> u32 x = x.
Proof. intros H. rewrite u32_mod. apply Z.mod_small. exact H. Qed.

Lemma u32_range (x : Z) : 0 <= u32 x < 2 ^ 32.
Proof. rewrite u32_mod. apply Z.mod_pos_bound. lia. Qed.

Lemma fls_nonneg (x : Z) : 0 <= fls x.
Proof.
  unfold fls. destruct (u32 x =? 0); [lia|].
  pose proof (Z.log2_nonneg (u32 x)). lia.
Qed.

Lemma fls_mono (x y : Z) : 0 <= x <= y -> y < 2 ^ 32 -> fls x <= fls y.
Proof.
  intros Hxy Hy. unfold fls.
  rewrite (u32_small x), (u32_small y) by lia.
  destruct (Z.eqb_spec x 0) as [->|Hx].
  - destruct (y =? 0); [lia|]. pose proof (Z.log2_nonneg y). lia.
  - destruct (Z.eqb_spec y 0) as [->|_]; [lia|].
    pose proof (Z.log2_le_mono x y). lia.
Qed.

(** [fls x > k] says that [x] has reached [2 ^ k]. *)
Lemma fls_gt (x k : Z) :
  0 <= x < 2 ^ 32 -> 0 <= k -> (fls x >? k) = (2 ^ k <=? x).
Proof.
  intros Hx Hk. unfold fls. rewrite u32_small by exact Hx.
  destruct (Z.eqb_spec x 0) as [->|Hx0].
  - assert (0 < 2 ^ k) by (apply Z.pow_pos_nonneg; lia).
    destruct (Z.gtb_spec 0 k), (Z.leb_spec (2 ^ k) 0); lia.
  - assert (Hpos : 0 < x) by lia.
    pose proof (Z.log2_le_pow2 x k Hpos) as Hlog.
    destruct (Z.gtb_spec (Z.log2 x + 1) k), (Z.leb_spec (2 ^ k) x); lia.
Qed.

Lemma shiftr_mono (x y n : Z) : 0 <= n -> x <= y -> Z.shiftr x n <= Z.shiftr y n.
Proof.
  intros Hn Hxy. rewrite !Z.shiftr_div_pow2 by exact Hn.
  apply Z.div_le_mono; [apply Z.pow_pos_nonneg; lia | exact Hxy].
Qed.

Lemma shiftr_range (x n : Z) : 0 <= n -> 0 <= x < 2 ^ 32 -> 0 <= Z.shiftr x n < 2 ^ 32.
Proof.
  intros Hn Hx. rewrite Z.shiftr_div_pow2 by exact Hn.
  assert (0 < 2 ^ n) by (apply Z.pow_pos_nonneg; lia).
  split; [apply Z.div_pos; lia|].
  apply Z.le_lt_trans with x; [|lia].
  apply Z.div_le_upper_bound; [lia|]. nia.
Qed.

(** ** Open and release *)

Lemma u32_incr_decr (u : Z) : 0 < u < 2 ^ 32 -> u32 (u32 (u + 1) - 1) = u.
Proof.
  intros Hu. destruct (Z.eq_dec u (2 ^ 32 - 1)) as [->|Hne].
  - reflexivity.
  - rewrite (u32_small (u + 1)) by lia. replace (u + 1 - 1) with u by lia.
    apply u32_small. lia.
Qed.

(** C10: opening a live, read-only slot for writing returns [-EROFS] and
    gives back the reference it took, leaving the slot (usage count
    included) exactly as it was and tearing nothing down; opening it without
    [FMODE_WRITE] returns 0 and holds one more reference. *)
Theorem mmc_blk_open_read_only (shift : Z) (w : BlkDev.slot)
    (m : BlkDev.mmc_blk_data) (mode : Z) :
  BlkDev.private_data w = Some m ->
  0 < BlkDev.usage m < 2 ^ 32 ->
  BlkDev.read_only m <> 0 ->
  (Z.land mode FMODE_WRITE <> 0 ->
     fst (BlkDev.mmc_blk_open shift w mode) = (- EROFS, w)
     /\ BlkDev.md_usage (snd (fst (BlkDev.mmc_blk_open shift w mode)))
        = BlkDev.usage m)
  /\ (Z.land mode FMODE_WRITE = 0 ->
     fst (fst (BlkDev.mmc_blk_open shift w mode)) = 0
     /\ BlkDev.md_usage (snd (fst (BlkDev.mmc_blk_open shift w mode)))
        = u32 (BlkDev.usage m + 1)).
Proof.
  intros Hmd Hu Hro.
  destruct w as [pd fm du rel]. destruct m as [u ro]. simpl in *. subst pd.
  unfold BlkDev.mmc_blk_open, BlkDev.mmc_blk_get. simpl.
  destruct (Z.eqb_spec u 0) as [Hz|_]; [lia|].
  unfold BlkDev.md_read_only, BlkDev.md_usage; simpl.
  assert (Hnz : nonzero ro = true).
  { unfold nonzero. destruct (Z.eqb_spec ro 0); [contradiction | reflexivity]. }
  rewrite Hnz, andb_true_r.
  split; intros Hmode.
  - assert (Hw : nonzero (Z.land mode FMODE_WRITE) = true).
    { unfold nonzero. destruct (Z.eqb_spec (Z.land mode FMODE_WRITE) 0);
        [contradiction | reflexivity]. }
    rewrite Hw. unfold BlkDev.mmc_blk_put; simpl.
    rewrite u32_incr_decr by exact Hu.
    destruct (Z.eqb_spec u 0) as [Hz|_]; [lia|].
    simpl. split; reflexivity.
  - unfold nonzero. rewrite Hmode. simpl. split; reflexivity.
Qed.

(** A slot held once and marked read-only, opened for read-write and then
    for reading. *)
Lemma mmc_blk_open_read_only_witness :
  fst (BlkDev.mmc_blk_open 3 Ex.ro_slot (Z.lor FMODE_READ FMODE_WRITE))
    = (- EROFS, Ex.ro_slot)
  /\ fst (fst (BlkDev.mmc_blk_open 3 Ex.ro_slot FMODE_READ)) = 0.
Proof.
  assert (Hu : 0 < BlkDev.usage Ex.ro_md < 2 ^ 32) by (simpl; lia).
  assert (Hro : BlkDev.read_only Ex.ro_md <> 0) by (simpl; lia).
  destruct (mmc_blk_open_read_only 3 Ex.ro_slot Ex.ro_md
              (Z.lor FMODE_READ FMODE_WRITE) eq_refl Hu Hro) as [Hw _].
  destruct (mmc_blk_open_read_only 3 Ex.ro_slot Ex.ro_md FMODE_READ
              eq_refl Hu Hro) as [_ Hr].
  split.
  - apply Hw. vm_compute. discriminate.
  - apply Hr. reflexivity.
Defined.

(** ** The status poll *)

Lemma nonzero_true (x : Z) : nonzero x = true <-> x <> 0.
Proof. unfold nonzero. destruct (Z.eqb_spec x 0); simpl; split; congruence. Qed.

Lemma nonzero_false (x : Z) : nonzero x = false <-> x = 0.
Proof. unfold nonzero. destruct (Z.eqb_spec x 0); simpl; split; congruence. Qed.

Lemma poll_delay_eq (sleepy : bool) (i : Z) :
  0 <= i < 2 ^ 32 ->
  poll_delay sleepy i = if sleepy && (2048 <=? i) then fls (Z.shiftr i 11) else 0.
Proof.
  intros Hi. unfold poll_delay, poll_sleep.
  rewrite (fls_gt i 11) by lia. change (2 ^ 11) with 2048.
  destruct (sleepy && (2048 <=? i)); reflexivity.
Qed.

(** C9, as stated, fails: the sleep is guarded by [sleepy], which is set for
    SD cards only; with any other card no delay is ever applied, however
    large the poll count. *)
Lemma poll_delay_absent_off_sd :
  mmc_card_sd Ex.emmc = false
  /\ poll_delay (mmc_card_sd Ex.emmc) 4096 = 0
  /\ poll_delay (mmc_card_sd Ex.sdcard) 4096 = 2
  /\ ~ (forall sleepy : bool,
          exists i j, 0 <= i < j /\ poll_delay sleepy i < poll_delay sleepy j).
Proof.
  repeat split; try reflexivity.
  intros H. destruct (H false) as (i & j & _ & Hlt).
  unfold poll_delay, poll_sleep in Hlt. simpl in Hlt. lia.
Qed.

(** C9, amended: the delay before poll [i] never decreases with the poll
    count; it is absent for cards other than SD, and for SD cards it is
    absent for the first 2048 polls and [fls (i >> 11)] milliseconds (at
    least one) from then on. *)
Theorem poll_delay_step (i j : Z) :
  0 <= i <= j -> j < 2 ^ 31 ->
  (forall sleepy, poll_delay sleepy i <= poll_delay sleepy j)
  /\ poll_delay false i = 0
  /\ (i < 2048 -> poll_delay true i = 0)
  /\ (2048 <= i -> poll_delay true i = fls (Z.shiftr i 11)
                   /\ 1 <= poll_delay true i).
Proof.
  intros Hij Hj.
  assert (Hi32 : 0 <= i < 2 ^ 32) by lia.
  assert (Hj32 : 0 <= j < 2 ^ 32) by lia.
  assert (Hsh : forall k, 0 <= k < 2 ^ 32 -> 0 <= Z.shiftr k 11 < 2 ^ 32).
  { intros k Hk. apply shiftr_range; lia. }
  split; [|split; [|split; [|intros Hge; split]]].
  - intros sleepy. rewrite !poll_delay_eq by assumption.
    destruct sleepy; rewrite ?andb_true_l, ?andb_false_l; [|lia].
    destruct (Z.leb_spec 2048 i), (Z.leb_spec 2048 j); try lia.
    + apply fls_mono; [|apply Hsh; lia].
      split; [apply Hsh; lia | apply shiftr_mono; lia].
    + apply fls_nonneg.
  - rewrite poll_delay_eq by assumption. reflexivity.
  - intros Hlt. rewrite poll_delay_eq by assumption. rewrite andb_true_l.
    destruct (Z.leb_spec 2048 i); [lia | reflexivity].
  - rewrite poll_delay_eq by assumption. rewrite andb_true_l.
    destruct (Z.leb_spec 2048 i); [reflexivity | lia].
  - rewrite poll_delay_eq by assumption. rewrite andb_true_l.
    destruct (Z.leb_spec 2048 i); [|lia].
    change 1 with (fls 1).
    apply fls_mono; [|apply Hsh; lia].
    split; [lia|]. change 1 with (Z.shiftr 2048 11).
    apply shiftr_mono; lia.
Qed.

Lemma poll_delay_step_witness :
  (forall sleepy, poll_delay sleepy 2048 <= poll_delay sleepy 4096)
  /\ poll_delay false 2048 = 0.
Proof.
  destruct (poll_delay_step 2048 4096) as (Hmono & Hoff & _); [lia | lia |].
  exact (conj Hmono Hoff).
Defined.





(** ** One cycle of the request loop *)

Lemma end_request_error_irrelevant (r : request) (e1 e2 n : Z) :
  __blk_end_request r e1 n = __blk_end_request r e2 n.
Proof. reflexivity. Qed.

Lemma end_request_split (r : request) (er n : Z) :
  __blk_end_request r er n = (req_after r n, ret_after r n).
Proof. unfold req_after, ret_after. reflexivity. Qed.


(** C4, as stated, fails: on a four-sector read where multi-block reads
    fail and single-block reads work, the command after the first good
    single-block read is a three-block read again, and after the next good
    one a two-block read. *)
Lemma degraded_mode_reverts :
  issued_blocks
    (trace (mmc_blk_issue_rq Ex.host Ex.emmc (Ex.rq READ 4)
              (Ex.flaky_multi 3 ++ [Ex.env (Ex.x_ok 512) Ex.q_fail])))
  = [4; 1; 3; 1; 2; 1; 1]
  /\ ending (mmc_blk_issue_rq Ex.host Ex.emmc (Ex.rq READ 4)
               (Ex.flaky_multi 3 ++ [Ex.env (Ex.x_ok 512) Ex.q_fail]))
     = Returned 1.
Proof. split; vm_compute; reflexivity. Qed.

(** C4, amended: in degraded mode the command sent is at most one block;
    when it succeeds, the bytes transferred are reported as success in one
    call, [disable_multi] is cleared, and the next command again covers all
    remaining sectors up to the host's limit (multi-block when more than
    one is left). *)
Theorem degraded_success_rearms_multi (h : mmc_host) (e : cycle_env)
    (s : issue_state) :
  rq_data_dir (req s) = READ ->
  disable_multi s = 1 ->
  brq_failed (brq_of h s e) = false ->
  card_no_ready s = 0 -> do_reinit s = 0 -> do_remove s = 0 ->
  data_blocks (brq_of h s e) <= 1
  /\ issue_cycle h e s
     = (LoopTest,
        set_req (set_disable_multi s 0)
          (req_after (req s) (x_bytes_xfered (xfer e)))
          (ret_after (req s) (x_bytes_xfered (xfer e))),
        [brq_event (brq_of h s e); EvEndRequest 0 (x_bytes_xfered (xfer e))],
        brq_of h s e)
  /\ (forall e',
        data_blocks
          (brq_of h (set_req (set_disable_multi s 0)
                       (req_after (req s) (x_bytes_xfered (xfer e)))
                       (ret_after (req s) (x_bytes_xfered (xfer e)))) e')
        = Z.min (blk_rq_sectors (req_after (req s) (x_bytes_xfered (xfer e))))
                (max_blk_count h)).
Proof.
  intros Hdir Hdm Hok Hnr Hri Hrm.
  split; [|split].
  - unfold brq_of, mmc_wait_for_req; simpl. unfold plan_blocks. rewrite Hdm.
    change (nonzero 1) with true. rewrite andb_true_l.
    match goal with |- (if ?c >? 1 then _ else _) <= 1 =>
      destruct (Z.gtb_spec c 1); lia end.
  - unfold issue_cycle. fold (brq_of h s e). rewrite Hok. simpl.
    rewrite Hdm. simpl.
    unfold wait_card_ready. simpl. rewrite Hdir. rewrite andb_false_r.
    cbn [recovery set_disable_multi do_reinit do_remove card_no_ready req].
    rewrite Hri, Hrm, Hok, Hnr. simpl.
    reflexivity.
  - intros e'. unfold brq_of, mmc_wait_for_req; simpl. unfold plan_blocks.
    simpl.
    match goal with |- (if ?a >? ?b then _ else _) = _ =>
      destruct (Z.gtb_spec a b); lia end.
Qed.

(** The second cycle of an eight-sector read after its multi-block command
    failed: one good single-block read. *)
Lemma degraded_success_rearms_multi_witness :
  issued_blocks
    (snd (fst (issue_cycle Ex.host (Ex.env (Ex.x_ok 512) Ex.q_fail)
                 (Ex.locals (Ex.rq READ 8) Ex.emmc 1 1)))) = [1]
  /\ data_blocks
       (brq_of Ex.host
          (snd (fst (fst (issue_cycle Ex.host (Ex.env (Ex.x_ok 512) Ex.q_fail)
                            (Ex.locals (Ex.rq READ 8) Ex.emmc 1 1)))))
          (Ex.env (Ex.x_ok 512) Ex.q_fail)) = 7.
Proof.
  destruct (degraded_success_rearms_multi Ex.host
              (Ex.env (Ex.x_ok 512) Ex.q_fail)
              (Ex.locals (Ex.rq READ 8) Ex.emmc 1 1))
    as (_ & Hc & Hnext); try reflexivity.
  rewrite Hc. split; [reflexivity|].
  cbn [fst snd]. rewrite Hnext. reflexivity.
Defined.

(** Every cycle starts by sending the read/write command it built. *)
Lemma issue_cycle_head (h : mmc_host) (e : cycle_env) (s : issue_state) :
  exists f s' tl,
    issue_cycle h e s = (f, s', brq_event (brq_of h s e) :: tl, brq_of h s e).
Proof.
  unfold issue_cycle. fold (brq_of h s e).
  destruct (brq_failed (brq_of h s e) && (data_blocks (brq_of h s e) >? 1)
            && direction_eqb (rq_data_dir (req s)) READ).
  - eauto.
  - match goal with
    | |- context [let '(s1, ev1) := ?c in _] => destruct c as [s1 ev1]
    end.
    destruct (wait_card_ready h e s1) as [[[ | | ] s2] ev2]; eauto.
    destruct (recovery 2 e (brq_of h s e) s2) as [[f s3] ev3]. eauto.
Qed.

Lemma issue_loop_head (h : mmc_host) (e : cycle_env) (rest : list cycle_env)
    (s : issue_state) :
  exists tl, trace (issue_loop h (e :: rest) s) = brq_event (brq_of h s e) :: tl.
Proof.
  destruct (issue_cycle_head h e s) as (f & s' & tl & Hc).
  simpl. rewrite Hc.
  destruct f.
  - destruct (nonzero (ret s')); simpl; eauto.
  - destruct (cmd_err h (sdq e) (brq_of h s e) s') as [[out s2] ev2].
    simpl. eauto.
  - simpl. eauto.
Qed.

(** ** The escalation ladder *)




(** ** Zero-length requests *)

(** C7, as stated, fails: there is no length check; an empty request is
    sent to the card as a single-block command of zero blocks and, when the
    transport reports no error, is completed as a success. *)
Lemma zero_length_request_is_issued :
  trace (mmc_blk_issue_rq Ex.host Ex.sdcard (Ex.rq_empty READ)
           [Ex.env (Ex.x_ok 0) Ex.q_fail])
  = [EvClaimHost; EvWaitForReq MMC_READ_SINGLE_BLOCK 100 0 false;
     EvEndRequest 0 0; EvReleaseHost]
  /\ existsb is_transport_call
       (trace (mmc_blk_issue_rq Ex.host Ex.sdcard (Ex.rq_empty READ)
                 [Ex.env (Ex.x_ok 0) Ex.q_fail])) = true
  /\ ending (mmc_blk_issue_rq Ex.host Ex.sdcard (Ex.rq_empty READ)
               [Ex.env (Ex.x_ok 0) Ex.q_fail]) = Returned 1.
Proof. repeat split; vm_compute; reflexivity. Qed.

(** C7, amended: a request of zero sectors is not rejected; after claiming
    the host, the first thing [mmc_blk_issue_rq] does is to send a
    single-block read or write command with a block count of 0 and no stop
    command. *)
Theorem zero_length_request_reaches_transport (h : mmc_host) (c : mmc_card)
    (r : request) (e : cycle_env) (rest : list cycle_env) :
  blk_rq_sectors r = 0 -> 0 <= max_blk_count h ->
  exists tl,
    trace (mmc_blk_issue_rq h c r (e :: rest))
    = EvClaimHost
      :: EvWaitForReq
           (match rq_data_dir r with
            | READ => MMC_READ_SINGLE_BLOCK
            | WRITE => MMC_WRITE_BLOCK
            end)
           (plan_arg c r) 0 false
      :: tl.
Proof.
  intros Hzero Hmax.
  destruct (issue_loop_head h e rest (init_state r c)) as (tl & Htl).
  exists tl. unfold mmc_blk_issue_rq. cbn [trace]. rewrite Htl.
  f_equal. f_equal.
  assert (Hb : plan_blocks h 0 r = 0).
  { unfold plan_blocks. rewrite Hzero. simpl.
    destruct (Z.gtb_spec 0 (max_blk_count h)); [lia | reflexivity]. }
  unfold brq_event, brq_of, mmc_wait_for_req.
  cbn [cmd_opcode cmd_arg data_blocks mrq_stop init_state req card disable_multi].
  rewrite Hb. unfold plan_opcode, plan_stop. simpl.
  destruct (rq_data_dir r); reflexivity.
Qed.

Lemma zero_length_request_reaches_transport_witness :
  exists tl,
    trace (mmc_blk_issue_rq Ex.host Ex.emmc (Ex.rq_empty WRITE)
             [Ex.env (Ex.x_ok 0) Ex.q_fail])
    = EvClaimHost :: EvWaitForReq MMC_WRITE_BLOCK 100 0 false :: tl.
Proof.
  apply (zero_length_request_reaches_transport Ex.host Ex.emmc
           (Ex.rq_empty WRITE) (Ex.env (Ex.x_ok 0) Ex.q_fail) []).
  - reflexivity.
  - simpl. lia.
Defined.

(** ** The block layer's accounting *)

Lemma seg_ok_pos (l : list Z) : Forall seg_ok l -> Forall seg_pos l.
Proof. apply Forall_impl. intros a [Ha _]. exact Ha. Qed.

Lemma sum_bytes_nonneg (l : list Z) : Forall seg_pos l -> 0 <= sum_bytes l.
Proof.
  induction 1 as [|a l Ha _ IH]; simpl; [lia|]. unfold seg_pos in Ha. lia.
Qed.


Lemma blk_update_request_zero (l : list Z) :
  Forall seg_pos l -> blk_update_request l 0 = l.
Proof.
  intros H. destruct H as [|a l Ha Hl]; simpl; [reflexivity|].
  unfold seg_pos in Ha.
  destruct (Z.leb_spec a 0); [lia|]. f_equal. lia.
Qed.

Lemma blk_update_request_pos (l : list Z) (n : Z) :
  Forall seg_pos l -> Forall seg_pos (blk_update_request l n).
Proof.
  intros H. revert n. induction H as [|a l Ha Hl IH]; intros n; simpl.
  - constructor.
  - destruct (Z.leb_spec a n).
    + apply IH.
    + constructor; [unfold seg_pos; lia | exact Hl].
Qed.

(** Completing [n] bytes leaves what was pending less [n], or nothing. *)
Lemma blk_update_request_sum (l : list Z) (n : Z) :
  Forall seg_pos l -> 0 <= n ->
  sum_bytes (blk_update_request l n) = Z.max 0 (sum_bytes l - n).
Proof.
  intros H. revert n. induction H as [|a l Ha Hl IH]; intros n Hn; simpl.
  - lia.
  - unfold seg_pos in Ha. pose proof (sum_bytes_nonneg l Hl).
    destruct (Z.leb_spec a n).
    + rewrite IH by lia. lia.
    + simpl. lia.
Qed.

Lemma mod512_sub (a n : Z) : a mod 512 = 0 -> n mod 512 = 0 -> (a - n) mod 512 = 0.
Proof.
  intros Ha Hn. rewrite Zminus_mod, Ha, Hn. reflexivity.
Qed.

Lemma blk_update_request_ok (l : list Z) (n : Z) :
  Forall seg_ok l -> n mod 512 = 0 -> Forall seg_ok (blk_update_request l n).
Proof.
  intros H. revert n. induction H as [|a l [Ha Ham] Hl IH]; intros n Hn; simpl.
  - constructor.
  - destruct (Z.leb_spec a n).
    + apply IH. apply mod512_sub; assumption.
    + constructor; [|exact Hl].
      split; [lia | apply mod512_sub; assumption].
Qed.

Lemma sum_bytes_mod512 (l : list Z) : Forall seg_ok l -> sum_bytes l mod 512 = 0.
Proof.
  induction 1 as [|a l [_ Ha] _ IH]; simpl; [reflexivity|].
  rewrite Zplus_mod, Ha, IH. reflexivity.
Qed.

(** The return value of a completion call tells whether segments remain. *)
Lemma ret_after_zero (r : request) (n : Z) :
  ret_after r n = 0 <-> bio_segs (req_after r n) = [].
Proof.
  unfold ret_after, req_after, __blk_end_request. simpl.
  destruct (blk_update_request (bio_segs r) n); split; intros H;
    try reflexivity; discriminate.
Qed.

Lemma ret_after_cases (r : request) (n : Z) :
  (ret_after r n = 0 /\ bio_segs (req_after r n) = [])
  \/ (ret_after r n = 1 /\ bio_segs (req_after r n) <> []).
Proof.
  unfold ret_after, req_after, __blk_end_request. simpl.
  destruct (blk_update_request (bio_segs r) n); [left | right];
    split; try reflexivity; discriminate.
Qed.

Lemma req_after_bytes (r : request) (n : Z) :
  Forall seg_pos (bio_segs r) -> 0 <= n ->
  blk_rq_bytes (req_after r n) = Z.max 0 (blk_rq_bytes r - n).
Proof.
  intros Hpos Hn. unfold blk_rq_bytes, req_after, __blk_end_request. simpl.
  apply blk_update_request_sum; assumption.
Qed.

Lemma req_after_dir (r : request) (n : Z) : cmd_dir (req_after r n) = cmd_dir r.
Proof. reflexivity. Qed.

Lemma req_after_segs (r : request) (n : Z) :
  bio_segs (req_after r n) = blk_update_request (bio_segs r) n.
Proof. reflexivity. Qed.


(** ** Degrading a failed multi-block read *)




(** ** The [cmd_err] exit *)

(** The final loop fails every pending segment, one call per segment, and
    is left with nothing pending. *)
Lemma fail_remaining_spec (fuel : nat) :
  forall (r : request) (rc : Z),
    Forall seg_pos (bio_segs r) ->
    (rc = 0 -> bio_segs r = []) ->
    (rc <> 0 -> (length (bio_segs r) < fuel)%nat) ->
    exists r' ev,
      fail_remaining fuel r rc = (true, r', 0, ev)
      /\ bio_segs r' = []
      /\ success_bytes ev = 0
      /\ failed_bytes ev = blk_rq_bytes r.
Proof.
  induction fuel as [|fuel IH]; intros r rc Hpos Hrc Hlen;
    cbn [fail_remaining]; destruct (Z.eqb_spec rc 0) as [->|Hnz];
    try (exists r, []; unfold blk_rq_bytes; rewrite (Hrc eq_refl);
         repeat split; reflexivity).
  - specialize (Hlen Hnz). lia.
  - specialize (Hlen Hnz).
    rewrite (end_request_split r (- EIO)).
    set (n := blk_rq_cur_bytes r).
    assert (Hsegs : bio_segs (req_after r n) = tl (bio_segs r)).
    { rewrite req_after_segs. subst n. unfold blk_rq_cur_bytes.
      destruct (bio_segs r) as [|a l]; [reflexivity|]. simpl.
      rewrite Z.leb_refl, Z.sub_diag.
      inversion Hpos; subst. apply blk_update_request_zero. assumption. }
    destruct (IH (req_after r n) (ret_after r n)) as (r' & ev & Hrun & Hnil & Hs & Hf).
    + rewrite Hsegs. destruct Hpos; simpl; [constructor | assumption].
    + apply ret_after_zero.
    + intros Hret. rewrite Hsegs.
      destruct (ret_after_cases r n) as [[H0 _]|[_ Hne]]; [contradiction|].
      rewrite Hsegs in Hne.
      destruct (bio_segs r) as [|a l]; simpl in *; [contradiction | lia].
    + rewrite Hrun. exists r', (EvEndRequest (- EIO) n :: ev).
      split; [reflexivity|]. split; [exact Hnil|].
      split; [simpl; exact Hs|].
      cbn [failed_bytes]. change (- EIO =? 0) with false. cbn iota.
      rewrite Hf. unfold blk_rq_bytes. rewrite Hsegs. subst n.
      unfold blk_rq_cur_bytes. destruct (bio_segs r); simpl; lia.
Qed.

Lemma sd_query_events (h : mmc_host) (q : sd_query) (l : list event) :
  success_bytes (snd (mmc_sd_num_wr_blocks h q) ++ l) = success_bytes l
  /\ failed_bytes (snd (mmc_sd_num_wr_blocks h q) ++ l) = failed_bytes l.
Proof.
  unfold mmc_sd_num_wr_blocks.
  repeat match goal with
         | |- context [if ?c then _ else _] => destruct c
         end; split; reflexivity.
Qed.

(** C2, as stated, fails: a two-sector write to an eMMC whose stop command
    keeps failing after the data went through reaches [cmd_err] at rung 2;
    the 1024 bytes the transport counted are reported as success, that
    completes the request, and no I/O error is ever reported. *)
Lemma cmd_err_can_drop_failure :
  trace (mmc_blk_issue_rq Ex.host Ex.emmc (Ex.rq WRITE 2)
           (repeat (Ex.env (Ex.x_stop_failed 1024) Ex.q_fail) 2))
  = [EvClaimHost;
     EvWaitForReq MMC_WRITE_MULTIPLE_BLOCK 100 2 true; EvGetCardStatus;
     EvSendStatus; EvReinitCard;
     EvWaitForReq MMC_WRITE_MULTIPLE_BLOCK 100 2 true; EvGetCardStatus;
     EvSendStatus;
     EvEndRequest 0 1024; EvReleaseHost]
  /\ ending (mmc_blk_issue_rq Ex.host Ex.emmc (Ex.rq WRITE 2)
               (repeat (Ex.env (Ex.x_stop_failed 1024) Ex.q_fail) 2))
     = Returned 0
  /\ failed_bytes
       (trace (mmc_blk_issue_rq Ex.host Ex.emmc (Ex.rq WRITE 2)
                 (repeat (Ex.env (Ex.x_stop_failed 1024) Ex.q_fail) 2))) = 0.
Proof. repeat split; vm_compute; reflexivity. Qed.

(** C2, amended: for a write, or a card that is not SD, [cmd_err] always
    runs to its end.  Before releasing the host it makes at most one
    success report and no error report: for an SD card the written-blocks
    count times 512 (as a 32-bit value) when the query succeeds and
    nothing when it fails, for any other card [brq.data.bytes_xfered].
    After releasing the host it reports as [-EIO] exactly the bytes still
    pending after that report, which is nothing when the success report
    covered the whole request, and leaves no segment pending. *)
Theorem cmd_err_accounting (h : mmc_host) (q : sd_query)
    (b : mmc_blk_request) (s : issue_state) :
  Forall seg_pos (bio_segs (req s)) ->
  ret s <> 0 ->
  0 <= data_bytes_xfered b ->
  (mmc_card_sd (card s) = true -> rq_data_dir (req s) = WRITE) ->
  exists s' pre post,
    cmd_err h q b s = (true, s', pre ++ EvReleaseHost :: post)
    /\ failed_bytes pre = 0
    /\ success_bytes pre =
         (if mmc_card_sd (card s)
          then if fst (mmc_sd_num_wr_blocks h q) =? U32_MINUS_1 then 0
               else u32 (Z.shiftl (fst (mmc_sd_num_wr_blocks h q)) 9)
          else data_bytes_xfered b)
    /\ success_bytes post = 0
    /\ failed_bytes post = Z.max 0 (blk_rq_bytes (req s) - success_bytes pre)
    /\ bio_segs (req s') = [].
Proof.
  intros Hpos Hret Hx _.
  assert (Hfin : forall s1 pre n,
    cmd_err_prefix h q b s = (s1, pre) ->
    failed_bytes pre = 0 -> success_bytes pre = n -> 0 <= n ->
    req s1 = req_after (req s) n ->
    (ret s1 = 0 -> bio_segs (req s1) = []) ->
    exists s' pre' post,
      cmd_err h q b s = (true, s', pre' ++ EvReleaseHost :: post)
      /\ failed_bytes pre' = 0 /\ success_bytes pre' = n
      /\ success_bytes post = 0
      /\ failed_bytes post = Z.max 0 (blk_rq_bytes (req s) - success_bytes pre')
      /\ bio_segs (req s') = []).
  { intros s1 pre n Hpre Hf Hs Hn Hreq Hzero.
    assert (Hpos1 : Forall seg_pos (bio_segs (req s1))).
    { rewrite Hreq, req_after_segs. apply blk_update_request_pos. exact Hpos. }
    destruct (fail_remaining_spec (S (length (bio_segs (req s1)))) (req s1)
                (ret s1) Hpos1 Hzero) as (r' & post & Hrun & Hnil & Hsp & Hfp);
      [intros _; lia|].
    unfold cmd_err. rewrite Hpre, Hrun.
    exists (set_req s1 r' 0), pre, post.
    split; [reflexivity|]. split; [exact Hf|]. split; [exact Hs|].
    split; [exact Hsp|]. split; [|exact Hnil].
    rewrite Hfp, Hreq, Hs. apply req_after_bytes; assumption. }
  unfold cmd_err_prefix in Hfin.
  destruct (mmc_card_sd (card s)).
  - destruct (sd_query_events h q
                [EvEndRequest 0 (u32 (Z.shiftl (fst (mmc_sd_num_wr_blocks h q)) 9))])
      as [Hqs Hqf].
    destruct (sd_query_events h q []) as [Hqs0 Hqf0].
    destruct (mmc_sd_num_wr_blocks h q) as [blocks evq]. cbn [fst snd] in *.
    destruct (Z.eqb_spec blocks U32_MINUS_1) as [Heq|Hne]; cbn [negb] in Hfin.
    + apply (Hfin s evq 0); try reflexivity.
      * rewrite app_nil_r in Hqf0. exact Hqf0.
      * rewrite app_nil_r in Hqs0. exact Hqs0.
      * unfold req_after, __blk_end_request. simpl.
        rewrite blk_update_request_zero by exact Hpos.
        rewrite Z.sub_diag. simpl. rewrite Z.add_0_r.
        destruct (req s); reflexivity.
      * intros H0. contradiction.
    + rewrite (end_request_split (req s) 0) in Hfin.
      eapply Hfin; try reflexivity.
      * rewrite Hqf. reflexivity.
      * rewrite Hqs. simpl. lia.
      * apply u32_range.
      * apply ret_after_zero.
  - rewrite (end_request_split (req s) 0) in Hfin.
    eapply Hfin; try reflexivity.
    + simpl. lia.
    + exact Hx.
    + apply ret_after_zero.
Qed.

(** A four-sector write to an SD card that wrote one block before failing:
    one sector is reported good, three are failed. *)
Lemma cmd_err_accounting_witness :
  exists s' pre post,
    cmd_err Ex.host (Ex.q_count 1)
      (brq_of Ex.host (Ex.locals (Ex.rq WRITE 4) Ex.sdcard 0 3)
         (Ex.env Ex.x_data_timeout (Ex.q_count 1)))
      (Ex.locals (Ex.rq WRITE 4) Ex.sdcard 0 3)
    = (true, s', pre ++ EvReleaseHost :: post)
    /\ success_bytes pre = 512
    /\ failed_bytes post = 1536.
Proof.
  destruct (cmd_err_accounting Ex.host (Ex.q_count 1)
              (brq_of Ex.host (Ex.locals (Ex.rq WRITE 4) Ex.sdcard 0 3)
                 (Ex.env Ex.x_data_timeout (Ex.q_count 1)))
              (Ex.locals (Ex.rq WRITE 4) Ex.sdcard 0 3))
    as (s' & pre & post & Hrun & _ & Hs & _ & Hf & _).
  - repeat constructor.
  - simpl. lia.
  - simpl. lia.
  - reflexivity.
  - exists s', pre, post. split; [exact Hrun|].
    split; [exact Hs|]. rewrite Hf, Hs. reflexivity.
Defined.

(** C1 at its failing input: a one-sector read from an SD card fails twice
    (reinitialised at rung 1, removed at rung 2) and reaches [cmd_err];
    the card's written-blocks counter still holds 8 from an earlier write.
    No byte was transferred, yet 4096 bytes are reported as success for a
    512-byte request and nothing is reported as failed. *)
Theorem sd_read_cmd_err_overreports :
  trace (mmc_blk_issue_rq Ex.host Ex.sdcard (Ex.rq READ 1)
           (repeat (Ex.env Ex.x_data_timeout (Ex.q_count 8)) 2))
  = [EvClaimHost;
     EvWaitForReq MMC_READ_SINGLE_BLOCK 100 1 false; EvGetCardStatus;
     EvReinitCard;
     EvWaitForReq MMC_READ_SINGLE_BLOCK 100 1 false; EvGetCardStatus;
     EvRemovalWork; EvAppCmd; EvSendNumWrBlks;
     EvEndRequest 0 4096; EvReleaseHost]
  /\ ending (mmc_blk_issue_rq Ex.host Ex.sdcard (Ex.rq READ 1)
               (repeat (Ex.env Ex.x_data_timeout (Ex.q_count 8)) 2))
     = Returned 0
  /\ blk_rq_bytes (Ex.rq READ 1) = 512
  /\ transferred_bytes (repeat (Ex.env Ex.x_data_timeout (Ex.q_count 8)) 2) = 0
  /\ reported_bytes
       (trace (mmc_blk_issue_rq Ex.host Ex.sdcard (Ex.rq READ 1)
                 (repeat (Ex.env Ex.x_data_timeout (Ex.q_count 8)) 2))) = 4096
  /\ success_bytes
       (trace (mmc_blk_issue_rq Ex.host Ex.sdcard (Ex.rq READ 1)
                 (repeat (Ex.env Ex.x_data_timeout (Ex.q_count 8)) 2))) = 4096
  /\ failed_bytes
       (trace (mmc_blk_issue_rq Ex.host Ex.sdcard (Ex.rq READ 1)
                 (repeat (Ex.env Ex.x_data_timeout (Ex.q_count 8)) 2))) = 0.
Proof. repeat split; vm_compute; reflexivity. Qed.



(** ** Termination of the request loop *)



Ltac poll_frame_leaf :=
  do 3 eexists; split; [reflexivity|];
  split; [reflexivity|]; split; [reflexivity|]; split; [reflexivity|];
  split; [try (intros H; discriminate H)|].

Lemma status_poll_frame (sleepy : bool) :
  forall (obs : list poll_obs) (i : Z) (s : issue_state),
    do_reinit s = 0 -> do_remove s = 0 ->
    exists x s' ev,
      status_poll sleepy obs i s = (x, s', ev)
      /\ req s' = req s /\ ret s' = ret s
      /\ disable_multi s' = disable_multi s
      /\ (x = PollStarved -> poll_left obs i = false)
      /\ ((try_recovery s' = try_recovery s
           /\ do_reinit s' = 0 /\ do_remove s' = 0)
          \/ (x = PollDone /\ try_recovery s = 1 /\ try_recovery s' = 2
              /\ do_reinit s' = 1 /\ do_remove s' = 0)
          \/ (x = PollDone /\ try_recovery s <> 1
              /\ try_recovery s' = try_recovery s + 1
              /\ do_reinit s' = 0 /\ (do_remove s' = 0 \/ do_remove s' = 1))).
Proof.
  induction obs as [|o rest IH]; intros i s Hri Hrm; cbn [status_poll].
  - poll_frame_leaf; [reflexivity|]. left. auto.
  - destruct (nonzero (p_err o)) eqn:Herr.
    { poll_frame_leaf. left. auto. }
    destruct (poll_timed_out o i) eqn:Htimed.
    { destruct (poll_ready_idle o).
      - poll_frame_leaf. left. auto.
      - unfold escalate. cbn [try_recovery card set_err].
        destruct (Z.eqb_spec (try_recovery s) 1) as [H1|H1].
        + poll_frame_leaf. right; left. cbn. rewrite H1. auto.
        + destruct (mmc_card_sd (card s) && (try_recovery s =? 2));
            poll_frame_leaf; right; right; cbn;
            (split; [reflexivity|]); (split; [exact H1|]);
            (split; [reflexivity|]); (split; [exact Hri|]); auto. }
    destruct (poll_again o) eqn:Hagain.
    + destruct (IH (i + 1) (set_err s (p_err o)) Hri Hrm)
        as (x & s' & ev & Hrun & Hreq & Hret & Hdm & Hst & Hcases).
      rewrite Hrun. do 3 eexists. split; [reflexivity|].
      split; [exact Hreq|]. split; [exact Hret|]. split; [exact Hdm|].
      split; [|exact Hcases].
      intros Hx. cbn [poll_left]. rewrite Herr, Htimed, Hagain. cbn.
      apply Hst. exact Hx.
    + poll_frame_leaf. left. auto.
Qed.



(** Reading a field of updated locals. *)
Ltac locals_simpl :=
  unfold set_req, set_card, set_disable_multi, set_card_no_ready, set_err,
    set_do_reinit, set_do_remove;
  cbn [req card ret disable_multi card_no_ready err try_recovery
       do_reinit do_remove].


















(** Why the transport must keep its side: if it reports transfers without
    error that moved nothing, the loop goes round without end. *)
Remark zero_progress_spins (n : nat) :
  ending (mmc_blk_issue_rq Ex.host Ex.emmc (Ex.rq READ 1)
            (repeat (Ex.env (Ex.x_ok 0) Ex.q_fail) n)) = OutOfInput.
Proof.
  unfold mmc_blk_issue_rq. cbn [ending].
  induction n as [|n IH]; [reflexivity|].
  cbn [repeat issue_loop].
  assert (Hc : issue_cycle Ex.host (Ex.env (Ex.x_ok 0) Ex.q_fail)
                 (init_state (Ex.rq READ 1) Ex.emmc)
               = (LoopTest, init_state (Ex.rq READ 1) Ex.emmc,
                  [EvWaitForReq MMC_READ_SINGLE_BLOCK 100 1 false;
                   EvEndRequest 0 0],
                  brq_of Ex.host (init_state (Ex.rq READ 1) Ex.emmc)
                    (Ex.env (Ex.x_ok 0) Ex.q_fail)))
    by (vm_compute; reflexivity).
  rewrite Hc. cbn [ret init_state]. change (nonzero 1) with true. cbn iota.
  unfold after_cycle. cbn [ending]. exact IH.
Qed.

(* ===================================================================== *)
(** * Further properties of the driver *)
(* ===================================================================== *)

(** ** Usage counting across open, release and put *)

Lemma u32_decr (u : Z) : 0 < u < 2 ^ 32 -> u32 (u - 1) = u - 1.
Proof. intros H. apply u32_small. lia. Qed.

Lemma slot_eta (w : BlkDev.slot) (m : BlkDev.mmc_blk_data) (v : Z) :
  BlkDev.private_data w = Some m -> v = BlkDev.usage m ->
  w = BlkDev.with_md w (BlkDev.set_usage m v).
Proof.
  intros H ->. destruct w as [pd fm du rel], m as [u ro]. simpl in *.
  subst pd. reflexivity.
Qed.

(** A successful open followed by a release is the identity on the slot;
    also used where a card is removed while the device is held open. *)
Lemma open_then_release (shift : Z) (w : BlkDev.slot)
    (m : BlkDev.mmc_blk_data) (mode : Z) :
  BlkDev.private_data w = Some m ->
  0 < BlkDev.usage m < 2 ^ 32 ->
  Z.land mode FMODE_WRITE = 0 \/ BlkDev.read_only m = 0 ->
  fst (fst (BlkDev.mmc_blk_open shift w mode)) = 0
  /\ BlkDev.mmc_blk_release shift
       (snd (fst (BlkDev.mmc_blk_open shift w mode))) = (0, w, []).
Proof.
  intros Hmd Hu Hmode.
  assert (Hopen : fst (BlkDev.mmc_blk_open shift w mode)
                  = (0, BlkDev.with_md w
                          (BlkDev.set_usage m (u32 (BlkDev.usage m + 1))))).
  { unfold BlkDev.mmc_blk_open, BlkDev.mmc_blk_get. rewrite Hmd.
    destruct (Z.eqb_spec (BlkDev.usage m) 0) as [Hz|_]; [lia|].
    unfold BlkDev.md_read_only. cbn [BlkDev.with_md BlkDev.private_data
                                      BlkDev.set_usage BlkDev.read_only].
    assert (Hguard : nonzero (Z.land mode FMODE_WRITE)
                     && nonzero (BlkDev.read_only m) = false).
    { destruct Hmode as [H|H]; unfold nonzero; rewrite H; simpl;
        [reflexivity | apply andb_false_r]. }
    rewrite Hguard. reflexivity. }
  split; [rewrite Hopen; reflexivity|].
  replace (snd (fst (BlkDev.mmc_blk_open shift w mode)))
    with (BlkDev.with_md w (BlkDev.set_usage m (u32 (BlkDev.usage m + 1))))
    by (rewrite Hopen; reflexivity).
  unfold BlkDev.mmc_blk_release, BlkDev.mmc_blk_put.
  cbn [BlkDev.with_md BlkDev.private_data BlkDev.set_usage BlkDev.usage
       BlkDev.read_only BlkDev.first_minor BlkDev.dev_use BlkDev.released].
  rewrite u32_incr_decr by exact Hu.
  destruct (Z.eqb_spec (BlkDev.usage m) 0) as [Hz|_]; [lia|].
  destruct w as [pd fm du rel], m as [u ro]. simpl in *. subst pd.
  reflexivity.
Qed.

(** X1: on a live slot, an open that succeeds (read-only, or read-write on a
    writable device) followed by a release returns 0 twice, tears nothing
    down and leaves the slot exactly as it was. *)
Theorem open_release_round_trip (shift : Z) (w : BlkDev.slot)
    (m : BlkDev.mmc_blk_data) (mode : Z) :
  BlkDev.private_data w = Some m ->
  0 < BlkDev.usage m < 2 ^ 32 ->
  Z.land mode FMODE_WRITE = 0 \/ BlkDev.read_only m = 0 ->
  fst (fst (BlkDev.mmc_blk_open shift w mode)) = 0
  /\ BlkDev.mmc_blk_release shift
       (snd (fst (BlkDev.mmc_blk_open shift w mode))) = (0, w, []).
Proof. exact (open_then_release shift w m mode). Qed.

Lemma open_release_round_trip_witness :
  BlkDev.mmc_blk_release 3
    (snd (fst (BlkDev.mmc_blk_open 3 Ex.ro_slot FMODE_READ)))
  = (0, Ex.ro_slot, []).
Proof.
  apply (open_release_round_trip 3 Ex.ro_slot Ex.ro_md FMODE_READ).
  - reflexivity.
  - simpl. lia.
  - left. reflexivity.
Defined.

(** X2: a slot without data, or whose usage count is already 0, cannot be
    opened: the open returns [-ENXIO], changes nothing and calls nothing,
    whatever the mode. *)
Theorem open_dead_slot (shift : Z) (w : BlkDev.slot) (mode : Z) :
  BlkDev.private_data w = None \/ BlkDev.md_usage w = 0 ->
  BlkDev.mmc_blk_open shift w mode = (- ENXIO, w, []).
Proof.
  unfold BlkDev.mmc_blk_open, BlkDev.mmc_blk_get, BlkDev.md_usage.
  intros [H|H].
  - rewrite H. reflexivity.
  - destruct (BlkDev.private_data w) as [m|]; [|reflexivity].
    rewrite H. reflexivity.
Qed.

Lemma open_dead_slot_witness :
  BlkDev.mmc_blk_open 3
    {| BlkDev.private_data := None; BlkDev.first_minor := 0;
       BlkDev.dev_use := 0; BlkDev.released := false |}
    (Z.lor FMODE_READ FMODE_WRITE)
  = (- ENXIO,
     {| BlkDev.private_data := None; BlkDev.first_minor := 0;
        BlkDev.dev_use := 0; BlkDev.released := false |}, []).
Proof.
  apply open_dead_slot. left. reflexivity.
Defined.

Lemma put_live (shift : Z) (w : BlkDev.slot) (m : BlkDev.mmc_blk_data) :
  BlkDev.private_data w = Some m ->
  1 < BlkDev.usage m < 2 ^ 32 ->
  BlkDev.mmc_blk_put shift w
  = (BlkDev.with_md w (BlkDev.set_usage m (BlkDev.usage m - 1)), []).
Proof.
  intros Hmd Hu. unfold BlkDev.mmc_blk_put. rewrite Hmd.
  rewrite u32_decr by lia.
  destruct (Z.eqb_spec (BlkDev.usage m - 1) 0); [lia | reflexivity].
Qed.

Lemma put_last (shift : Z) (w : BlkDev.slot) (m : BlkDev.mmc_blk_data) :
  BlkDev.private_data w = Some m ->
  BlkDev.usage m = 1 ->
  BlkDev.mmc_blk_put shift w
  = ({| BlkDev.private_data := Some (BlkDev.set_usage m 0);
        BlkDev.first_minor := BlkDev.first_minor w;
        BlkDev.dev_use :=
          Z.clearbit (BlkDev.dev_use w)
            (Z.shiftr (BlkDev.first_minor w) shift);
        BlkDev.released := true |},
     [BlkDev.EvCleanupQueue; BlkDev.EvPutDisk; BlkDev.EvKfree]).
Proof.
  intros Hmd Hu. unfold BlkDev.mmc_blk_put. rewrite Hmd, Hu. reflexivity.
Qed.

(** X3: with [n] references held, the first [n - 1] calls of [mmc_blk_put]
    only count down and free nothing; the [n]-th brings the count to 0,
    marks the slot released and clears its bit, and no other, in the slot
    bitmap. *)
Theorem put_frees_at_last_reference (shift : Z) (n : nat) :
  forall (w : BlkDev.slot) (m : BlkDev.mmc_blk_data),
    BlkDev.private_data w = Some m ->
    BlkDev.usage m = Z.of_nat n ->
    (0 < n)%nat -> Z.of_nat n < 2 ^ 32 ->
    (forall k, (k < n)%nat ->
       BlkLife.put_times shift k w
       = BlkDev.with_md w (BlkDev.set_usage m (Z.of_nat n - Z.of_nat k)))
    /\ BlkLife.put_times shift n w
       = {| BlkDev.private_data := Some (BlkDev.set_usage m 0);
            BlkDev.first_minor := BlkDev.first_minor w;
            BlkDev.dev_use :=
              Z.clearbit (BlkDev.dev_use w)
                (Z.shiftr (BlkDev.first_minor w) shift);
            BlkDev.released := true |}.
Proof.
  induction n as [|n IH]; intros w m Hmd Hu Hpos Hlt; [lia|].
  destruct n as [|n'].
  - split.
    + intros k Hk. assert (k = O) by lia. subst k.
      cbn [BlkLife.put_times]. apply slot_eta; [exact Hmd | lia].
    + simpl. rewrite (put_last shift w m Hmd) by (rewrite Hu; reflexivity).
      reflexivity.
  - assert (Hput : BlkDev.mmc_blk_put shift w
             = (BlkDev.with_md w (BlkDev.set_usage m (Z.of_nat (S n'))), [])).
    { rewrite (put_live shift w m Hmd) by lia.
      replace (BlkDev.usage m - 1) with (Z.of_nat (S n')) by lia.
      reflexivity. }
    destruct (IH (BlkDev.with_md w (BlkDev.set_usage m (Z.of_nat (S n'))))
                 (BlkDev.set_usage m (Z.of_nat (S n'))))
      as [Hbelow Hlast]; try reflexivity; try lia.
    split.
    + intros k Hk. destruct k as [|k].
      * cbn [BlkLife.put_times]. apply slot_eta; [exact Hmd | lia].
      * cbn [BlkLife.put_times]. rewrite Hput. cbn [fst].
        rewrite Hbelow by lia.
        replace (Z.of_nat (S (S n')) - Z.of_nat (S k))
          with (Z.of_nat (S n') - Z.of_nat k) by lia.
        reflexivity.
    + change (BlkLife.put_times shift (S (S n')) w)
        with (BlkLife.put_times shift (S n') (fst (BlkDev.mmc_blk_put shift w))).
      rewrite Hput. cbn [fst]. rewrite Hlast. reflexivity.
Qed.

Lemma put_frees_at_last_reference_witness :
  BlkLife.put_times 3 1 Ex.ro_slot
  = {| BlkDev.private_data := Some (BlkDev.set_usage Ex.ro_md 0);
       BlkDev.first_minor := 8;
       BlkDev.dev_use := 0;
       BlkDev.released := true |}.
Proof.
  refine (proj2 (put_frees_at_last_reference 3 1 Ex.ro_slot Ex.ro_md
                   eq_refl eq_refl _ _)); simpl; lia.
Defined.

(** ** The slot bitmap: allocation and release *)

Lemma first_zero_from_lowest (bits k : Z) :
  forall (n : nat) (i : Z),
    i <= k < i + Z.of_nat n ->
    Z.testbit bits k = false ->
    (forall j, i <= j < k -> Z.testbit bits j = true) ->
    BlkLife.first_zero_from bits i n = k.
Proof.
  induction n as [|n IH]; intros i Hik Hk Hbelow; [lia|].
  cbn [BlkLife.first_zero_from].
  destruct (Z.testbit bits i) eqn:Hi.
  - assert (i <> k) by (intros ->; congruence).
    apply IH; [lia | exact Hk | intros j Hj; apply Hbelow; lia].
  - destruct (Z.eq_dec i k) as [Heq|Hne]; [exact Heq|].
    rewrite Hbelow in Hi by lia. discriminate.
Qed.

Lemma first_zero_from_full (bits : Z) :
  forall (n : nat) (i : Z),
    (forall j, i <= j < i + Z.of_nat n -> Z.testbit bits j = true) ->
    BlkLife.first_zero_from bits i n = i + Z.of_nat n.
Proof.
  induction n as [|n IH]; intros i Hall; cbn [BlkLife.first_zero_from].
  - simpl. lia.
  - rewrite Hall by lia. rewrite IH; [lia|].
    intros j Hj. apply Hall. lia.
Qed.

Lemma num_minors_nonneg (shift : Z) : 0 <= BlkLife.MMC_NUM_MINORS shift.
Proof. unfold BlkLife.MMC_NUM_MINORS. apply Z.shiftr_nonneg. lia. Qed.

Lemma find_lowest_free (shift dev_use k : Z) :
  0 <= k < BlkLife.MMC_NUM_MINORS shift ->
  Z.testbit dev_use k = false ->
  (forall j, 0 <= j < k -> Z.testbit dev_use j = true) ->
  BlkLife.find_first_zero_bit dev_use (BlkLife.MMC_NUM_MINORS shift) = k.
Proof.
  intros Hk Hfree Hbelow. unfold BlkLife.find_first_zero_bit.
  apply first_zero_from_lowest; [|exact Hfree | exact Hbelow].
  rewrite Z2Nat.id by lia. lia.
Qed.

Lemma clearbit_setbit (b k : Z) :
  0 <= k -> Z.testbit b k = false -> Z.clearbit (Z.setbit b k) k = b.
Proof.
  intros Hk Hfree. apply Z.bits_inj'. intros j Hj.
  rewrite Z.clearbit_eqb, Z.setbit_eqb by exact Hk.
  destruct (Z.eqb_spec k j) as [->|Hne]; simpl.
  - rewrite Hfree. reflexivity.
  - apply andb_true_r.
Qed.

Lemma shift_index_back (k shift : Z) :
  0 <= shift -> Z.shiftr (Z.shiftl k shift) shift = k.
Proof.
  intros Hs. rewrite Z.shiftr_shiftl_l by exact Hs.
  rewrite Z.sub_diag. apply Z.shiftl_0_r.
Qed.

(** X4: when every index below [MMC_NUM_MINORS] is in use, [mmc_blk_alloc]
    fails with [-ENOSPC] before reserving or allocating anything. *)
Theorem alloc_no_space (shift dev_use : Z) (ci : BlkLife.card_info)
    (env : BlkLife.alloc_env) :
  (forall j, 0 <= j < BlkLife.MMC_NUM_MINORS shift ->
             Z.testbit dev_use j = true) ->
  BlkLife.mmc_blk_alloc shift dev_use ci env
  = (BlkLife.AllocErr (- ENOSPC) dev_use, []).
Proof.
  intros Hfull. unfold BlkLife.mmc_blk_alloc, BlkLife.find_first_zero_bit.
  rewrite first_zero_from_full.
  - rewrite Z2Nat.id by apply num_minors_nonneg. simpl.
    destruct (Z.geb_spec (BlkLife.MMC_NUM_MINORS shift)
                (BlkLife.MMC_NUM_MINORS shift)); [reflexivity | lia].
  - intros j Hj. apply Hfull.
    rewrite Z2Nat.id in Hj by apply num_minors_nonneg. lia.
Qed.

Lemma ones_bits_set (n j : Z) : 0 <= j < n -> Z.testbit (Z.ones n) j = true.
Proof. intros H. apply Z.ones_spec_low. exact H. Qed.

Lemma alloc_no_space_witness :
  BlkLife.mmc_blk_alloc 3 (Z.ones 32) Ex2.sd_info Ex2.alloc_good
  = (BlkLife.AllocErr (- ENOSPC) (Z.ones 32), []).
Proof.
  apply alloc_no_space. intros j Hj. apply ones_bits_set.
  change (BlkLife.MMC_NUM_MINORS 3) with 32 in Hj. exact Hj.
Defined.

(** The allocation that goes through, as the probe and the round trips
    below use it. *)
Lemma alloc_lowest_free (shift dev_use k : Z)
    (ci : BlkLife.card_info) (env : BlkLife.alloc_env) :
  0 <= shift ->
  0 <= k < BlkLife.MMC_NUM_MINORS shift ->
  Z.testbit dev_use k = false ->
  (forall j, 0 <= j < k -> Z.testbit dev_use j = true) ->
  BlkLife.kzalloc_ok env = true ->
  BlkLife.alloc_disk_ok env = true ->
  BlkLife.init_queue_ret env = 0 ->
  exists d,
    BlkLife.mmc_blk_alloc shift dev_use ci env = (BlkLife.AllocOk d, [])
    /\ BlkLife.d_index d = k
    /\ Z.shiftr (BlkDev.first_minor (BlkLife.d_slot d)) shift = k
    /\ BlkDev.dev_use (BlkLife.d_slot d) = Z.setbit dev_use k
    /\ BlkDev.md_usage (BlkLife.d_slot d) = 1
    /\ BlkDev.released (BlkLife.d_slot d) = false
    /\ (BlkDev.md_read_only (BlkLife.d_slot d) <> 0
        <-> BlkLife.mmc_blk_readonly ci = true).
Proof.
  intros Hs Hk Hfree Hbelow Hkz Had Hiq.
  unfold BlkLife.mmc_blk_alloc.
  rewrite (find_lowest_free shift dev_use k Hk Hfree Hbelow).
  destruct (Z.geb_spec k (BlkLife.MMC_NUM_MINORS shift)); [lia|].
  rewrite Hkz, Had, Hiq. simpl.
  eexists. split; [reflexivity|]. simpl.
  split; [reflexivity|]. split; [apply shift_index_back; exact Hs|].
  split; [reflexivity|]. split; [reflexivity|]. split; [reflexivity|].
  unfold BlkDev.md_read_only. simpl.
  destruct (BlkLife.mmc_blk_readonly ci); split; intros Hro;
    try reflexivity; try discriminate; try lia; contradiction.
Qed.

(** X5: when the three allocation steps succeed, [mmc_blk_alloc] takes the
    lowest free index: it sets that bit and no other, and returns a slot
    held once, not released, whose [first_minor] leads back to the same
    index, with the read-only flag of the card. *)
Theorem alloc_takes_lowest_free (shift dev_use k : Z)
    (ci : BlkLife.card_info) (env : BlkLife.alloc_env) :
  0 <= shift ->
  0 <= k < BlkLife.MMC_NUM_MINORS shift ->
  Z.testbit dev_use k = false ->
  (forall j, 0 <= j < k -> Z.testbit dev_use j = true) ->
  BlkLife.kzalloc_ok env = true ->
  BlkLife.alloc_disk_ok env = true ->
  BlkLife.init_queue_ret env = 0 ->
  exists d,
    BlkLife.mmc_blk_alloc shift dev_use ci env = (BlkLife.AllocOk d, [])
    /\ BlkLife.d_index d = k
    /\ Z.shiftr (BlkDev.first_minor (BlkLife.d_slot d)) shift = k
    /\ BlkDev.dev_use (BlkLife.d_slot d) = Z.setbit dev_use k
    /\ BlkDev.md_usage (BlkLife.d_slot d) = 1
    /\ BlkDev.released (BlkLife.d_slot d) = false
    /\ (BlkDev.md_read_only (BlkLife.d_slot d) <> 0
        <-> BlkLife.mmc_blk_readonly ci = true).
Proof. exact (alloc_lowest_free shift dev_use k ci env). Qed.

Lemma alloc_takes_lowest_free_witness :
  exists d,
    BlkLife.mmc_blk_alloc 3 5 Ex2.sd_info Ex2.alloc_good
    = (BlkLife.AllocOk d, [])
    /\ BlkLife.d_index d = 1
    /\ BlkDev.dev_use (BlkLife.d_slot d) = 7.
Proof.
  destruct (alloc_takes_lowest_free 3 5 1 Ex2.sd_info Ex2.alloc_good)
    as (d & Hrun & Hidx & _ & Hbits & _); try reflexivity.
  - lia.
  - vm_compute. split; [discriminate | reflexivity].
  - intros j Hj. assert (j = 0) by lia. subst j. reflexivity.
  - exists d. split; [exact Hrun|]. split; [exact Hidx | exact Hbits].
Defined.

(** Putting the only reference of a fresh slot gives the index back. *)
Lemma alloc_then_put (shift dev_use k : Z)
    (ci : BlkLife.card_info) (env : BlkLife.alloc_env) (d : BlkLife.disk) :
  0 <= shift ->
  0 <= k < BlkLife.MMC_NUM_MINORS shift ->
  Z.testbit dev_use k = false ->
  (forall j, 0 <= j < k -> Z.testbit dev_use j = true) ->
  BlkLife.mmc_blk_alloc shift dev_use ci env = (BlkLife.AllocOk d, []) ->
  BlkDev.dev_use (fst (BlkDev.mmc_blk_put shift (BlkLife.d_slot d))) = dev_use
  /\ BlkDev.released (fst (BlkDev.mmc_blk_put shift (BlkLife.d_slot d))) = true
  /\ snd (BlkDev.mmc_blk_put shift (BlkLife.d_slot d))
     = [BlkDev.EvCleanupQueue; BlkDev.EvPutDisk; BlkDev.EvKfree].
Proof.
  intros Hs Hk Hfree Hbelow Halloc.
  unfold BlkLife.mmc_blk_alloc in Halloc.
  rewrite (find_lowest_free shift dev_use k Hk Hfree Hbelow) in Halloc.
  destruct (Z.geb_spec k (BlkLife.MMC_NUM_MINORS shift)); [lia|].
  destruct (negb (BlkLife.kzalloc_ok env)); [discriminate|].
  destruct (negb (BlkLife.alloc_disk_ok env)); [discriminate|].
  destruct (nonzero (BlkLife.init_queue_ret env)); [discriminate|].
  injection Halloc as <-. cbn [BlkLife.d_slot].
  unfold BlkDev.mmc_blk_put. cbn.
  rewrite shift_index_back by exact Hs.
  rewrite clearbit_setbit by (lia || exact Hfree).
  repeat split; reflexivity.
Qed.

(** X6: dropping the only reference of a freshly allocated slot undoes the
    allocation in the bitmap: [mmc_blk_put] clears the very bit
    [mmc_blk_alloc] set, the bitmap is as before the allocation, and the
    slot is released. *)
Theorem alloc_put_round_trip (shift dev_use k : Z)
    (ci : BlkLife.card_info) (env : BlkLife.alloc_env) (d : BlkLife.disk) :
  0 <= shift ->
  0 <= k < BlkLife.MMC_NUM_MINORS shift ->
  Z.testbit dev_use k = false ->
  (forall j, 0 <= j < k -> Z.testbit dev_use j = true) ->
  BlkLife.mmc_blk_alloc shift dev_use ci env = (BlkLife.AllocOk d, []) ->
  BlkDev.dev_use (fst (BlkDev.mmc_blk_put shift (BlkLife.d_slot d))) = dev_use
  /\ BlkDev.released (fst (BlkDev.mmc_blk_put shift (BlkLife.d_slot d))) = true
  /\ snd (BlkDev.mmc_blk_put shift (BlkLife.d_slot d))
     = [BlkDev.EvCleanupQueue; BlkDev.EvPutDisk; BlkDev.EvKfree].
Proof. exact (alloc_then_put shift dev_use k ci env d). Qed.

Lemma alloc_put_round_trip_witness :
  BlkDev.dev_use (fst (BlkDev.mmc_blk_put 3 (BlkLife.d_slot Ex2.sd_disk))) = 5.
Proof.
  refine (proj1 (alloc_put_round_trip 3 5 1 Ex2.sd_info Ex2.alloc_good
                   Ex2.sd_disk _ _ _ _ _)).
  - lia.
  - vm_compute. split; [discriminate | reflexivity].
  - reflexivity.
  - intros j Hj. assert (j = 0) by lia. subst j. reflexivity.
  - vm_compute. reflexivity.
Defined.

Lemma first_zero_from_free (bits : Z) :
  forall (n : nat) (i : Z),
    BlkLife.first_zero_from bits i n = i + Z.of_nat n
    \/ Z.testbit bits (BlkLife.first_zero_from bits i n) = false.
Proof.
  induction n as [|n IH]; intros i; cbn [BlkLife.first_zero_from].
  - left. simpl. lia.
  - destruct (Z.testbit bits i) eqn:Hi; [|right; exact Hi].
    destruct (IH (i + 1)) as [Hend|Hfree]; [left; lia | right; exact Hfree].
Qed.

(** X7: an allocation that fails after the index was reserved (no memory
    for the data or the disk, or a queue that cannot be set up) returns
    its error with the index still marked in use; the next allocation will
    not be given that index. *)
Theorem alloc_failure_keeps_index (shift dev_use k : Z)
    (ci : BlkLife.card_info) (env : BlkLife.alloc_env) :
  0 <= k < BlkLife.MMC_NUM_MINORS shift ->
  Z.testbit dev_use k = false ->
  (forall j, 0 <= j < k -> Z.testbit dev_use j = true) ->
  BlkLife.kzalloc_ok env = false \/ BlkLife.alloc_disk_ok env = false
  \/ BlkLife.init_queue_ret env <> 0 ->
  exists err ev,
    BlkLife.mmc_blk_alloc shift dev_use ci env
    = (BlkLife.AllocErr err (Z.setbit dev_use k), ev)
    /\ (err = - ENOMEM \/ err = BlkLife.init_queue_ret env)
    /\ Z.testbit (Z.setbit dev_use k) k = true
    /\ BlkLife.find_first_zero_bit (Z.setbit dev_use k)
         (BlkLife.MMC_NUM_MINORS shift) <> k.
Proof.
  intros Hk Hfree Hbelow Hfail.
  assert (Hset : Z.testbit (Z.setbit dev_use k) k = true)
    by (apply Z.setbit_eq; lia).
  assert (Hnext : BlkLife.find_first_zero_bit (Z.setbit dev_use k)
                    (BlkLife.MMC_NUM_MINORS shift) <> k).
  { unfold BlkLife.find_first_zero_bit. intros Heq.
    destruct (first_zero_from_free (Z.setbit dev_use k)
                (Z.to_nat (BlkLife.MMC_NUM_MINORS shift)) 0) as [Hend|Hclear].
    - rewrite Heq, Z2Nat.id in Hend by apply num_minors_nonneg. lia.
    - rewrite Heq, Hset in Hclear. discriminate. }
  unfold BlkLife.mmc_blk_alloc.
  rewrite (find_lowest_free shift dev_use k Hk Hfree Hbelow).
  destruct (Z.geb_spec k (BlkLife.MMC_NUM_MINORS shift)); [lia|].
  destruct (BlkLife.kzalloc_ok env) eqn:Hkz; cbn [negb].
  - destruct (BlkLife.alloc_disk_ok env) eqn:Had; cbn [negb].
    + destruct Hfail as [Hf|[Hf|Hf]]; try discriminate.
      apply nonzero_true in Hf. rewrite Hf.
      do 2 eexists. split; [reflexivity|]. auto.
    + do 2 eexists. split; [reflexivity|]. auto.
  - do 2 eexists. split; [reflexivity|]. auto.
Qed.

Lemma alloc_failure_keeps_index_witness :
  exists err ev,
    BlkLife.mmc_blk_alloc 3 5 Ex2.sd_info Ex2.alloc_no_disk
    = (BlkLife.AllocErr err 7, ev).
Proof.
  destruct (alloc_failure_keeps_index 3 5 1 Ex2.sd_info Ex2.alloc_no_disk)
    as (err & ev & Hrun & Herr & _).
  - vm_compute. split; [discriminate | reflexivity].
  - reflexivity.
  - intros j Hj. assert (j = 0) by lia. subst j. reflexivity.
  - right; left. reflexivity.
  - exists err, ev. exact Hrun.
Defined.

(** ** Geometry, probe and remove *)

(** X8: the geometry reported for a disk always has 4 heads and 16 sectors
    per track, its cylinder count fits 16 bits, and it never describes more
    sectors than the disk has; below 2^22 sectors it leaves out fewer than
    64 of them. *)
Theorem getgeo_within_capacity (capacity : Z) :
  0 <= capacity ->
  BlkLife.heads (BlkLife.mmc_blk_getgeo capacity) = 4
  /\ BlkLife.sectors (BlkLife.mmc_blk_getgeo capacity) = 16
  /\ 0 <= BlkLife.cylinders (BlkLife.mmc_blk_getgeo capacity) < 2 ^ 16
  /\ BlkLife.cylinders (BlkLife.mmc_blk_getgeo capacity)
     * BlkLife.heads (BlkLife.mmc_blk_getgeo capacity)
     * BlkLife.sectors (BlkLife.mmc_blk_getgeo capacity) <= capacity
  /\ (capacity < 2 ^ 22 ->
      capacity
      - BlkLife.cylinders (BlkLife.mmc_blk_getgeo capacity)
        * BlkLife.heads (BlkLife.mmc_blk_getgeo capacity)
        * BlkLife.sectors (BlkLife.mmc_blk_getgeo capacity) < 64).
Proof.
  intros Hcap. unfold BlkLife.mmc_blk_getgeo.
  cbn [BlkLife.cylinders BlkLife.heads BlkLife.sectors].
  change 0xFFFF with (Z.ones 16). rewrite Z.land_ones by lia.
  change (4 * 16) with 64.
  pose proof (Z.mod_pos_bound (capacity / 64) (2 ^ 16) ltac:(lia)) as Hmod.
  assert (Hq : 0 <= capacity / 64) by (apply Z.div_pos; lia).
  assert (Hle : (capacity / 64) mod 2 ^ 16 <= capacity / 64)
    by (apply Z.mod_le; lia).
  pose proof (Z.mul_div_le capacity 64 ltac:(lia)) as Hdiv.
  split; [reflexivity|]. split; [reflexivity|]. split; [exact Hmod|].
  split; [lia|].
  intros Hsmall.
  assert (Hlt : capacity / 64 < 2 ^ 16)
    by (apply Z.div_lt_upper_bound; lia).
  rewrite Z.mod_small by lia.
  pose proof (Z.div_mod capacity 64 ltac:(lia)).
  pose proof (Z.mod_pos_bound capacity 64 ltac:(lia)). lia.
Qed.

Lemma getgeo_within_capacity_witness :
  BlkLife.cylinders (BlkLife.mmc_blk_getgeo 1000) * 4 * 16 <= 1000.
Proof.
  destruct (getgeo_within_capacity 1000) as (Hh & Hs & _ & Hle & _); [lia|].
  rewrite Hh, Hs in Hle. exact Hle.
Defined.



(** X10: [mmc_blk_remove] drops the driver's own reference only.  With
    nobody holding the device open it frees the slot at once; with the
    device held open once it deletes the disk and unbinds the card but
    frees nothing, and the slot is freed, and its index given back, by the
    release that follows. *)
Theorem remove_defers_to_last_release (shift : Z) (c : mmc_card)
    (d : BlkLife.disk) (m : BlkDev.mmc_blk_data) (mode : Z) :
  BlkDev.private_data (BlkLife.d_slot d) = Some m ->
  BlkDev.usage m = 1 ->
  Z.land mode FMODE_WRITE = 0 \/ BlkDev.read_only m = 0 ->
  (exists w,
     BlkLife.mmc_blk_remove shift c (Some d)
     = (Some w,
        [BlkLife.LDelGendisk (mmc_card_sd c); BlkLife.LMmcCleanupQueue;
         BlkLife.LOpen BlkDev.EvCleanupQueue; BlkLife.LOpen BlkDev.EvPutDisk;
         BlkLife.LOpen BlkDev.EvKfree; BlkLife.LSetDrvdata false])
     /\ BlkDev.released w = true)
  /\ (exists w,
        BlkLife.mmc_blk_remove shift c
          (Some (BlkLife.with_slot d
                   (snd (fst (BlkDev.mmc_blk_open shift (BlkLife.d_slot d) mode)))))
        = (Some w,
           [BlkLife.LDelGendisk (mmc_card_sd c); BlkLife.LMmcCleanupQueue;
            BlkLife.LSetDrvdata false])
        /\ w = BlkLife.d_slot d
        /\ BlkDev.released (snd (fst (BlkDev.mmc_blk_release shift w))) = true
        /\ BlkDev.dev_use (snd (fst (BlkDev.mmc_blk_release shift w)))
           = Z.clearbit (BlkDev.dev_use (BlkLife.d_slot d))
               (Z.shiftr (BlkDev.first_minor (BlkLife.d_slot d)) shift)).
Proof.
  intros Hmd Hu Hmode.
  pose proof (put_last shift (BlkLife.d_slot d) m Hmd Hu) as Hput.
  split.
  - unfold BlkLife.mmc_blk_remove. rewrite Hput.
    eexists. split; [reflexivity | reflexivity].
  - destruct (open_then_release shift (BlkLife.d_slot d) m mode Hmd)
      as [_ Hround]; [lia | exact Hmode |].
    unfold BlkDev.mmc_blk_release in Hround.
    unfold BlkLife.mmc_blk_remove. cbn [BlkLife.with_slot BlkLife.d_slot].
    destruct (BlkDev.mmc_blk_put shift
                (snd (fst (BlkDev.mmc_blk_open shift (BlkLife.d_slot d) mode))))
      as [w' evp].
    injection Hround as Hw Hev. subst w' evp.
    eexists. split; [reflexivity|]. split; [reflexivity|].
    unfold BlkDev.mmc_blk_release. rewrite Hput. split; reflexivity.
Qed.

Lemma remove_defers_to_last_release_witness :
  exists w,
    BlkLife.mmc_blk_remove 3 Ex.sdcard
      (Some (BlkLife.with_slot Ex2.sd_disk
               (snd (fst (BlkDev.mmc_blk_open 3 (BlkLife.d_slot Ex2.sd_disk)
                            FMODE_READ)))))
    = (Some w,
       [BlkLife.LDelGendisk true; BlkLife.LMmcCleanupQueue;
        BlkLife.LSetDrvdata false])
    /\ BlkDev.released w = false.
Proof.
  destruct (remove_defers_to_last_release 3 Ex.sdcard Ex2.sd_disk
              {| BlkDev.usage := 1; BlkDev.read_only := 0 |} FMODE_READ)
    as [_ (w & Hrun & Hw & _)]; try reflexivity.
  - left. reflexivity.
  - exists w. split; [exact Hrun|]. rewrite Hw. reflexivity.
Defined.

(** ** The written-blocks query and card removal *)

Lemma land_shiftl_low (a b k : Z) :
  0 <= k -> 0 <= b < 2 ^ k -> Z.land (Z.shiftl a k) b = 0.
Proof.
  intros Hk Hb. apply Z.bits_inj'. intros j Hj.
  rewrite Z.land_spec, Z.bits_0.
  destruct (Z.lt_ge_cases j k) as [Hlt|Hge].
  - rewrite Z.shiftl_spec_low by exact Hlt. reflexivity.
  - replace (Z.testbit b j) with false; [apply andb_false_r|].
    symmetry. destruct (Z.eq_dec b 0) as [->|Hnz]; [apply Z.bits_0|].
    apply Z.bits_above_log2; [lia|].
    assert (Z.log2 b < k) by (apply Z.log2_lt_pow2; lia). lia.
Qed.

Lemma lor_shiftl_add (a b k : Z) :
  0 <= k -> 0 <= b < 2 ^ k -> Z.lor (Z.shiftl a k) b = a * 2 ^ k + b.
Proof.
  intros Hk Hb.
  pose proof (Z.add_lor_land (Z.shiftl a k) b) as H.
  rewrite land_shiftl_low in H by assumption.
  rewrite Z.add_0_r in H. rewrite H. rewrite Z.shiftl_mul_pow2 by exact Hk.
  reflexivity.
Qed.

Lemma ntohl_bytes_big_endian (b0 b1 b2 b3 : Z) :
  0 <= b0 < 256 -> 0 <= b1 < 256 -> 0 <= b2 < 256 -> 0 <= b3 < 256 ->
  ntohl_bytes b0 b1 b2 b3 = b0 * 2 ^ 24 + b1 * 2 ^ 16 + b2 * 2 ^ 8 + b3.
Proof.
  intros H0 H1 H2 H3. unfold ntohl_bytes.
  change 255 with (Z.ones 8). rewrite !Z.land_ones by lia.
  change (2 ^ 8) with 256. rewrite !Z.mod_small by lia.
  rewrite (lor_shiftl_add b2 b3 8) by lia.
  rewrite (lor_shiftl_add b1 (b2 * 2 ^ 8 + b3) 16) by lia.
  rewrite (lor_shiftl_add b0 (b1 * 2 ^ 16 + (b2 * 2 ^ 8 + b3)) 24) by lia.
  lia.
Qed.

(** X11: when APP_CMD is accepted (acknowledged in the response, or the
    host is SPI), the buffer is allocated and the transfer reports no
    error, [mmc_sd_num_wr_blocks] sends both commands and returns the four
    bytes the card sent read as one big-endian number, which fits 32
    bits. *)
Theorem num_wr_blocks_big_endian (h : mmc_host) (q : sd_query) :
  q_app_err q = 0 ->
  mmc_host_is_spi h = true \/ Z.land (q_app_resp q) R1_APP_CMD <> 0 ->
  q_kmalloc_ok q = true ->
  q_cmd_error q = 0 -> q_data_error q = 0 ->
  0 <= q_b0 q < 256 -> 0 <= q_b1 q < 256 ->
  0 <= q_b2 q < 256 -> 0 <= q_b3 q < 256 ->
  mmc_sd_num_wr_blocks h q
  = (q_b0 q * 2 ^ 24 + q_b1 q * 2 ^ 16 + q_b2 q * 2 ^ 8 + q_b3 q,
     [EvAppCmd; EvSendNumWrBlks])
  /\ 0 <= fst (mmc_sd_num_wr_blocks h q) < 2 ^ 32.
Proof.
  intros Happ Hack Hkm Hce Hde H0 H1 H2 H3.
  assert (Hrun : mmc_sd_num_wr_blocks h q
    = (q_b0 q * 2 ^ 24 + q_b1 q * 2 ^ 16 + q_b2 q * 2 ^ 8 + q_b3 q,
       [EvAppCmd; EvSendNumWrBlks])).
  { unfold mmc_sd_num_wr_blocks. unfold nonzero at 1. rewrite Happ.
    cbn [Z.eqb negb].
    assert (Hguard : negb (mmc_host_is_spi h)
                     && negb (nonzero (Z.land (q_app_resp q) R1_APP_CMD))
                     = false).
    { destruct Hack as [-> | Hbit]; [reflexivity|].
      apply nonzero_true in Hbit. rewrite Hbit. apply andb_false_r. }
    rewrite Hguard, Hkm. cbn [negb].
    unfold nonzero. rewrite Hce, Hde. cbn.
    rewrite ntohl_bytes_big_endian by assumption. reflexivity. }
  split; [exact Hrun|]. rewrite Hrun. cbn [fst]. lia.
Qed.

Lemma num_wr_blocks_big_endian_witness :
  mmc_sd_num_wr_blocks Ex.host (Ex.q_count 8) = (8, [EvAppCmd; EvSendNumWrBlks]).
Proof.
  refine (proj1 (num_wr_blocks_big_endian Ex.host (Ex.q_count 8)
                   eq_refl _ eq_refl eq_refl eq_refl _ _ _ _));
    simpl; lia.
Defined.

(** X12: [mmc_sd_num_wr_blocks] returns [(u32)-1] and never sends
    SD_APP_SEND_NUM_WR_BLKS when APP_CMD fails, when a host that is not SPI
    does not see APP_CMD acknowledged, or when the buffer cannot be
    allocated; it also returns [(u32)-1] when the transfer itself reports
    a command or data error. *)
Theorem num_wr_blocks_failure (h : mmc_host) (q : sd_query) :
  (q_app_err q <> 0
   \/ (mmc_host_is_spi h = false /\ Z.land (q_app_resp q) R1_APP_CMD = 0)
   \/ q_kmalloc_ok q = false ->
   mmc_sd_num_wr_blocks h q = (U32_MINUS_1, [EvAppCmd]))
  /\ (q_cmd_error q <> 0 \/ q_data_error q <> 0 ->
      fst (mmc_sd_num_wr_blocks h q) = U32_MINUS_1).
Proof.
  unfold mmc_sd_num_wr_blocks. split.
  - intros [Happ | [[Hspi Hack] | Hkm]].
    + apply nonzero_true in Happ. rewrite Happ. reflexivity.
    + destruct (nonzero (q_app_err q)); [reflexivity|].
      rewrite Hspi. unfold nonzero at 1. rewrite Hack. reflexivity.
    + destruct (nonzero (q_app_err q)); [reflexivity|].
      destruct (negb (mmc_host_is_spi h)
                && negb (nonzero (Z.land (q_app_resp q) R1_APP_CMD)));
        [reflexivity|].
      rewrite Hkm. reflexivity.
  - intros Herr.
    assert (Hflag : nonzero (q_cmd_error q) || nonzero (q_data_error q) = true).
    { destruct Herr as [H|H]; apply nonzero_true in H; rewrite H;
        [reflexivity | apply orb_true_r]. }
    rewrite Hflag.
    repeat match goal with
           | |- context [if ?c then _ else _] => destruct c
           end; reflexivity.
Qed.

(** X13: [remove_card] schedules the removal work, and marks the card
    removed, exactly when the card is present and not yet marked removed;
    calling it again changes nothing and schedules nothing, and it never
    changes the kind of card. *)
Theorem remove_card_once (c : mmc_card) :
  (snd (remove_card c) = [EvRemovalWork]
   <-> removed c = false /\ mmc_card_present c = true)
  /\ (snd (remove_card c) = [EvRemovalWork] ->
      removed (fst (remove_card c)) = true)
  /\ remove_card (fst (remove_card c)) = (fst (remove_card c), [])
  /\ type (fst (remove_card c)) = type c
  /\ blockaddr (fst (remove_card c)) = blockaddr c.
Proof.
  unfold remove_card, mmc_card_present, set_removed.
  destruct c as [ty ba pr rm rc]. cbn.
  destruct rm, pr; cbn; repeat split; intros; try discriminate;
    try reflexivity; try tauto;
    match goal with H : _ /\ _ |- _ => destruct H; discriminate end.
Qed.

(** ** What a run calls, and in which order *)

Lemma forallb_impl {A : Type} (p q : A -> bool) (l : list A) :
  (forall x, p x = true -> q x = true) ->
  forallb p l = true -> forallb q l = true.
Proof.
  intros Hpq Hp. apply forallb_forall. intros x Hx.
  apply Hpq. exact (proj1 (forallb_forall p l) Hp x Hx).
Qed.

Lemma escalate_frame (s : issue_state) :
  card (escalate s) = card s /\ req (escalate s) = req s
  /\ ret (escalate s) = ret s
  /\ try_recovery (escalate s) = try_recovery s + 1.
Proof.
  unfold escalate.
  destruct (try_recovery s =? 1); [cbn; auto|].
  destruct (mmc_card_sd (card s) && (try_recovery s =? 2)); cbn; auto.
Qed.

Lemma remove_card_frame (c : mmc_card) :
  type (fst (remove_card c)) = type c
  /\ blockaddr (fst (remove_card c)) = blockaddr c
  /\ (snd (remove_card c) = [] \/ snd (remove_card c) = [EvRemovalWork]).
Proof.
  unfold remove_card.
  destruct (removed c); [cbn; auto|].
  destruct (negb (mmc_card_present c)); cbn; auto.
Qed.

Lemma status_poll_events (sleepy : bool) :
  forall (obs : list poll_obs) (i : Z) (s : issue_state),
    forallb (poll_event_ok sleepy) (snd (status_poll sleepy obs i s)) = true
    /\ card (snd (fst (status_poll sleepy obs i s))) = card s
    /\ req (snd (fst (status_poll sleepy obs i s))) = req s
    /\ ret (snd (fst (status_poll sleepy obs i s))) = ret s
    /\ try_recovery s <= try_recovery (snd (fst (status_poll sleepy obs i s))).
Proof.
  induction obs as [|o rest IH]; intros i s; cbn [status_poll].
  - cbn. repeat split; try reflexivity; lia.
  - assert (Hev : forallb (poll_event_ok sleepy)
             match poll_sleep sleepy i with
             | Some msec => [EvMsleep msec; EvSendStatus]
             | None => [EvSendStatus]
             end = true).
    { unfold poll_sleep. destruct sleepy; cbn; [|reflexivity].
      destruct (fls i >? 11); reflexivity. }
    destruct (nonzero (p_err o)).
    { cbn [fst snd]. locals_simpl. repeat split; try assumption; try reflexivity; lia. }
    destruct (poll_timed_out o i).
    { destruct (poll_ready_idle o); cbn [fst snd].
      - locals_simpl. repeat split; try assumption; try reflexivity; lia.
      - destruct (escalate_frame (set_err s (p_err o))) as (Hc & Hr & Hrt & Ht).
        locals_simpl. unfold set_err in Hc, Hr, Hrt, Ht.
        rewrite Hc, Hr, Hrt, Ht. cbn.
        repeat split; try assumption; try reflexivity; lia. }
    destruct (poll_again o).
    + destruct (IH (i + 1) (set_err s (p_err o))) as (He & Hc & Hr & Hrt & Ht).
      destruct (status_poll sleepy rest (i + 1) (set_err s (p_err o)))
        as [[x s2] ev2]. cbn [fst snd] in *.
      rewrite forallb_app, Hev, He. repeat split; assumption.
    + cbn [fst snd]. locals_simpl. repeat split; try assumption; try reflexivity; lia.
Qed.

(** At a leaf of [recovery]: name the outcome. *)
Ltac rec_leaf :=
  let Heq := fresh "Heq" in
  intros Heq; inversion Heq; subst; clear Heq.

Ltac pick_disj :=
  repeat first [left; reflexivity | right]; try reflexivity.

(** The shape of what [recovery] calls, and what it keeps: the kind of
    card and the direction; [try_recovery] never goes down, and a
    reinitialisation is only attempted when it was scheduled or the ladder
    stood at rung 1, which it then leaves. *)
Lemma recovery_shape (e : cycle_env) (b : mmc_blk_request) (s : issue_state) :
  recovery_trace_ok (card s) (fst (fst (recovery 2 e b s)))
    (snd (recovery 2 e b s))
  /\ type (card (snd (fst (recovery 2 e b s)))) = type (card s)
  /\ blockaddr (card (snd (fst (recovery 2 e b s)))) = blockaddr (card s)
  /\ cmd_dir (req (snd (fst (recovery 2 e b s)))) = cmd_dir (req s)
  /\ try_recovery s <= try_recovery (snd (fst (recovery 2 e b s)))
  /\ (existsb is_reinit (snd (recovery 2 e b s)) = true ->
      (do_reinit s <> 0
       /\ try_recovery (snd (fst (recovery 2 e b s))) = try_recovery s)
      \/ (do_reinit s = 0 /\ try_recovery s = 1
          /\ try_recovery (snd (fst (recovery 2 e b s))) = 2))
  /\ (existsb is_removal (snd (recovery 2 e b s)) = true ->
      removed (card (snd (fst (recovery 2 e b s)))) = true).
Proof.
  destruct (recovery 2 e b s) as [[f s'] ev] eqn:Hrec. cbn [fst snd].
  revert Hrec.
  destruct s as [r c rt dm cnr er tr dri drm].
  pose proof (remove_card_frame c) as (Hty & Hba & Hrm).
  assert (Hrmd : snd (remove_card c) = [EvRemovalWork] ->
                 removed (fst (remove_card c)) = true).
  { unfold remove_card. destruct (removed c); [discriminate|].
    destruct (negb (mmc_card_present c)); [discriminate | reflexivity]. }
  cbn [recovery]. locals_simpl. unfold escalate. locals_simpl.
  destruct (remove_card c) as [c' evr] eqn:Hrc.
  cbn [fst snd] in Hty, Hba, Hrm, Hrmd.
  unfold rq_data_dir. cbn [cmd_dir].
  destruct (nonzero dri) eqn:Hdri.
  { apply nonzero_true in Hdri.
    destruct (removed c).
    - rec_leaf. cbn [recovery_trace_ok card req try_recovery].
      repeat split; auto; try lia; intros Hx; discriminate Hx.
    - destruct (nonzero (reinit_err e)); cbn [negb].
      + destruct (mmc_card_sd c).
        * rec_leaf. cbn [recovery_trace_ok card req try_recovery].
          repeat split; auto; try lia.
          -- destruct Hrm as [-> | ->]; pick_disj.
          -- intros Hx. destruct Hrm as [-> | ->]; [discriminate Hx|].
             apply Hrmd. reflexivity.
        * rec_leaf. cbn [recovery_trace_ok card req try_recovery].
          repeat split; auto; try lia. intros Hx; discriminate Hx.
      + rec_leaf. cbn [recovery_trace_ok card req try_recovery].
        repeat split; auto; try lia.
        intros Hx. clear - Hx. unfold mmc_blk_set_blksize in Hx.
        destruct (mmc_card_blockaddr c); discriminate Hx. }
  apply nonzero_false in Hdri. subst dri.
  destruct (nonzero drm) eqn:Hdrm.
  { rec_leaf. cbn [recovery_trace_ok card req try_recovery].
    repeat split; auto; try lia.
    - destruct Hrm as [-> | ->]; pick_disj.
    - intros Hx. destruct Hrm as [-> | ->]; discriminate Hx.
    - intros Hx. destruct Hrm as [-> | ->]; [discriminate Hx|].
      apply Hrmd. reflexivity. }
  apply nonzero_false in Hdrm. subst drm.
  destruct (brq_failed b || nonzero cnr).
  2:{ unfold __blk_end_request. rec_leaf.
      cbn [recovery_trace_ok card req try_recovery cmd_dir].
      repeat split; eauto; try lia; intros Hx; discriminate Hx. }
  destruct (Z.eqb_spec tr 1) as [Htr|Htr].
  { subst tr. locals_simpl. change (nonzero 1) with true. cbn [orb].
    change (nonzero 1) with true. cbn iota. locals_simpl. rewrite ?Hrc.
    destruct (removed c).
    - rec_leaf. cbn [recovery_trace_ok card req try_recovery].
      repeat split; auto; try lia; intros Hx; discriminate Hx.
    - destruct (nonzero (reinit_err e)); cbn [negb].
      + destruct (mmc_card_sd c).
        * rec_leaf. cbn [recovery_trace_ok card req try_recovery].
          repeat split; auto; try lia.
          -- destruct Hrm as [-> | ->]; pick_disj.
          -- intros Hx. destruct Hrm as [-> | ->]; [discriminate Hx|].
             apply Hrmd. reflexivity.
        * rec_leaf. cbn [recovery_trace_ok card req try_recovery].
          repeat split; auto; try lia. intros Hx; discriminate Hx.
      + rec_leaf. cbn [recovery_trace_ok card req try_recovery].
        repeat split; auto; try lia.
        intros Hx. clear - Hx. unfold mmc_blk_set_blksize in Hx.
        destruct (mmc_card_blockaddr c); discriminate Hx. }
  destruct (mmc_card_sd c && (tr =? 2)).
  { locals_simpl. change (nonzero 0) with false. change (nonzero 1) with true.
    cbn [orb]. cbn iota. locals_simpl. rewrite ?Hrc.
    rec_leaf. cbn [recovery_trace_ok card req try_recovery].
    repeat split; auto; try lia.
    - destruct Hrm as [-> | ->]; pick_disj.
    - intros Hx. destruct Hrm as [-> | ->]; discriminate Hx.
    - intros Hx. destruct Hrm as [-> | ->]; [discriminate Hx|].
      apply Hrmd. reflexivity. }
  locals_simpl. change (nonzero 0) with false. cbn [orb]. cbn iota.
  locals_simpl.
  destruct (direction_eqb (cmd_dir r) READ).
  - unfold __blk_end_request. locals_simpl. rec_leaf.
    cbn [recovery_trace_ok card req try_recovery cmd_dir].
    repeat split; eauto; try lia; try (intros Hx; discriminate Hx).
  - rec_leaf. cbn [recovery_trace_ok card req try_recovery].
    repeat split; auto; try lia; try (intros Hx; discriminate Hx).
Qed.

Lemma plan_blocks_capped (h : mmc_host) (dm : Z) (r : request) :
  plan_blocks h dm r <= max_blk_count h.
Proof.
  unfold plan_blocks.
  destruct (Z.gtb_spec (blk_rq_sectors r) (max_blk_count h)) as [Hgt|Hle].
  - destruct (nonzero dm); cbn [andb]; [|lia].
    destruct (Z.gtb_spec (max_blk_count h) 1); lia.
  - destruct (nonzero dm); cbn [andb]; [|lia].
    destruct (Z.gtb_spec (blk_rq_sectors r) 1); lia.
Qed.

Lemma plan_opcode_fits (r : request) (n : Z) :
  opcode_fits (cmd_dir r) (plan_opcode r n) = true.
Proof.
  unfold plan_opcode, rq_data_dir.
  destruct (cmd_dir r), (n >? 1); reflexivity.
Qed.

Lemma brq_event_ok (h : mmc_host) (sd ba : bool) (s : issue_state)
    (e : cycle_env) :
  cycle_event_ok h sd ba (cmd_dir (req s)) (brq_event (brq_of h s e)) = true.
Proof.
  unfold brq_event, brq_of, mmc_wait_for_req.
  cbn [cycle_event_ok cmd_opcode data_blocks].
  rewrite plan_opcode_fits, andb_true_r. apply Z.leb_le.
  apply plan_blocks_capped.
Qed.

Lemma count_events_app (p : event -> bool) (l1 l2 : list event) :
  count_events p (l1 ++ l2) = (count_events p l1 + count_events p l2)%nat.
Proof. unfold count_events. rewrite filter_app, length_app. reflexivity. Qed.

Lemma count_events_none (p : event -> bool) (l : list event) :
  existsb p l = false -> count_events p l = 0%nat.
Proof.
  unfold count_events. induction l as [|a l IH]; [reflexivity|].
  cbn [existsb filter]. destruct (p a); [discriminate|]. exact IH.
Qed.

Lemma existsb_none (p q : event -> bool) (l : list event) :
  (forall x, q x = true -> p x = false) ->
  forallb q l = true -> existsb p l = false.
Proof.
  intros Hqp. induction l as [|a l IH]; [reflexivity|].
  cbn [forallb existsb]. intros Hq. apply andb_true_iff in Hq.
  destruct Hq as [Ha Hl]. rewrite (Hqp a Ha), (IH Hl). reflexivity.
Qed.

Lemma poll_event_cycle_ok (h : mmc_host) (sd ba : bool) (ev : event) :
  mmc_host_is_spi h = false ->
  poll_event_ok sd ev = true ->
  cycle_event_ok h sd ba WRITE ev = true /\ is_poll_event ev = true.
Proof.
  intros Hspi. destruct ev; cbn; try discriminate; rewrite Hspi; cbn.
  - intros ->. split; reflexivity.
  - intros _. split; reflexivity.
Qed.

(** What the guarded status poll calls and what it does to the locals. *)
Lemma wait_card_ready_shape (h : mmc_host) (e : cycle_env) (s : issue_state)
    (x : poll_exit) (s' : issue_state) (ev : list event) :
  do_reinit s = 0 -> do_remove s = 0 ->
  wait_card_ready h e s = (x, s', ev) ->
  forallb (cycle_event_ok h (mmc_card_sd (card s)) (blockaddr (card s))
             (cmd_dir (req s))) ev = true
  /\ forallb is_poll_event ev = true
  /\ card s' = card s /\ req s' = req s /\ ret s' = ret s
  /\ ((try_recovery s' = try_recovery s
       /\ do_reinit s' = 0 /\ do_remove s' = 0)
      \/ (x = PollDone /\ try_recovery s = 1 /\ try_recovery s' = 2
          /\ do_reinit s' = 1 /\ do_remove s' = 0)
      \/ (x = PollDone /\ try_recovery s <> 1
          /\ try_recovery s' = try_recovery s + 1
          /\ do_reinit s' = 0 /\ (do_remove s' = 0 \/ do_remove s' = 1))).
Proof.
  intros Hri Hrm. unfold wait_card_ready.
  destruct (mmc_host_is_spi h) eqn:Hspi; cbn [negb andb].
  { intros Heq. inversion Heq; subst. cbn. auto 10. }
  unfold rq_data_dir.
  destruct (cmd_dir (req s)) eqn:Hdir; cbn [direction_eqb negb].
  { intros Heq. inversion Heq; subst. cbn. auto 10. }
  destruct (status_poll_frame (mmc_card_sd (card s)) (polls e) 0 (set_err s 0)
              Hri Hrm)
    as (x1 & s1 & ev1 & Hrun & Hreq & Hret & _ & _ & Hcases).
  pose proof (status_poll_events (mmc_card_sd (card s)) (polls e) 0
                (set_err s 0)) as (Hev & Hcard & _).
  rewrite Hrun in Hev, Hcard |- *. cbn [fst snd] in Hev, Hcard.
  assert (Hevs : forallb (cycle_event_ok h (mmc_card_sd (card s))
                            (blockaddr (card s)) WRITE) ev1 = true
                 /\ forallb is_poll_event ev1 = true).
  { split.
    - apply (forallb_impl (poll_event_ok (mmc_card_sd (card s)))); [|exact Hev].
      intros v Hv. apply (poll_event_cycle_ok h _ _ v Hspi Hv).
    - apply (forallb_impl (poll_event_ok (mmc_card_sd (card s)))); [|exact Hev].
      intros v Hv. apply (poll_event_cycle_ok h _ (blockaddr (card s)) v Hspi Hv). }
  destruct Hevs as [Hev1 Hev2].
  cbn [set_err card req ret try_recovery do_reinit do_remove] in *.
  destruct x1.
  - destruct (nonzero (err s1)); intros Heq; inversion Heq; subst;
      locals_simpl; auto 10.
  - intros Heq; inversion Heq; subst. auto 10.
  - intros Heq; inversion Heq; subst. auto 10.
Qed.

(** Back at the loop test, nothing is left scheduled. *)
Lemma recovery_clears (e : cycle_env) (b : mmc_blk_request) (s : issue_state) :
  do_reinit s = 0 \/ do_remove s = 0 ->
  fst (fst (recovery 2 e b s)) = LoopTest ->
  do_reinit (snd (fst (recovery 2 e b s))) = 0
  /\ do_remove (snd (fst (recovery 2 e b s))) = 0.
Proof.
  destruct (recovery 2 e b s) as [[f s'] ev] eqn:Hrec. cbn [fst snd].
  revert Hrec.
  destruct s as [r c rt dm cnr er tr dri drm].
  cbn [do_reinit do_remove]. intros Hrec Hor. revert Hrec.
  cbn [recovery]. locals_simpl. unfold escalate. locals_simpl.
  unfold rq_data_dir. cbn [cmd_dir].
  destruct (nonzero dri) eqn:Hdri.
  { apply nonzero_true in Hdri.
    assert (Hz : drm = 0) by (destruct Hor; [contradiction | assumption]).
    subst drm.
    destruct (removed c); [rec_leaf; discriminate|].
    destruct (nonzero (reinit_err e)); cbn [negb].
    - destruct (mmc_card_sd c); [destruct (remove_card c)|]; rec_leaf;
        discriminate.
    - rec_leaf. cbn. auto. }
  apply nonzero_false in Hdri. subst dri.
  destruct (nonzero drm) eqn:Hdrm.
  { destruct (remove_card c); rec_leaf; discriminate. }
  apply nonzero_false in Hdrm. subst drm.
  destruct (brq_failed b || nonzero cnr).
  2:{ unfold __blk_end_request. rec_leaf. cbn. auto. }
  destruct (Z.eqb_spec tr 1) as [Htr|Htr].
  { subst tr. locals_simpl. change (nonzero 1) with true. cbn [orb].
    change (nonzero 1) with true. cbn iota. locals_simpl.
    destruct (removed c); [rec_leaf; discriminate|].
    destruct (nonzero (reinit_err e)); cbn [negb].
    - destruct (mmc_card_sd c); [destruct (remove_card c)|]; rec_leaf;
        discriminate.
    - rec_leaf. cbn. auto. }
  destruct (mmc_card_sd c && (tr =? 2)).
  { locals_simpl. change (nonzero 0) with false. change (nonzero 1) with true.
    cbn [orb]. cbn iota. locals_simpl.
    destruct (remove_card c); rec_leaf; discriminate. }
  locals_simpl. change (nonzero 0) with false. cbn [orb]. cbn iota.
  locals_simpl.
  destruct (direction_eqb (cmd_dir r) READ).
  - unfold __blk_end_request. rec_leaf. cbn. auto.
  - rec_leaf. discriminate.
Qed.

Lemma recovery_trace_facts (h : mmc_host) (sd : bool) (d : direction)
    (c : mmc_card) (f : flow) (ev : list event) :
  recovery_trace_ok c f ev ->
  forallb (cycle_event_ok h sd (blockaddr c) d) ev = true
  /\ (count_events is_reinit ev <= 1)%nat
  /\ (existsb is_removal ev = true ->
      f = GotoCmdErr
      /\ exists pre, ev = pre ++ [EvRemovalWork]
                     /\ existsb is_removal pre = false).
Proof.
  destruct f; cbn [recovery_trace_ok]; [| |contradiction].
  - intros [-> | (er & n & ->)].
    + unfold mmc_blk_set_blksize, mmc_card_blockaddr.
      destruct (blockaddr c); cbn; repeat split; try lia; discriminate.
    + cbn. repeat split; try lia; discriminate.
  - intros [-> | [-> | [-> | ->]]]; cbn; repeat split; try lia;
      try discriminate.
    + exists [EvReinitCard]. split; reflexivity.
    + exists []. split; reflexivity.
Qed.

(** One pass through the loop body from a state with nothing scheduled:
    what it may call, what it keeps, and how reinitialisation and removal
    show in it. *)
Lemma issue_cycle_shape (h : mmc_host) (e : cycle_env) (s : issue_state)
    (f : flow) (s' : issue_state) (ev : list event) (b : mmc_blk_request) :
  do_reinit s = 0 -> do_remove s = 0 ->
  issue_cycle h e s = (f, s', ev, b) ->
  forallb (cycle_event_ok h (mmc_card_sd (card s)) (blockaddr (card s))
             (cmd_dir (req s))) ev = true
  /\ type (card s') = type (card s)
  /\ blockaddr (card s') = blockaddr (card s)
  /\ cmd_dir (req s') = cmd_dir (req s)
  /\ try_recovery s <= try_recovery s'
  /\ (f = LoopTest -> do_reinit s' = 0 /\ do_remove s' = 0)
  /\ (count_events is_reinit ev <= 1)%nat
  /\ (existsb is_reinit ev = true ->
      try_recovery s <= 1 /\ 2 <= try_recovery s')
  /\ (existsb is_removal ev = true ->
      f = GotoCmdErr /\ removed (card s') = true
      /\ exists pre, ev = pre ++ [EvRemovalWork]
                     /\ existsb is_removal pre = false).
Proof.
  intros Hri Hrm. unfold issue_cycle. fold (brq_of h s e).
  pose proof (brq_event_ok h (mmc_card_sd (card s)) (blockaddr (card s)) s e)
    as Hbrq.
  destruct (brq_failed (brq_of h s e) && (data_blocks (brq_of h s e) >? 1)
            && direction_eqb (rq_data_dir (req s)) READ).
  { intros Heq. inversion Heq; subst. locals_simpl.
    cbn [forallb]. rewrite Hbrq. unfold brq_event. cbn.
    repeat split; auto; try lia; discriminate. }
  assert (Hs1 : exists s1 ev1,
             (if brq_failed (brq_of h s e) then (s, [EvGetCardStatus])
              else if disable_multi s =? 1 then (set_disable_multi s 0, [])
                   else (s, [])) = (s1, ev1)
             /\ card s1 = card s /\ req s1 = req s
             /\ try_recovery s1 = try_recovery s
             /\ do_reinit s1 = 0 /\ do_remove s1 = 0
             /\ (ev1 = [] \/ ev1 = [EvGetCardStatus])).
  { destruct (brq_failed (brq_of h s e)); [|destruct (disable_multi s =? 1)];
      do 2 eexists; (split; [reflexivity|]); locals_simpl; auto 10. }
  destruct Hs1 as (s1 & ev1 & -> & Hc1 & Hr1 & Ht1 & Hri1 & Hrm1 & Hev1).
  destruct (wait_card_ready h e s1) as [[x s2] ev2] eqn:Hwait.
  destruct (wait_card_ready_shape h e s1 x s2 ev2 Hri1 Hrm1 Hwait)
    as (Hok2 & Hpoll2 & Hc2 & Hr2 & _ & Hcase2).
  rewrite Hc1, Hr1 in Hok2. rewrite Hc1 in Hc2. rewrite Hr1 in Hr2.
  rewrite Ht1 in Hcase2.
  set (pre := brq_event (brq_of h s e) :: ev1 ++ ev2).
  assert (Hpre : forallb (cycle_event_ok h (mmc_card_sd (card s))
                            (blockaddr (card s)) (cmd_dir (req s))) pre = true
                 /\ existsb is_reinit pre = false
                 /\ existsb is_removal pre = false).
  { subst pre. cbn [forallb existsb]. rewrite Hbrq, forallb_app, Hok2.
    rewrite !existsb_app.
    rewrite (existsb_none is_reinit is_poll_event ev2),
            (existsb_none is_removal is_poll_event ev2); try exact Hpoll2;
      try (intros v; destruct v; cbn; congruence).
    unfold brq_event.
    destruct Hev1 as [-> | ->]; cbn; auto. }
  destruct Hpre as (Hpre_ok & Hpre_ri & Hpre_rm).
  assert (Htry2 : try_recovery s <= try_recovery s2)
    by (destruct Hcase2 as [(-> & _) | [(_ & H1 & -> & _) | (_ & _ & -> & _)]];
        lia).
  destruct x.
  - destruct (recovery 2 e (brq_of h s e) s2) as [[f3 s3] ev3] eqn:Hrec.
    pose proof (recovery_shape e (brq_of h s e) s2) as Hshape.
    pose proof (recovery_clears e (brq_of h s e) s2) as Hclear.
    rewrite Hrec in Hshape, Hclear. cbn [fst snd] in Hshape, Hclear.
    destruct Hshape as (Htr3 & Hty3 & Hba3 & Hdir3 & Htry3 & Hri3 & Hrm3).
    destruct (recovery_trace_facts h (mmc_card_sd (card s)) (cmd_dir (req s))
                _ _ _ Htr3) as (Hok3 & Hcnt3 & Hrmv3).
    rewrite Hc2 in Hok3.
    intros Heq. inversion Heq; subst f3 s3 ev b. clear Heq.
    replace (brq_event (brq_of h s e) :: ev1 ++ ev2 ++ ev3)
      with (pre ++ ev3)
      by (subst pre; cbn [app]; rewrite <- app_assoc; reflexivity).
    rewrite forallb_app, Hpre_ok, Hok3, count_events_app,
      (count_events_none _ _ Hpre_ri), !existsb_app, Hpre_ri, Hpre_rm.
    cbn [andb orb Nat.add].
    rewrite Hty3, Hba3, Hdir3, Hc2, Hr2.
    split; [reflexivity|]. split; [reflexivity|]. split; [reflexivity|].
    split; [reflexivity|]. split; [lia|].
    split.
    { intros Hf. apply Hclear; [|exact Hf].
      destruct Hcase2 as [(_ & H0 & _) | [(_ & _ & _ & _ & H0) | (_ & _ & _ & H0 & _)]];
        auto. }
    split; [exact Hcnt3|].
    split.
    { intros Hx. destruct (Hri3 Hx) as [(Hne & Heq3) | (H0 & H1 & H2)].
      - destruct Hcase2 as [(_ & H0 & _) | [(_ & H1 & H2 & _) | (_ & _ & _ & H0 & _)]];
          try contradiction. lia.
      - lia. }
    intros Hx. destruct (Hrmv3 Hx) as (Hf & pre3 & Hev3 & Hno).
    split; [exact Hf|]. split; [exact (Hrm3 Hx)|].
    exists (pre ++ pre3). rewrite Hev3, app_assoc, existsb_app, Hpre_rm, Hno.
    split; reflexivity.
  - intros Heq. inversion Heq; subst f s2 ev b. clear Heq.
    fold pre. rewrite Hpre_ok, Hpre_ri, Hpre_rm, Hc2, Hr2,
      (count_events_none _ _ Hpre_ri).
    repeat split; try lia; discriminate.
  - intros Heq. inversion Heq; subst f s2 ev b. clear Heq.
    fold pre. rewrite Hpre_ok, Hpre_ri, Hpre_rm, Hc2, Hr2,
      (count_events_none _ _ Hpre_ri).
    repeat split; try lia; discriminate.
Qed.

Lemma fail_remaining_events (fuel : nat) :
  forall (r : request) (rc : Z),
    forallb is_eio_report (snd (fail_remaining fuel r rc)) = true.
Proof.
  induction fuel as [|fuel IH]; intros r rc; cbn [fail_remaining];
    destruct (rc =? 0); try reflexivity.
  destruct (__blk_end_request r (- EIO) (blk_rq_cur_bytes r)) as [r' rc'].
  specialize (IH r' rc').
  destruct (fail_remaining fuel r' rc') as [[[out r2] rc2] ev].
  cbn [snd forallb is_eio_report] in *. rewrite IH. reflexivity.
Qed.

Lemma cmd_err_prefix_events (h : mmc_host) (q : sd_query)
    (b : mmc_blk_request) (s : issue_state) :
  forallb (cmd_err_event_ok (mmc_card_sd (card s)))
    (snd (cmd_err_prefix h q b s)) = true
  /\ card (fst (cmd_err_prefix h q b s)) = card s.
Proof.
  unfold cmd_err_prefix, mmc_sd_num_wr_blocks, __blk_end_request.
  destruct (mmc_card_sd (card s)); [|cbn; auto].
  repeat match goal with
         | |- context [if ?c then _ else _] => destruct c
         end; cbn; auto.
Qed.

(** [cmd_err] reports, releases the host, and then only fails what is
    left; it does not touch the card. *)
Lemma cmd_err_shape (h : mmc_host) (q : sd_query) (b : mmc_blk_request)
    (s : issue_state) :
  exists pre post,
    snd (cmd_err h q b s) = pre ++ EvReleaseHost :: post
    /\ forallb (cmd_err_event_ok (mmc_card_sd (card s))) pre = true
    /\ forallb is_eio_report post = true
    /\ card (snd (fst (cmd_err h q b s))) = card s.
Proof.
  unfold cmd_err.
  destruct (cmd_err_prefix_events h q b s) as [Hpre Hcard].
  destruct (cmd_err_prefix h q b s) as [s1 ev1]. cbn [fst snd] in Hpre, Hcard.
  pose proof (fail_remaining_events (S (length (bio_segs (req s1)))) (req s1)
                (ret s1)) as Hpost.
  destruct (fail_remaining (S (length (bio_segs (req s1)))) (req s1) (ret s1))
    as [[[out r2] rc2] ev2]. cbn [fst snd] in *.
  exists ev1, ev2. locals_simpl. auto.
Qed.

Lemma cycle_event_run_ok (h : mmc_host) (sd ba : bool) (d : direction)
    (ev : event) :
  cycle_event_ok h sd ba d ev = true -> run_event_ok h sd ba d ev = true.
Proof. destruct ev; cbn; auto; discriminate. Qed.

Lemma cmd_err_event_run_ok (h : mmc_host) (sd ba : bool) (d : direction)
    (ev : event) :
  cmd_err_event_ok sd ev = true -> run_event_ok h sd ba d ev = true.
Proof. destruct ev; cbn; auto; discriminate. Qed.

Lemma eio_report_run_ok (h : mmc_host) (sd ba : bool) (d : direction)
    (ev : event) :
  is_eio_report ev = true -> run_event_ok h sd ba d ev = true.
Proof. destruct ev; cbn; auto; discriminate. Qed.

Lemma quiet_skip (pre l : list event) :
  existsb is_removal pre = false ->
  quiet_after_removal (pre ++ l) = quiet_after_removal l.
Proof.
  induction pre as [|a pre IH]; [reflexivity|].
  cbn [existsb app]. intros Hx. apply orb_false_iff in Hx.
  destruct Hx as [Ha Hpre]. destruct a; try discriminate Ha;
    cbn [quiet_after_removal]; apply IH; exact Hpre.
Qed.

Lemma quiet_none (l : list event) :
  existsb is_removal l = false -> quiet_after_removal l = true.
Proof.
  intros Hx. rewrite <- (app_nil_r l). rewrite (quiet_skip l [] Hx).
  reflexivity.
Qed.

Lemma cmd_err_events_quiet (sd : bool) (pre post : list event) :
  forallb (cmd_err_event_ok sd) pre = true ->
  forallb is_eio_report post = true ->
  existsb is_host_event pre = false
  /\ existsb is_reinit (pre ++ EvReleaseHost :: post) = false
  /\ existsb is_removal (pre ++ EvReleaseHost :: post) = false
  /\ forallb (fun ev => negb (is_rw_command ev || is_reinit ev || is_removal ev))
       (pre ++ EvReleaseHost :: post) = true.
Proof.
  intros Hpre Hpost.
  rewrite !existsb_app, forallb_app. cbn [existsb forallb is_reinit is_removal
    is_rw_command orb negb andb].
  rewrite (existsb_none is_host_event (cmd_err_event_ok sd) pre),
    (existsb_none is_reinit (cmd_err_event_ok sd) pre),
    (existsb_none is_removal (cmd_err_event_ok sd) pre),
    (existsb_none is_reinit is_eio_report post),
    (existsb_none is_removal is_eio_report post); try assumption;
    try (intros v; destruct v; cbn; congruence).
  rewrite (forallb_impl (cmd_err_event_ok sd) _ pre),
    (forallb_impl is_eio_report _ post); try assumption;
    try (intros v; destruct v; cbn; congruence).
  auto.
Qed.

(** The calls of the request loop from a state with nothing scheduled. *)
Lemma issue_loop_shape (h : mmc_host) :
  forall (envs : list cycle_env) (s : issue_state),
    do_reinit s = 0 -> do_remove s = 0 ->
    forallb (run_event_ok h (mmc_card_sd (card s)) (blockaddr (card s))
               (cmd_dir (req s))) (trace (issue_loop h envs s)) = true
    /\ (count_events is_reinit (trace (issue_loop h envs s)) <= 1)%nat
    /\ (2 <= try_recovery s ->
        count_events is_reinit (trace (issue_loop h envs s)) = 0%nat)
    /\ quiet_after_removal (trace (issue_loop h envs s)) = true
    /\ (existsb is_removal (trace (issue_loop h envs s)) = true ->
        removed (card (final (issue_loop h envs s))) = true
        /\ forall rv, ending (issue_loop h envs s) = Returned rv -> rv = 0).
Proof.
  induction envs as [|e rest IH]; intros s Hri Hrm.
  { cbn. split; [reflexivity|]. split; [lia|]. split; [reflexivity|].
    split; [reflexivity|].
    intros Hx; discriminate Hx. }
  cbn [issue_loop].
  destruct (issue_cycle h e s) as [[[f s1] ev] b] eqn:Hcyc.
  destruct (issue_cycle_shape h e s f s1 ev b Hri Hrm Hcyc)
    as (Hok & Hty & Hba & Hdir & Htry & Hclr & Hcnt & Hrei & Hrmv).
  assert (Hsd : mmc_card_sd (card s1) = mmc_card_sd (card s))
    by (unfold mmc_card_sd; rewrite Hty; reflexivity).
  assert (Hrun : forallb (run_event_ok h (mmc_card_sd (card s))
                            (blockaddr (card s)) (cmd_dir (req s))) ev = true).
  { apply (forallb_impl _ _ ev (cycle_event_run_ok h _ _ _) Hok). }
  destruct f.
  - (* back at the loop test *)
    destruct (Hclr eq_refl) as [Hri1 Hrm1].
    assert (Hnorm : existsb is_removal ev = false).
    { destruct (existsb is_removal ev) eqn:Hx; [|reflexivity].
      destruct (Hrmv eq_refl) as [Hf _]. discriminate Hf. }
    assert (Hcnt0 : existsb is_reinit ev = false ->
                    count_events is_reinit ev = 0%nat)
      by apply count_events_none.
    destruct (nonzero (ret s1)).
    + destruct (IH s1 Hri1 Hrm1) as (IH1 & IH2 & IH3 & IH5 & IH6).
      rewrite Hsd, Hba, Hdir in IH1.
      unfold after_cycle. cbn [trace ending final].
      rewrite forallb_app, count_events_app, existsb_app,
        (quiet_skip _ _ Hnorm), Hrun, IH1, Hnorm.
      cbn [andb orb].
      split; [reflexivity|].
      split.
      { destruct (existsb is_reinit ev) eqn:Hx.
        - destruct (Hrei eq_refl) as [_ H2]. rewrite IH3 by exact H2. lia.
        - rewrite (Hcnt0 eq_refl). exact IH2. }
      split.
      { intros H2. rewrite IH3 by lia.
        destruct (existsb is_reinit ev) eqn:Hx.
        - destruct (Hrei eq_refl) as [H1 _]. lia.
        - rewrite (Hcnt0 eq_refl). reflexivity. }
      split; [exact IH5 | exact IH6].
    + cbn [trace ending final].
      rewrite forallb_app, count_events_app, existsb_app,
        (quiet_skip _ _ Hnorm), Hrun, Hnorm.
      cbn.
      split; [reflexivity|].
      split; [lia|].
      split.
      { intros H2. destruct (existsb is_reinit ev) eqn:Hx.
        - destruct (Hrei eq_refl) as [H1 _]. lia.
        - rewrite (Hcnt0 eq_refl). reflexivity. }
      split; [reflexivity|]. intros Hx; discriminate Hx.
  - (* through cmd_err *)
    destruct (cmd_err_shape h (sdq e) b s1)
      as (pre2 & post2 & Hev2 & Hpre2 & Hpost2 & Hcard2).
    destruct (cmd_err h (sdq e) b s1) as [[out s2] ev2].
    cbn [fst snd] in Hev2, Hcard2. subst ev2.
    cbn [trace ending final].
    rewrite Hsd in Hpre2.
    destruct (cmd_err_events_quiet _ pre2 post2 Hpre2 Hpost2)
      as (Hh2 & Hri2 & Hrm2 & Hq2).
    assert (Hrun2 : forallb (run_event_ok h (mmc_card_sd (card s))
                               (blockaddr (card s)) (cmd_dir (req s)))
                      (pre2 ++ EvReleaseHost :: post2) = true).
    { rewrite forallb_app. cbn [forallb run_event_ok].
      rewrite (forallb_impl _ _ pre2 (cmd_err_event_run_ok h _ _ _) Hpre2),
        (forallb_impl _ _ post2 (eio_report_run_ok h _ _ _) Hpost2).
      reflexivity. }
    rewrite forallb_app, count_events_app, existsb_app, Hrun, Hrun2, Hrm2,
      (count_events_none _ _ Hri2), Nat.add_0_r, orb_false_r.
    split; [reflexivity|].
    split; [exact Hcnt|].
    split.
    { intros H2. destruct (existsb is_reinit ev) eqn:Hx.
      - destruct (Hrei eq_refl) as [H1 _]. lia.
      - apply count_events_none. exact Hx. }
    split.
    { destruct (existsb is_removal ev) eqn:Hx.
      - destruct (Hrmv eq_refl) as (_ & _ & pre & -> & Hno).
        rewrite <- app_assoc. cbn [app]. rewrite (quiet_skip _ _ Hno).
        cbn [quiet_after_removal]. exact Hq2.
      - rewrite (quiet_skip _ _ Hx). apply quiet_none. exact Hrm2. }
    intros Hx. destruct (Hrmv Hx) as (_ & Hrem & _).
    split; [rewrite Hcard2; exact Hrem|].
    intros rv Hend. destruct out; [|discriminate Hend].
    inversion Hend. reflexivity.
  - (* an inner loop was not left *)
    cbn [trace ending final].
    rewrite Hrun.
    split; [reflexivity|].
    split; [exact Hcnt|].
    split.
    { intros H2. destruct (existsb is_reinit ev) eqn:Hx.
      - destruct (Hrei eq_refl) as [H1 _]. lia.
      - apply count_events_none. exact Hx. }
    destruct (existsb is_removal ev) eqn:Hx.
    + destruct (Hrmv eq_refl) as [Hf _]. discriminate Hf.
    + split; [apply quiet_none; exact Hx | intros Hy; discriminate Hy].
Qed.

(** ** The host across a call *)

Lemma host_nesting_app (l1 l2 : list event) :
  forall d,
    host_nesting d (l1 ++ l2)
    = match host_nesting d l1 with
      | Some d' => host_nesting d' l2
      | None => None
      end.
Proof.
  induction l1 as [|a l1 IH]; intros d; [reflexivity|].
  destruct a; cbn [app host_nesting]; try apply IH.
  destruct d; [reflexivity | apply IH].
Qed.

Lemma host_nesting_quiet (l : list event) :
  existsb is_host_event l = false -> forall d, host_nesting d l = Some d.
Proof.
  induction l as [|a l IH]; intros Hq d; [reflexivity|].
  cbn [existsb] in Hq. apply orb_false_iff in Hq. destruct Hq as [Ha Hl].
  destruct a; try discriminate Ha; cbn [host_nesting]; apply IH; exact Hl.
Qed.

Lemma recovery_trace_host (c : mmc_card) (f : flow) (ev : list event) :
  recovery_trace_ok c f ev ->
  (forall d, host_nesting d ev = Some d)
  /\ (count_events is_claim ev <= count_events is_reinit ev)%nat.
Proof.
  destruct f; cbn [recovery_trace_ok]; [| |contradiction].
  - intros [-> | (er & n & ->)].
    + unfold mmc_blk_set_blksize. destruct (mmc_card_blockaddr c);
        split; try reflexivity; cbn; lia.
    + split; [reflexivity | cbn; lia].
  - intros [-> | [-> | [-> | ->]]]; split; try reflexivity; cbn; lia.
Qed.

(** Within a pass through the loop body the host is claimed again only
    around the SET_BLOCKLEN that follows a reinitialisation, and what is
    claimed there is released there. *)
Lemma issue_cycle_host (h : mmc_host) (e : cycle_env) (s : issue_state)
    (f : flow) (s' : issue_state) (ev : list event) (b : mmc_blk_request) :
  do_reinit s = 0 -> do_remove s = 0 ->
  issue_cycle h e s = (f, s', ev, b) ->
  (forall d, host_nesting d ev = Some d)
  /\ (count_events is_claim ev <= count_events is_reinit ev)%nat.
Proof.
  intros Hri Hrm. unfold issue_cycle. fold (brq_of h s e).
  destruct (brq_failed (brq_of h s e) && (data_blocks (brq_of h s e) >? 1)
            && direction_eqb (rq_data_dir (req s)) READ).
  { intros Heq. inversion Heq; subst. split; [reflexivity | cbn; lia]. }
  assert (Hs1 : exists s1 ev1,
             (if brq_failed (brq_of h s e) then (s, [EvGetCardStatus])
              else if disable_multi s =? 1 then (set_disable_multi s 0, [])
                   else (s, [])) = (s1, ev1)
             /\ do_reinit s1 = 0 /\ do_remove s1 = 0
             /\ existsb is_host_event ev1 = false
             /\ existsb is_claim ev1 = false).
  { destruct (brq_failed (brq_of h s e)); [|destruct (disable_multi s =? 1)];
      do 2 eexists; (split; [reflexivity|]); locals_simpl; auto. }
  destruct Hs1 as (s1 & ev1 & -> & Hri1 & Hrm1 & Hno1 & Hnc1).
  destruct (wait_card_ready h e s1) as [[x s2] ev2] eqn:Hwait.
  destruct (wait_card_ready_shape h e s1 x s2 ev2 Hri1 Hrm1 Hwait)
    as (_ & Hpoll2 & _).
  assert (Hno2 : existsb is_host_event ev2 = false).
  { apply (existsb_none _ _ _) with (2 := Hpoll2).
    intros v; destruct v; cbn; congruence. }
  assert (Hnc2 : existsb is_claim ev2 = false).
  { apply (existsb_none _ _ _) with (2 := Hpoll2).
    intros v; destruct v; cbn; congruence. }
  set (pre := brq_event (brq_of h s e) :: ev1 ++ ev2).
  assert (Hpre : existsb is_host_event pre = false
                 /\ existsb is_claim pre = false).
  { subst pre. unfold brq_event. cbn [existsb is_host_event is_claim orb].
    rewrite !existsb_app, Hno1, Hno2, Hnc1, Hnc2. split; reflexivity. }
  destruct Hpre as [Hpre_h Hpre_c].
  destruct x.
  - pose proof (recovery_shape e (brq_of h s e) s2) as (Htr3 & _).
    apply recovery_trace_host in Htr3.
    destruct (recovery 2 e (brq_of h s e) s2) as [[f3 s3] ev3].
    cbn [fst snd] in Htr3. destruct Htr3 as [Hn3 Hc3].
    intros Heq. inversion Heq; subst f3 s3 ev b. clear Heq.
    replace (brq_event (brq_of h s e) :: ev1 ++ ev2 ++ ev3)
      with (pre ++ ev3)
      by (subst pre; cbn [app]; rewrite <- app_assoc; reflexivity).
    split.
    + intros d. rewrite host_nesting_app, (host_nesting_quiet _ Hpre_h).
      apply Hn3.
    + rewrite !count_events_app, (count_events_none _ _ Hpre_c). lia.
  - intros Heq. inversion Heq; subst f s2 ev b. clear Heq. fold pre.
    split; [apply host_nesting_quiet; exact Hpre_h|].
    rewrite (count_events_none _ _ Hpre_c). lia.
  - intros Heq. inversion Heq; subst f s2 ev b. clear Heq. fold pre.
    split; [apply host_nesting_quiet; exact Hpre_h|].
    rewrite (count_events_none _ _ Hpre_c). lia.
Qed.

(** A run that returns releases the host at its end, once for the claim
    at its start; whatever it claims in between it releases in between. *)
Lemma issue_loop_host (h : mmc_host) :
  forall (envs : list cycle_env) (s : issue_state),
    do_reinit s = 0 -> do_remove s = 0 ->
    forall rv, ending (issue_loop h envs s) = Returned rv ->
      exists pre post,
        trace (issue_loop h envs s) = pre ++ EvReleaseHost :: post
        /\ host_nesting 0 pre = Some 0%nat
        /\ (blockaddr (card s) = true -> existsb is_host_event pre = false)
        /\ (count_events is_claim pre <= count_events is_reinit pre)%nat
        /\ forallb is_eio_report post = true
        /\ (rv = 1 -> post = []).
Proof.
  induction envs as [|e rest IH]; intros s Hri Hrm rv.
  { cbn. intros Hx; discriminate Hx. }
  cbn [issue_loop].
  destruct (issue_cycle h e s) as [[[f s1] ev] b] eqn:Hcyc.
  destruct (issue_cycle_shape h e s f s1 ev b Hri Hrm Hcyc)
    as (Hok & Hty & Hba & _ & _ & Hclr & _).
  destruct (issue_cycle_host h e s f s1 ev b Hri Hrm Hcyc) as [Hnest Hclaim].
  assert (Hnohost : blockaddr (card s) = true ->
                    existsb is_host_event ev = false).
  { intros Hblk. rewrite Hblk in Hok.
    apply (existsb_none _ _ ev) with (2 := Hok).
    intros v; destruct v; cbn; congruence. }
  destruct f.
  - destruct (Hclr eq_refl) as [Hri1 Hrm1].
    destruct (nonzero (ret s1)).
    + unfold after_cycle. cbn [trace ending]. intros Hend.
      destruct (IH s1 Hri1 Hrm1 rv Hend)
        as (pre & post & Htr & Hn & Hh & Hc & He & Hp).
      exists (ev ++ pre), post. rewrite Htr, app_assoc.
      split; [reflexivity|].
      split; [rewrite host_nesting_app, Hnest; exact Hn|].
      split.
      { intros Hblk. rewrite existsb_app, (Hnohost Hblk), Hh; [reflexivity|].
        rewrite Hba. exact Hblk. }
      split; [rewrite !count_events_app; lia|].
      split; assumption.
    + cbn [trace ending]. intros _. exists ev, [].
      split; [reflexivity|]. split; [apply Hnest|].
      split; [exact Hnohost|]. split; [exact Hclaim|]. split; reflexivity.
  - destruct (cmd_err_shape h (sdq e) b s1)
      as (pre2 & post2 & Hev2 & Hpre2 & Hpost2 & _).
    destruct (cmd_err h (sdq e) b s1) as [[out s2] ev2].
    cbn [fst snd] in Hev2. subst ev2. cbn [trace ending].
    destruct (cmd_err_events_quiet _ pre2 post2 Hpre2 Hpost2)
      as (Hh2 & _).
    assert (Hc2 : existsb is_claim pre2 = false).
    { apply (existsb_none _ _ _) with (2 := Hpre2).
      intros v; destruct v; cbn; congruence. }
    intros Hend. exists (ev ++ pre2), post2. rewrite app_assoc.
    split; [reflexivity|].
    split; [rewrite host_nesting_app, Hnest; apply host_nesting_quiet;
            exact Hh2|].
    split.
    { intros Hblk. rewrite existsb_app, (Hnohost Hblk), Hh2. reflexivity. }
    split.
    { rewrite !count_events_app, (count_events_none _ _ Hc2). lia. }
    split; [exact Hpost2|].
    intros ->. destruct out; discriminate Hend.
  - cbn [ending]. intros Hend; discriminate Hend.
Qed.

(** ** Whole calls of [mmc_blk_issue_rq] *)

Lemma issue_rq_events (h : mmc_host) (c : mmc_card) (r : request)
    (envs : list cycle_env) :
  trace (mmc_blk_issue_rq h c r envs)
  = EvClaimHost :: trace (issue_loop h envs (init_state r c))
  /\ forallb (run_event_ok h (mmc_card_sd c) (blockaddr c) (cmd_dir r))
       (trace (issue_loop h envs (init_state r c))) = true.
Proof.
  split; [reflexivity|].
  exact (proj1 (issue_loop_shape h envs (init_state r c) eq_refl eq_refl)).
Qed.

(** X14: every read or write command of a call asks for no more blocks
    than the host takes in one transfer ([max_blk_count]), and its opcode
    is a read opcode for a read request and a write opcode for a write
    request. *)
Theorem commands_fit_host_and_direction (h : mmc_host) (c : mmc_card)
    (r : request) (envs : list cycle_env) (opcode arg blocks : Z)
    (stop : bool) :
  In (EvWaitForReq opcode arg blocks stop)
     (trace (mmc_blk_issue_rq h c r envs)) ->
  blocks <= max_blk_count h /\ opcode_fits (cmd_dir r) opcode = true.
Proof.
  destruct (issue_rq_events h c r envs) as [-> Hall].
  intros [Habs | Hin]; [discriminate Habs|].
  pose proof (proj1 (forallb_forall _ _) Hall _ Hin) as Hok.
  cbn [run_event_ok cycle_event_ok] in Hok.
  apply andb_true_iff in Hok. destruct Hok as [Hle Hop].
  split; [apply Z.leb_le; exact Hle | exact Hop].
Qed.

Lemma commands_fit_host_and_direction_witness :
  In (EvWaitForReq MMC_READ_MULTIPLE_BLOCK 100 8 true)
     (trace (mmc_blk_issue_rq Ex.host Ex.emmc (Ex.rq READ 8)
               [Ex.env (Ex.x_ok 4096) Ex.q_fail]))
  /\ 8 <= max_blk_count Ex.host
  /\ opcode_fits READ MMC_READ_MULTIPLE_BLOCK = true.
Proof.
  split.
  - vm_compute. right. left. reflexivity.
  - apply (commands_fit_host_and_direction Ex.host Ex.emmc (Ex.rq READ 8)
             [Ex.env (Ex.x_ok 4096) Ex.q_fail] MMC_READ_MULTIPLE_BLOCK 100 8
             true).
    vm_compute. right. left. reflexivity.
Defined.

(** X15: for a read request, and for any request on an SPI host, the
    polling loop that waits for the card after a transfer does not run:
    none of its SEND_STATUS commands is sent and the driver never sleeps.
    (The single [get_card_status] after a failed transfer is a call of its
    own, [EvGetCardStatus].) *)
Theorem no_status_poll_on_reads (h : mmc_host) (c : mmc_card) (r : request)
    (envs : list cycle_env) :
  cmd_dir r = READ \/ mmc_host_is_spi h = true ->
  existsb is_poll_event (trace (mmc_blk_issue_rq h c r envs)) = false.
Proof.
  intros Hwhy. destruct (issue_rq_events h c r envs) as [-> Hall].
  cbn [existsb is_poll_event orb].
  apply (existsb_none _ _ _) with (2 := Hall).
  intros v Hok. destruct v; try reflexivity; cbn in Hok.
  - apply andb_true_iff in Hok. destruct Hok as [Hok Hs].
    apply andb_true_iff in Hok. destruct Hok as [_ Hw].
    destruct Hwhy as [Hd | Hspi];
      [rewrite Hd in Hw; discriminate Hw | rewrite Hspi in Hs; discriminate Hs].
  - apply andb_true_iff in Hok. destruct Hok as [Hw Hs].
    destruct Hwhy as [Hd | Hspi];
      [rewrite Hd in Hw; discriminate Hw | rewrite Hspi in Hs; discriminate Hs].
Qed.

Lemma no_status_poll_on_reads_witness :
  existsb is_poll_event
    (trace (mmc_blk_issue_rq Ex.host Ex.sdcard (Ex.rq READ 8)
              [Ex.env (Ex.x_ok 4096) Ex.q_fail])) = false.
Proof.
  apply no_status_poll_on_reads. left. reflexivity.
Defined.

(** X16: only an SD card is ever asked how many blocks it wrote, and only
    for an SD card does the driver sleep between status polls. *)
Theorem sd_only_calls (h : mmc_host) (c : mmc_card) (r : request)
    (envs : list cycle_env) :
  mmc_card_sd c = false ->
  existsb (fun ev => is_sleep ev || is_sd_query ev)
    (trace (mmc_blk_issue_rq h c r envs)) = false.
Proof.
  intros Hsd. destruct (issue_rq_events h c r envs) as [-> Hall].
  cbn [existsb is_sleep is_sd_query orb].
  apply (existsb_none _ _ _) with (2 := Hall).
  rewrite Hsd. intros v. destruct v; cbn; congruence.
Qed.

Lemma sd_only_calls_witness :
  existsb (fun ev => is_sleep ev || is_sd_query ev)
    (trace (mmc_blk_issue_rq Ex.host Ex.emmc (Ex.rq WRITE 2)
              [Ex.env (Ex.x_stop_failed 1024) Ex.q_fail;
               Ex.env (Ex.x_stop_failed 1024) Ex.q_fail])) = false.
Proof.
  apply sd_only_calls. reflexivity.
Defined.

(** X17: a block-addressed card is never sent SET_BLOCKLEN by a call, not
    even after it was reinitialised. *)
Theorem block_addressed_no_set_blocklen (h : mmc_host) (c : mmc_card)
    (r : request) (envs : list cycle_env) :
  mmc_card_blockaddr c = true ->
  ~ In EvSetBlocklen (trace (mmc_blk_issue_rq h c r envs)).
Proof.
  unfold mmc_card_blockaddr. intros Hba.
  destruct (issue_rq_events h c r envs) as [-> Hall].
  intros [Habs | Hin]; [discriminate Habs|].
  pose proof (proj1 (forallb_forall _ _) Hall _ Hin) as Hok.
  cbn in Hok. rewrite Hba in Hok. discriminate Hok.
Qed.

Lemma block_addressed_no_set_blocklen_witness :
  ~ In EvSetBlocklen
      (trace (mmc_blk_issue_rq Ex.host Ex.emmc (Ex.rq WRITE 2)
                [Ex.env (Ex.x_stop_failed 1024) Ex.q_fail;
                 Ex.env (Ex.x_stop_failed 1024) Ex.q_fail])).
Proof.
  apply block_addressed_no_set_blocklen. reflexivity.
Defined.

(** X18: a call reinitialises the card at most once, however many cycles
    it runs and whatever the transport and the card answer. *)
Theorem at_most_one_reinit (h : mmc_host) (c : mmc_card) (r : request)
    (envs : list cycle_env) :
  (count_events is_reinit (trace (mmc_blk_issue_rq h c r envs)) <= 1)%nat.
Proof.
  destruct (issue_rq_events h c r envs) as [-> _].
  unfold count_events. cbn [filter is_reinit].
  exact (proj1 (proj2 (issue_loop_shape h envs (init_state r c)
                         eq_refl eq_refl))).
Qed.

(** X19: a call that returns claimed the host first and ends on the
    release that answers that claim: after it the call only fails what is
    left of the request with [-EIO] and sends nothing to the card, and a
    call that returns 1 does nothing at all after it.  In between, claims
    and releases are nested and balanced, so the host is held throughout
    and everything sent to the card is sent with the host held; there is
    at most one claim in between (the one [mmc_blk_set_blksize] takes for
    itself, around SET_BLOCKLEN, after a reinitialisation), and none at
    all on a block-addressed card. *)
Theorem host_claim_release_discipline (h : mmc_host) (c : mmc_card)
    (r : request) (envs : list cycle_env) (rv : Z) :
  ending (mmc_blk_issue_rq h c r envs) = Returned rv ->
  exists mid post,
    trace (mmc_blk_issue_rq h c r envs)
    = EvClaimHost :: mid ++ EvReleaseHost :: post
    /\ host_nesting 0 mid = Some 0%nat
    /\ (count_events is_claim mid <= 1)%nat
    /\ (mmc_card_blockaddr c = true -> existsb is_host_event mid = false)
    /\ forallb is_eio_report post = true
    /\ existsb is_transport_call post = false
    /\ (rv = 1 -> post = []).
Proof.
  intros Hend.
  destruct (issue_loop_shape h envs (init_state r c) eq_refl eq_refl)
    as (_ & Hone & _).
  destruct (issue_loop_host h envs (init_state r c) eq_refl eq_refl rv Hend)
    as (mid & post & Htr & Hnest & Hblk & Hclaim & Hpost & Hnone).
  exists mid, post. unfold mmc_blk_issue_rq. cbn [trace].
  rewrite Htr in Hone |- *. rewrite count_events_app in Hone.
  split; [reflexivity|]. split; [exact Hnest|]. split; [lia|].
  split; [exact Hblk|]. split; [exact Hpost|].
  split; [|exact Hnone].
  apply (existsb_none _ _ _) with (2 := Hpost).
  intros v. destruct v; cbn; congruence.
Qed.

(** A two-sector read on a byte-addressed card, with the reinitialisation
    and its SET_BLOCKLEN on the way. *)
Lemma host_claim_release_discipline_witness :
  exists mid post,
    trace (mmc_blk_issue_rq Ex.host Ex2.mmc_byte (Ex.rq READ 2)
             (Ex.flaky_multi 2))
    = EvClaimHost :: mid ++ EvReleaseHost :: post
    /\ host_nesting 0 mid = Some 0%nat
    /\ (count_events is_claim mid <= 1)%nat
    /\ (mmc_card_blockaddr Ex2.mmc_byte = true ->
        existsb is_host_event mid = false)
    /\ forallb is_eio_report post = true
    /\ existsb is_transport_call post = false
    /\ (1 = 1 -> post = []).
Proof.
  apply host_claim_release_discipline. vm_compute. reflexivity.
Defined.

(** X20: once a call schedules the removal of the card, it sends no
    further read or write command, does not reinitialise the card and does
    not schedule the removal again; the card is left marked as removed,
    and the call, when it returns, returns 0. *)
Theorem removal_is_terminal (h : mmc_host) (c : mmc_card) (r : request)
    (envs : list cycle_env) :
  existsb is_removal (trace (mmc_blk_issue_rq h c r envs)) = true ->
  quiet_after_removal (trace (mmc_blk_issue_rq h c r envs)) = true
  /\ removed (card (final (mmc_blk_issue_rq h c r envs))) = true
  /\ forall rv, ending (mmc_blk_issue_rq h c r envs) = Returned rv -> rv = 0.
Proof.
  destruct (issue_loop_shape h envs (init_state r c) eq_refl eq_refl)
    as (_ & _ & _ & Hquiet & Hrem).
  unfold mmc_blk_issue_rq. cbn [trace final ending existsb is_removal orb
    quiet_after_removal].
  intros Hx. split; [exact Hquiet|]. exact (Hrem Hx).
Qed.

Lemma removal_is_terminal_witness :
  quiet_after_removal
    (trace (mmc_blk_issue_rq Ex.host Ex.sdcard (Ex.rq WRITE 1)
              [Ex2.env_dead])) = true
  /\ removed (card (final (mmc_blk_issue_rq Ex.host Ex.sdcard (Ex.rq WRITE 1)
                             [Ex2.env_dead]))) = true
  /\ forall rv,
       ending (mmc_blk_issue_rq Ex.host Ex.sdcard (Ex.rq WRITE 1)
                 [Ex2.env_dead]) = Returned rv -> rv = 0.
Proof.
  apply removal_is_terminal. vm_compute. reflexivity.
Defined.

(** ** Accounting of a whole call *)

Lemma success_bytes_app (l1 l2 : list event) :
  success_bytes (l1 ++ l2) = success_bytes l1 + success_bytes l2.
Proof.
  induction l1 as [|a l1 IH]; [reflexivity|].
  destruct a; cbn [app success_bytes]; rewrite IH; lia.
Qed.

Lemma failed_bytes_app (l1 l2 : list event) :
  failed_bytes (l1 ++ l2) = failed_bytes l1 + failed_bytes l2.
Proof.
  induction l1 as [|a l1 IH]; [reflexivity|].
  destruct a; cbn [app failed_bytes]; rewrite IH; lia.
Qed.

Lemma no_report_bytes (p : event -> bool) (l : list event) :
  (forall er n, p (EvEndRequest er n) = false) ->
  forallb p l = true ->
  success_bytes l = 0 /\ failed_bytes l = 0.
Proof.
  intros Hp. induction l as [|a l IH]; [split; reflexivity|].
  cbn [forallb]. intros Hall. apply andb_true_iff in Hall.
  destruct Hall as [Ha Hl]. destruct (IH Hl) as [Hs Hf].
  destruct a; cbn [success_bytes failed_bytes]; try (split; assumption).
  rewrite Hp in Ha. discriminate Ha.
Qed.

Lemma first_seg_bytes (l : list Z) :
  Forall seg_ok l -> l <> [] -> 512 <= sum_bytes l.
Proof.
  intros Hok Hne. destruct Hok as [|a l [Ha Hm] Hl]; [contradiction|].
  pose proof (sum_bytes_nonneg l (seg_ok_pos l Hl)) as Hnn. cbn [sum_bytes fold_right].
  fold (sum_bytes l).
  destruct (Z.lt_ge_cases a 512) as [Hlt|Hge]; [|lia].
  rewrite Z.mod_small in Hm by lia. lia.
Qed.

(** A completion call for whole sectors within what is pending takes
    exactly that much off the request. *)
Lemma end_request_accounting (r : request) (n : Z) :
  Forall seg_ok (bio_segs r) -> 0 <= n <= blk_rq_bytes r -> n mod 512 = 0 ->
  Forall seg_ok (bio_segs (req_after r n))
  /\ n + blk_rq_bytes (req_after r n) = blk_rq_bytes r
  /\ ((ret_after r n = 0 /\ bio_segs (req_after r n) = [])
      \/ (ret_after r n <> 0 /\ bio_segs (req_after r n) <> []))
  /\ 512 * __sector (req_after r n) + blk_rq_bytes (req_after r n)
     = 512 * __sector r + blk_rq_bytes r.
Proof.
  intros Hok Hn Hmod.
  assert (Hsum : n + blk_rq_bytes (req_after r n) = blk_rq_bytes r)
    by (rewrite (req_after_bytes r n (seg_ok_pos _ Hok)) by lia; lia).
  split; [rewrite req_after_segs; apply blk_update_request_ok; assumption|].
  split; [exact Hsum|].
  split.
  - destruct (ret_after_cases r n) as [H0 | [H1 Hne]]; [left; exact H0|].
    right. split; [lia | exact Hne].
  - unfold req_after, __blk_end_request in *. cbn [fst __sector] in *.
    unfold blk_rq_bytes in *. cbn [bio_segs] in *.
    replace (sum_bytes (bio_segs r)
             - sum_bytes (blk_update_request (bio_segs r) n)) with n by lia.
    rewrite Z.shiftr_div_pow2 by lia. change (2 ^ 9) with 512.
    pose proof (Z.div_mod n 512 ltac:(lia)) as Hdm. lia.
Qed.

Ltac acct_same Hok Hne Hret Hevs Hevf :=
  rec_leaf;
  cbn [fst snd req ret success_bytes failed_bytes];
  rewrite ?Hevs, ?Hevf;
  split; [exact Hok|]; split; [cbn; lia|]; split; [cbn; lia|];
  split;
  [ first [ intros Hf; discriminate Hf
          | intros _; right; split; assumption ]
  | split;
    [ first [ intros Hf; discriminate Hf
            | intros _; split; [reflexivity|]; split; reflexivity ]
    | split; [reflexivity | cbn; lia] ] ].

Ltac acct_done Hacc :=
  rec_leaf;
  cbn [fst snd req ret];
  destruct Hacc as (Hok' & Hsum' & Hcase' & Hpos');
  cbn [success_bytes failed_bytes];
  change (0 =? 0) with true; change (- EIO =? 0) with false;
  change (-5 =? 0) with false; cbn iota;
  split; [exact Hok'|]; split; [lia|]; split; [lia|];
  split; [intros _; exact Hcase'|];
  split; [intros Hf; discriminate Hf|];
  split; [exact Hpos' | lia].

(** What [recovery] completes is taken off the request, byte for byte,
    and it reports as success no more than the transport counted. *)
Lemma recovery_accounting (e : cycle_env) (b : mmc_blk_request)
    (s : issue_state) :
  Forall seg_ok (bio_segs (req s)) -> bio_segs (req s) <> [] -> ret s <> 0 ->
  data_blksz b = 512 ->
  0 <= data_bytes_xfered b <= blk_rq_bytes (req s) ->
  data_bytes_xfered b mod 512 = 0 ->
  Forall seg_ok (bio_segs (req (snd (fst (recovery 2 e b s)))))
  /\ success_bytes (snd (recovery 2 e b s))
     + failed_bytes (snd (recovery 2 e b s))
     + blk_rq_bytes (req (snd (fst (recovery 2 e b s))))
     = blk_rq_bytes (req s)
  /\ 0 <= success_bytes (snd (recovery 2 e b s)) <= data_bytes_xfered b
  /\ (fst (fst (recovery 2 e b s)) = LoopTest ->
      (ret (snd (fst (recovery 2 e b s))) = 0
       /\ bio_segs (req (snd (fst (recovery 2 e b s)))) = [])
      \/ (ret (snd (fst (recovery 2 e b s))) <> 0
          /\ bio_segs (req (snd (fst (recovery 2 e b s)))) <> []))
  /\ (fst (fst (recovery 2 e b s)) = GotoCmdErr ->
      req (snd (fst (recovery 2 e b s))) = req s
      /\ ret (snd (fst (recovery 2 e b s))) = ret s
      /\ success_bytes (snd (recovery 2 e b s)) = 0)
  /\ 512 * __sector (req (snd (fst (recovery 2 e b s))))
     + blk_rq_bytes (req (snd (fst (recovery 2 e b s))))
     = 512 * __sector (req s) + blk_rq_bytes (req s)
  /\ 0 <= failed_bytes (snd (recovery 2 e b s)).
Proof.
  destruct (recovery 2 e b s) as [[f s'] ev] eqn:Hrec. cbn [fst snd].
  revert Hrec.
  destruct s as [r c rt dm cnr er tr dri drm].
  cbn [req ret]. intros Hrec Hok Hne Hret Hblk Hx Hxm. revert Hrec.
  pose proof (first_seg_bytes _ Hok Hne) as H512. fold (blk_rq_bytes r) in H512.
  assert (Hfail : Forall seg_ok (bio_segs (req_after r 512))
                  /\ 512 + blk_rq_bytes (req_after r 512) = blk_rq_bytes r
                  /\ ((ret_after r 512 = 0 /\ bio_segs (req_after r 512) = [])
                      \/ (ret_after r 512 <> 0
                          /\ bio_segs (req_after r 512) <> []))
                  /\ 512 * __sector (req_after r 512)
                     + blk_rq_bytes (req_after r 512)
                     = 512 * __sector r + blk_rq_bytes r)
    by (apply end_request_accounting; [exact Hok | lia | reflexivity]).
  pose proof (end_request_accounting r (data_bytes_xfered b) Hok Hx Hxm)
    as Hgood.
  pose proof (remove_card_frame c) as (_ & _ & Hrm).
  cbn [recovery]. locals_simpl. unfold escalate. locals_simpl.
  rewrite Hblk, !end_request_split.
  destruct (remove_card c) as [c' evr] eqn:Hrc. cbn [snd] in Hrm.
  assert (Hevr : success_bytes evr = 0 /\ failed_bytes evr = 0)
    by (destruct Hrm as [-> | ->]; split; reflexivity).
  destruct Hevr as [Hevs Hevf].
  unfold rq_data_dir. cbn [cmd_dir].
  destruct (nonzero dri) eqn:Hdri.
  { destruct (removed c); [acct_same Hok Hne Hret Hevs Hevf|].
    destruct (nonzero (reinit_err e)); cbn [negb].
    - destruct (mmc_card_sd c); acct_same Hok Hne Hret Hevs Hevf.
    - unfold mmc_blk_set_blksize. destruct (mmc_card_blockaddr c);
        acct_same Hok Hne Hret Hevs Hevf. }
  destruct (nonzero drm) eqn:Hdrm.
  { acct_same Hok Hne Hret Hevs Hevf. }
  destruct (brq_failed b || nonzero cnr).
  2:{ acct_done Hgood. }
  destruct (Z.eqb_spec tr 1) as [Htr|Htr].
  { subst tr. locals_simpl. change (nonzero 1) with true. cbn [orb].
    change (nonzero 1) with true. cbn iota. locals_simpl. rewrite ?Hrc.
    destruct (removed c); [acct_same Hok Hne Hret Hevs Hevf|].
    destruct (nonzero (reinit_err e)); cbn [negb].
    - destruct (mmc_card_sd c); acct_same Hok Hne Hret Hevs Hevf.
    - unfold mmc_blk_set_blksize. destruct (mmc_card_blockaddr c);
        acct_same Hok Hne Hret Hevs Hevf. }
  destruct (mmc_card_sd c && (tr =? 2)).
  { locals_simpl. rewrite Hdri. change (nonzero 1) with true.
    cbn [orb]. cbn iota. locals_simpl. rewrite ?Hrc.
    acct_same Hok Hne Hret Hevs Hevf. }
  locals_simpl. rewrite Hdri, Hdrm. cbn [orb]. cbn iota. locals_simpl.
  destruct (direction_eqb (cmd_dir r) READ).
  - acct_done Hfail.
  - acct_same Hok Hne Hret Hevs Hevf.
Qed.

Lemma plan_blocks_pending (h : mmc_host) (dm : Z) (r : request) :
  0 <= blk_rq_bytes r -> 512 * plan_blocks h dm r <= blk_rq_bytes r.
Proof.
  intros Hnn.
  assert (Hsec : 512 * blk_rq_sectors r <= blk_rq_bytes r).
  { unfold blk_rq_sectors. rewrite Z.shiftr_div_pow2 by lia.
    change (2 ^ 9) with 512. apply Z.mul_div_le. lia. }
  assert (Hle : plan_blocks h dm r <= blk_rq_sectors r).
  { unfold plan_blocks.
    destruct (Z.gtb_spec (blk_rq_sectors r) (max_blk_count h)) as [Hgt|Hgt].
    - destruct (nonzero dm); cbn [andb]; [|lia].
      destruct (Z.gtb_spec (max_blk_count h) 1); lia.
    - destruct (nonzero dm); cbn [andb]; [|lia].
      destruct (Z.gtb_spec (blk_rq_sectors r) 1); lia. }
  lia.
Qed.

(** One pass through the loop body with a transport that keeps to the
    command: what it completes is taken off the request, and it reports
    as success no more than the transport counted. *)
Lemma issue_cycle_accounting (h : mmc_host) (e : cycle_env) (s : issue_state)
    (f : flow) (s' : issue_state) (ev : list event) (b : mmc_blk_request) :
  do_reinit s = 0 -> do_remove s = 0 ->
  Forall seg_ok (bio_segs (req s)) -> bio_segs (req s) <> [] -> ret s <> 0 ->
  0 <= x_bytes_xfered (xfer e) <= 512 * data_blocks (brq_of h s e) ->
  x_bytes_xfered (xfer e) mod 512 = 0 ->
  issue_cycle h e s = (f, s', ev, b) ->
  data_bytes_xfered b = x_bytes_xfered (xfer e)
  /\ Forall seg_ok (bio_segs (req s'))
  /\ success_bytes ev + failed_bytes ev + blk_rq_bytes (req s')
     = blk_rq_bytes (req s)
  /\ 0 <= success_bytes ev <= x_bytes_xfered (xfer e)
  /\ (f = LoopTest ->
      (ret s' = 0 /\ bio_segs (req s') = [])
      \/ (ret s' <> 0 /\ bio_segs (req s') <> []))
  /\ (f = GotoCmdErr ->
      req s' = req s /\ ret s' = ret s /\ success_bytes ev = 0)
  /\ 512 * __sector (req s') + blk_rq_bytes (req s')
     = 512 * __sector (req s) + blk_rq_bytes (req s)
  /\ 0 <= failed_bytes ev.
Proof.
  intros Hri Hrm Hok Hne Hret Hx Hxm.
  assert (Hcap : x_bytes_xfered (xfer e) <= blk_rq_bytes (req s)).
  { pose proof (plan_blocks_pending h (disable_multi s) (req s)
                  (sum_bytes_nonneg _ (seg_ok_pos _ Hok))) as Hp.
    unfold brq_of, mmc_wait_for_req in Hx. cbn [data_blocks] in Hx. lia. }
  unfold issue_cycle. fold (brq_of h s e).
  destruct (brq_failed (brq_of h s e) && (data_blocks (brq_of h s e) >? 1)
            && direction_eqb (rq_data_dir (req s)) READ).
  { intros Heq. inversion Heq; subst. locals_simpl. unfold brq_event.
    cbn [success_bytes failed_bytes].
    split; [reflexivity|]. split; [exact Hok|]. split; [lia|].
    split; [lia|]. split; [intros _; right; split; assumption|].
    split; [intros Hf; discriminate Hf|]. split; [reflexivity | lia]. }
  assert (Hs1 : exists s1 ev1,
             (if brq_failed (brq_of h s e) then (s, [EvGetCardStatus])
              else if disable_multi s =? 1 then (set_disable_multi s 0, [])
                   else (s, [])) = (s1, ev1)
             /\ req s1 = req s /\ ret s1 = ret s
             /\ do_reinit s1 = 0 /\ do_remove s1 = 0
             /\ success_bytes ev1 = 0 /\ failed_bytes ev1 = 0).
  { destruct (brq_failed (brq_of h s e)); [|destruct (disable_multi s =? 1)];
      do 2 eexists; (split; [reflexivity|]); locals_simpl; auto 10. }
  destruct Hs1 as (s1 & ev1 & -> & Hr1 & Hrt1 & Hri1 & Hrm1 & Hs1 & Hf1).
  destruct (wait_card_ready h e s1) as [[x s2] ev2] eqn:Hwait.
  destruct (wait_card_ready_shape h e s1 x s2 ev2 Hri1 Hrm1 Hwait)
    as (_ & Hpoll2 & _ & Hr2 & Hrt2 & _).
  destruct (no_report_bytes is_poll_event ev2 (fun _ _ => eq_refl) Hpoll2)
    as [Hs2 Hf2].
  rewrite Hr1 in Hr2. rewrite Hrt1 in Hrt2.
  destruct x.
  - pose proof (recovery_accounting e (brq_of h s e) s2) as Hacc.
    rewrite Hr2, Hrt2 in Hacc.
    specialize (Hacc Hok Hne Hret eq_refl).
    cbn [brq_of mmc_wait_for_req data_bytes_xfered] in Hacc.
    specialize (Hacc (conj (proj1 Hx) Hcap) Hxm).
    destruct (recovery 2 e (brq_of h s e) s2) as [[f3 s3] ev3].
    cbn [fst snd] in Hacc.
    destruct Hacc as (Hok3 & Hsum3 & Hsucc3 & Hloop3 & Hcmd3 & Hpos3 & Hf3).
    intros Heq. inversion Heq; subst f3 s3 ev b. clear Heq.
    unfold brq_event. cbn [success_bytes failed_bytes].
    rewrite !success_bytes_app, !failed_bytes_app, Hs1, Hf1, Hs2, Hf2.
    cbn [Z.add].
    split; [reflexivity|]. split; [exact Hok3|]. split; [exact Hsum3|].
    split; [exact Hsucc3|]. split; [exact Hloop3|].
    split; [exact Hcmd3|]. split; [exact Hpos3 | exact Hf3].
  - intros Heq. inversion Heq; subst f s2 ev b. clear Heq.
    unfold brq_event. cbn [success_bytes failed_bytes].
    rewrite !success_bytes_app, !failed_bytes_app, Hs1, Hf1, Hs2, Hf2, Hr2, Hrt2.
    cbn [Z.add].
    split; [reflexivity|]. split; [exact Hok|]. split; [lia|].
    split; [lia|]. split; [intros Hf; discriminate Hf|].
    split; [auto|]. split; [reflexivity | lia].
  - intros Heq. inversion Heq; subst f s2 ev b. clear Heq.
    unfold brq_event. cbn [success_bytes failed_bytes].
    rewrite !success_bytes_app, !failed_bytes_app, Hs1, Hf1, Hs2, Hf2, Hr2.
    cbn [Z.add].
    split; [reflexivity|]. split; [exact Hok|]. split; [lia|].
    split; [lia|]. split; [intros Hf; discriminate Hf|].
    split; [intros Hf; discriminate Hf|]. split; [reflexivity | lia].
Qed.

(** [cmd_err] for a card that is not SD: the bytes the transport counted
    are reported as success, all the rest as failed. *)
Lemma cmd_err_accounting_mmc (h : mmc_host) (q : sd_query)
    (b : mmc_blk_request) (s : issue_state) :
  mmc_card_sd (card s) = false ->
  Forall seg_ok (bio_segs (req s)) -> ret s <> 0 ->
  0 <= data_bytes_xfered b <= blk_rq_bytes (req s) ->
  fst (fst (cmd_err h q b s)) = true
  /\ success_bytes (snd (cmd_err h q b s)) = data_bytes_xfered b
  /\ success_bytes (snd (cmd_err h q b s))
     + failed_bytes (snd (cmd_err h q b s)) = blk_rq_bytes (req s).
Proof.
  intros Hsd Hok Hret Hx.
  pose proof (seg_ok_pos _ Hok) as Hpos.
  unfold cmd_err, cmd_err_prefix. rewrite Hsd, end_request_split.
  locals_simpl.
  set (n := data_bytes_xfered b) in *.
  destruct (fail_remaining_spec (S (length (bio_segs (req_after (req s) n))))
              (req_after (req s) n) (ret_after (req s) n))
    as (r' & ev & Hrun & _ & Hs & Hf).
  { rewrite req_after_segs. apply blk_update_request_pos. exact Hpos. }
  { apply ret_after_zero. }
  { intros _. lia. }
  rewrite Hrun. cbn [fst snd app success_bytes failed_bytes].
  rewrite Hs, Hf, (req_after_bytes (req s) n Hpos) by lia.
  change (0 =? 0) with true. cbn iota.
  split; [reflexivity|]. split; lia.
Qed.

Lemma transferred_bytes_cons (e : cycle_env) (envs : list cycle_env) :
  transferred_bytes (e :: envs)
  = x_bytes_xfered (xfer e) + transferred_bytes envs.
Proof. reflexivity. Qed.

(** The request loop on a card that is not SD, with a transport that keeps
    to the command: a call that returns has completed every byte of the
    request exactly once. *)
Lemma issue_loop_accounting (h : mmc_host) :
  forall (envs : list cycle_env) (s : issue_state),
    mmc_card_sd (card s) = false ->
    do_reinit s = 0 -> do_remove s = 0 ->
    Forall seg_ok (bio_segs (req s)) -> bio_segs (req s) <> [] ->
    ret s <> 0 ->
    transport_honest h envs s ->
    forall rv, ending (issue_loop h envs s) = Returned rv ->
      success_bytes (trace (issue_loop h envs s))
      + failed_bytes (trace (issue_loop h envs s)) = blk_rq_bytes (req s)
      /\ 0 <= success_bytes (trace (issue_loop h envs s))
         <= transferred_bytes (firstn (cycles (issue_loop h envs s)) envs).
Proof.
  induction envs as [|e rest IH];
    intros s Hsd Hri Hrm Hok Hne Hret Hhon rv.
  { cbn. intros Hx; discriminate Hx. }
  cbn [transport_honest] in Hhon. destruct Hhon as (Hx & Hxm & Hnext).
  cbn [issue_loop].
  destruct (issue_cycle h e s) as [[[f s1] ev] b] eqn:Hcyc.
  destruct (issue_cycle_shape h e s f s1 ev b Hri Hrm Hcyc)
    as (_ & Hty & _ & _ & _ & Hclr & _).
  assert (Hsd1 : mmc_card_sd (card s1) = false)
    by (unfold mmc_card_sd in *; rewrite Hty; exact Hsd).
  destruct (issue_cycle_accounting h e s f s1 ev b Hri Hrm Hok Hne Hret Hx
              Hxm Hcyc) as (Hb & Hok1 & Hsum & Hsucc & Hloop & Hcmd & _ & _).
  destruct f.
  - destruct (Hclr eq_refl) as [Hri1 Hrm1].
    destruct (nonzero (ret s1)) eqn:Hnz.
    + apply nonzero_true in Hnz.
      destruct (Hloop eq_refl) as [[H0 _] | [_ Hne1]]; [contradiction|].
      unfold after_cycle. cbn [trace ending cycles firstn].
      intros Hend.
      destruct (IH s1 Hsd1 Hri1 Hrm1 Hok1 Hne1 Hnz Hnext rv Hend)
        as [IHsum IHsucc].
      rewrite success_bytes_app, failed_bytes_app, transferred_bytes_cons.
      split; lia.
    + apply nonzero_false in Hnz.
      destruct (Hloop eq_refl) as [[_ Hnil] | [Hn0 _]]; [|contradiction].
      cbn [trace ending cycles firstn]. intros _.
      rewrite success_bytes_app, failed_bytes_app, transferred_bytes_cons.
      unfold blk_rq_bytes in Hsum. rewrite Hnil in Hsum.
      cbn [sum_bytes fold_right] in Hsum. cbn. unfold blk_rq_bytes.
      split; lia.
  - destruct (Hcmd eq_refl) as (Hreq1 & Hret1 & Hs0).
    destruct (cmd_err_accounting_mmc h (sdq e) b s1 Hsd1 Hok1) as (_ & Hcs & Hcsum).
    { rewrite Hret1. exact Hret. }
    { rewrite Hb, Hreq1.
      pose proof (plan_blocks_pending h (disable_multi s) (req s)
                    (sum_bytes_nonneg _ (seg_ok_pos _ Hok))) as Hp.
      unfold brq_of, mmc_wait_for_req in Hx. cbn [data_blocks] in Hx. lia. }
    destruct (cmd_err h (sdq e) b s1) as [[out s2] ev2].
    cbn [fst snd] in Hcs, Hcsum.
    cbn [trace ending cycles firstn]. intros _.
    rewrite success_bytes_app, failed_bytes_app, transferred_bytes_cons.
    rewrite Hreq1 in Hcsum, Hsum. rewrite Hb in Hcs. cbn.
    split; lia.
  - cbn [ending]. intros Hend; discriminate Hend.
Qed.

(** X21: on a card that is not SD, for a request of whole sectors that is
    not empty and a transport that counts whole blocks and no more than
    the command asked for, a call that returns has completed every byte of
    the request exactly once, as success or as failure, and has reported
    as success no more than the transport counted over the cycles it
    ran. *)
Theorem non_sd_accounting (h : mmc_host) (c : mmc_card) (r : request)
    (envs : list cycle_env) (rv : Z) :
  mmc_card_sd c = false ->
  Forall seg_ok (bio_segs r) -> bio_segs r <> [] ->
  transport_honest h envs (init_state r c) ->
  ending (mmc_blk_issue_rq h c r envs) = Returned rv ->
  success_bytes (trace (mmc_blk_issue_rq h c r envs))
  + failed_bytes (trace (mmc_blk_issue_rq h c r envs)) = blk_rq_bytes r
  /\ 0 <= success_bytes (trace (mmc_blk_issue_rq h c r envs))
     <= transferred_bytes
          (firstn (cycles (mmc_blk_issue_rq h c r envs)) envs).
Proof.
  intros Hsd Hok Hne Hhon Hend.
  unfold mmc_blk_issue_rq in *.
  cbn [trace cycles ending success_bytes failed_bytes] in *.
  apply (issue_loop_accounting h envs (init_state r c) Hsd eq_refl eq_refl
           Hok Hne) with (rv := rv); try assumption.
  cbn. discriminate.
Qed.

Lemma non_sd_accounting_witness :
  success_bytes (trace (mmc_blk_issue_rq Ex.host Ex.emmc (Ex.rq READ 2)
                          (Ex.flaky_multi 2)))
  + failed_bytes (trace (mmc_blk_issue_rq Ex.host Ex.emmc (Ex.rq READ 2)
                           (Ex.flaky_multi 2)))
  = blk_rq_bytes (Ex.rq READ 2)
  /\ 0 <= success_bytes (trace (mmc_blk_issue_rq Ex.host Ex.emmc
                                  (Ex.rq READ 2) (Ex.flaky_multi 2)))
     <= transferred_bytes
          (firstn (cycles (mmc_blk_issue_rq Ex.host Ex.emmc (Ex.rq READ 2)
                             (Ex.flaky_multi 2)))
             (Ex.flaky_multi 2)).
Proof.
  apply (non_sd_accounting Ex.host Ex.emmc (Ex.rq READ 2) (Ex.flaky_multi 2) 1).
  - reflexivity.
  - constructor; [split; [lia | reflexivity] | constructor].
  - discriminate.
  - vm_compute. repeat split; discriminate.
  - vm_compute. reflexivity.
Defined.

(** ** Where the commands of a call go *)

Lemma recovery_trace_no_command (c : mmc_card) (f : flow) (ev : list event) :
  recovery_trace_ok c f ev -> existsb is_rw_command ev = false.
Proof.
  destruct f; cbn [recovery_trace_ok]; [| |contradiction].
  - intros [-> | (er & n & ->)]; [|reflexivity].
    unfold mmc_blk_set_blksize. destruct (mmc_card_blockaddr c); reflexivity.
  - intros [-> | [-> | [-> | ->]]]; reflexivity.
Qed.

(** A pass through the loop body sends one read or write command, first
    of all. *)
Lemma issue_cycle_one_command (h : mmc_host) (e : cycle_env) (s : issue_state)
    (f : flow) (s' : issue_state) (ev : list event) (b : mmc_blk_request) :
  do_reinit s = 0 -> do_remove s = 0 ->
  issue_cycle h e s = (f, s', ev, b) ->
  exists tl, ev = brq_event (brq_of h s e) :: tl
             /\ existsb is_rw_command tl = false.
Proof.
  intros Hri Hrm. unfold issue_cycle. fold (brq_of h s e).
  destruct (brq_failed (brq_of h s e) && (data_blocks (brq_of h s e) >? 1)
            && direction_eqb (rq_data_dir (req s)) READ).
  { intros Heq. inversion Heq; subst. exists []. split; reflexivity. }
  assert (Hs1 : exists s1 ev1,
             (if brq_failed (brq_of h s e) then (s, [EvGetCardStatus])
              else if disable_multi s =? 1 then (set_disable_multi s 0, [])
                   else (s, [])) = (s1, ev1)
             /\ do_reinit s1 = 0 /\ do_remove s1 = 0
             /\ existsb is_rw_command ev1 = false).
  { destruct (brq_failed (brq_of h s e)); [|destruct (disable_multi s =? 1)];
      do 2 eexists; (split; [reflexivity|]); locals_simpl; auto. }
  destruct Hs1 as (s1 & ev1 & -> & Hri1 & Hrm1 & Hno1).
  destruct (wait_card_ready h e s1) as [[x s2] ev2] eqn:Hwait.
  destruct (wait_card_ready_shape h e s1 x s2 ev2 Hri1 Hrm1 Hwait)
    as (_ & Hpoll2 & _).
  assert (Hno2 : existsb is_rw_command ev2 = false).
  { apply (existsb_none _ _ _) with (2 := Hpoll2).
    intros v; destruct v; cbn; congruence. }
  destruct x.
  - pose proof (recovery_shape e (brq_of h s e) s2) as (Htr3 & _).
    apply recovery_trace_no_command in Htr3.
    destruct (recovery 2 e (brq_of h s e) s2) as [[f3 s3] ev3].
    cbn [fst snd] in Htr3.
    intros Heq. inversion Heq; subst. eexists. split; [reflexivity|].
    rewrite !existsb_app, Hno1, Hno2, Htr3. reflexivity.
  - intros Heq. inversion Heq; subst. eexists. split; [reflexivity|].
    rewrite !existsb_app, Hno1, Hno2. reflexivity.
  - intros Heq. inversion Heq; subst. eexists. split; [reflexivity|].
    rewrite !existsb_app, Hno1, Hno2. reflexivity.
Qed.

Lemma sectors_exact (r : request) :
  Forall seg_ok (bio_segs r) -> 512 * blk_rq_sectors r = blk_rq_bytes r.
Proof.
  intros Hok. pose proof (sum_bytes_mod512 _ Hok) as Hm.
  unfold blk_rq_sectors, blk_rq_bytes. rewrite Z.shiftr_div_pow2 by lia.
  change (2 ^ 9) with 512.
  pose proof (Z.div_mod (sum_bytes (bio_segs r)) 512 ltac:(lia)). lia.
Qed.

Lemma plan_blocks_at_least_one (h : mmc_host) (dm : Z) (r : request) :
  1 <= blk_rq_sectors r -> 1 <= max_blk_count h -> 1 <= plan_blocks h dm r.
Proof.
  intros Hs Hm. unfold plan_blocks.
  destruct (Z.gtb_spec (blk_rq_sectors r) (max_blk_count h)).
  - destruct (nonzero dm && (max_blk_count h >? 1)); lia.
  - destruct (nonzero dm && (blk_rq_sectors r >? 1)); lia.
Qed.

(** The command of a cycle starts at the first pending sector and stays
    within what is pending. *)
Lemma cycle_command_position (h : mmc_host) (e : cycle_env) (s : issue_state)
    (tl : list event) (opcode arg blocks : Z) (stop : bool) :
  Forall seg_ok (bio_segs (req s)) -> bio_segs (req s) <> [] ->
  existsb is_rw_command tl = false ->
  In (EvWaitForReq opcode arg blocks stop) (brq_event (brq_of h s e) :: tl) ->
  blocks <= blk_rq_sectors (req s)
  /\ (1 <= max_blk_count h -> 1 <= blocks)
  /\ arg = (if blockaddr (card s) then u32 (__sector (req s))
            else u32 (Z.shiftl (u32 (__sector (req s))) 9)).
Proof.
  intros Hok Hne Hno [Hhead | Hin].
  - unfold brq_event, brq_of, mmc_wait_for_req in Hhead.
    cbn [cmd_opcode cmd_arg data_blocks mrq_stop] in Hhead.
    inversion Hhead; subst. clear Hhead.
    pose proof (sectors_exact _ Hok) as Hsec.
    pose proof (first_seg_bytes _ Hok Hne) as H512.
    fold (blk_rq_bytes (req s)) in H512.
    pose proof (plan_blocks_pending h (disable_multi s) (req s)
                  ltac:(lia)) as Hp.
    split; [lia|]. split; [|reflexivity].
    intros Hmax. apply plan_blocks_at_least_one; lia.
  - exfalso.
    assert (Hex : existsb is_rw_command tl = true)
      by (apply existsb_exists; eexists; split; [exact Hin | reflexivity]).
    rewrite Hno in Hex. discriminate Hex.
Qed.

(** Along a run with a transport that keeps to the command, every command
    addresses pending sectors only. *)
Lemma issue_loop_positions (h : mmc_host) :
  forall (envs : list cycle_env) (s : issue_state),
    do_reinit s = 0 -> do_remove s = 0 ->
    Forall seg_ok (bio_segs (req s)) -> bio_segs (req s) <> [] ->
    ret s <> 0 ->
    transport_honest h envs s ->
    forall (opcode arg blocks : Z) (stop : bool),
      In (EvWaitForReq opcode arg blocks stop) (trace (issue_loop h envs s)) ->
      exists k,
        0 <= k /\ k + blocks <= blk_rq_sectors (req s)
        /\ (1 <= max_blk_count h -> 1 <= blocks)
        /\ arg = (if blockaddr (card s) then u32 (__sector (req s) + k)
                  else u32 (Z.shiftl (u32 (__sector (req s) + k)) 9)).
Proof.
  induction envs as [|e rest IH];
    intros s Hri Hrm Hok Hne Hret Hhon opcode arg blocks stop.
  { cbn. contradiction. }
  cbn [transport_honest] in Hhon. destruct Hhon as (Hx & Hxm & Hnext).
  cbn [issue_loop].
  destruct (issue_cycle h e s) as [[[f s1] ev] b] eqn:Hcyc.
  destruct (issue_cycle_shape h e s f s1 ev b Hri Hrm Hcyc)
    as (_ & _ & Hba & _ & _ & Hclr & _).
  destruct (issue_cycle_accounting h e s f s1 ev b Hri Hrm Hok Hne Hret Hx
              Hxm Hcyc)
    as (_ & Hok1 & Hsum & Hsucc & Hloop & _ & Hpos & Hfail).
  destruct (issue_cycle_one_command h e s f s1 ev b Hri Hrm Hcyc)
    as (tl & Hev & Hno).
  assert (Hhere : In (EvWaitForReq opcode arg blocks stop) ev ->
            exists k,
              0 <= k /\ k + blocks <= blk_rq_sectors (req s)
              /\ (1 <= max_blk_count h -> 1 <= blocks)
              /\ arg = (if blockaddr (card s) then u32 (__sector (req s) + k)
                        else u32 (Z.shiftl (u32 (__sector (req s) + k)) 9))).
  { rewrite Hev. intros Hin.
    destruct (cycle_command_position h e s tl opcode arg blocks stop Hok Hne
                Hno Hin) as (Hle & Hone & Harg).
    exists 0. rewrite Z.add_0_r. split; [lia|]. split; [lia|].
    split; assumption. }
  destruct f.
  - destruct (Hclr eq_refl) as [Hri1 Hrm1].
    destruct (nonzero (ret s1)) eqn:Hnz.
    + apply nonzero_true in Hnz.
      destruct (Hloop eq_refl) as [[H0 _] | [_ Hne1]]; [contradiction|].
      unfold after_cycle. cbn [trace]. intros Hin.
      apply in_app_or in Hin. destruct Hin as [Hin | Hin]; [auto|].
      destruct (IH s1 Hri1 Hrm1 Hok1 Hne1 Hnz Hnext _ _ _ _ Hin)
        as (k1 & Hk1 & Hle1 & Hone1 & Harg1).
      pose proof (sectors_exact _ Hok) as Hsec.
      pose proof (sectors_exact _ Hok1) as Hsec1.
      exists (k1 + (__sector (req s1) - __sector (req s))).
      split; [lia|]. split; [lia|]. split; [exact Hone1|].
      rewrite Harg1, Hba.
      replace (__sector (req s) + (k1 + (__sector (req s1) - __sector (req s))))
        with (__sector (req s1) + k1) by lia.
      reflexivity.
    + cbn [trace]. intros Hin.
      apply in_app_or in Hin. destruct Hin as [Hin | Hin]; [auto|].
      destruct Hin as [Habs | []]. discriminate Habs.
  - destruct (cmd_err_shape h (sdq e) b s1)
      as (pre2 & post2 & Hev2 & Hpre2 & Hpost2 & _).
    destruct (cmd_err h (sdq e) b s1) as [[out s2] ev2].
    cbn [fst snd] in Hev2. subst ev2. cbn [trace]. intros Hin.
    apply in_app_or in Hin. destruct Hin as [Hin | Hin]; [auto|].
    exfalso.
    destruct (cmd_err_events_quiet _ pre2 post2 Hpre2 Hpost2)
      as (_ & _ & _ & Hq).
    pose proof (proj1 (forallb_forall _ _) Hq _ Hin) as Habs.
    discriminate Habs.
  - cbn [trace]. auto.
Qed.

(** X22: for a request of whole sectors that is not empty and a transport
    that counts whole blocks and no more than the command asked for, every
    read or write command of a call stays inside the request: it starts
    [k] sectors into it and ends no later than the request does, and it
    asks for at least one block when the host takes any.  Its argument is
    that sector on a block-addressed card and the sector's byte offset
    otherwise, both cut to 32 bits. *)
Theorem commands_stay_within_request (h : mmc_host) (c : mmc_card)
    (r : request) (envs : list cycle_env) (opcode arg blocks : Z)
    (stop : bool) :
  Forall seg_ok (bio_segs r) -> bio_segs r <> [] ->
  transport_honest h envs (init_state r c) ->
  In (EvWaitForReq opcode arg blocks stop)
     (trace (mmc_blk_issue_rq h c r envs)) ->
  exists k,
    0 <= k /\ k + blocks <= blk_rq_sectors r
    /\ (1 <= max_blk_count h -> 1 <= blocks)
    /\ arg = (if mmc_card_blockaddr c then u32 (blk_rq_pos r + k)
              else u32 (Z.shiftl (u32 (blk_rq_pos r + k)) 9)).
Proof.
  intros Hok Hne Hhon [Habs | Hin]; [discriminate Habs|].
  apply (issue_loop_positions h envs (init_state r c) eq_refl eq_refl Hok Hne)
    with (opcode := opcode) (stop := stop); try assumption.
  cbn. discriminate.
Qed.

Lemma commands_stay_within_request_witness :
  exists k,
    0 <= k /\ k + 1 <= blk_rq_sectors (Ex.rq READ 2)
    /\ (1 <= max_blk_count Ex.host -> 1 <= 1)
    /\ 101 = (if mmc_card_blockaddr Ex.emmc
              then u32 (blk_rq_pos (Ex.rq READ 2) + k)
              else u32 (Z.shiftl (u32 (blk_rq_pos (Ex.rq READ 2) + k)) 9)).
Proof.
  apply (commands_stay_within_request Ex.host Ex.emmc (Ex.rq READ 2)
           (Ex.flaky_multi 2) MMC_READ_SINGLE_BLOCK 101 1 false).
  - constructor; [split; [lia | reflexivity] | constructor].
  - discriminate.
  - vm_compute. repeat split; discriminate.
  - vm_compute. do 4 right. left. reflexivity.
Defined.

(** ** Writes that return 1 *)

(** For a write, the code from [recovery:] on reports no failure: the
    per-sector [-EIO] is for reads, a failed write leaves for [cmd_err]. *)
Lemma recovery_write_quiet (e : cycle_env) (b : mmc_blk_request)
    (s : issue_state) :
  cmd_dir (req s) = WRITE ->
  existsb is_failure_report (snd (recovery 2 e b s)) = false.
Proof.
  destruct (recovery 2 e b s) as [[f s'] ev] eqn:Hrec. cbn [fst snd].
  revert Hrec.
  destruct s as [r c rt dm cnr er tr dri drm].
  cbn [req]. intros Hrec Hdir. revert Hrec.
  pose proof (remove_card_frame c) as (_ & _ & Hrm).
  cbn [recovery]. locals_simpl. unfold escalate. locals_simpl.
  rewrite !end_request_split.
  destruct (remove_card c) as [c' evr] eqn:Hrc. cbn [snd] in Hrm.
  assert (Hevr : existsb is_failure_report evr = false)
    by (destruct Hrm as [-> | ->]; reflexivity).
  unfold rq_data_dir. cbn [cmd_dir]. unfold mmc_blk_set_blksize.
  destruct (nonzero dri) eqn:Hdri.
  { destruct (removed c); [rec_leaf; reflexivity|].
    destruct (nonzero (reinit_err e)); cbn [negb].
    - destruct (mmc_card_sd c); rec_leaf; [exact Hevr | reflexivity].
    - destruct (mmc_card_blockaddr c); rec_leaf; reflexivity. }
  destruct (nonzero drm) eqn:Hdrm; [rec_leaf; exact Hevr|].
  destruct (brq_failed b || nonzero cnr); [|rec_leaf; reflexivity].
  destruct (Z.eqb_spec tr 1) as [Htr|Htr].
  { subst tr. locals_simpl. change (nonzero 1) with true. cbn [orb].
    change (nonzero 1) with true. cbn iota. locals_simpl. rewrite ?Hrc.
    destruct (removed c); [rec_leaf; reflexivity|].
    destruct (nonzero (reinit_err e)); cbn [negb].
    - destruct (mmc_card_sd c); rec_leaf; [exact Hevr | reflexivity].
    - destruct (mmc_card_blockaddr c); rec_leaf; reflexivity. }
  destruct (mmc_card_sd c && (tr =? 2)).
  { locals_simpl. rewrite Hdri. change (nonzero 1) with true.
    cbn [orb]. cbn iota. locals_simpl. rewrite ?Hrc. rec_leaf. exact Hevr. }
  locals_simpl. rewrite Hdri, Hdrm. cbn [orb]. cbn iota. locals_simpl.
  rewrite Hdir. rec_leaf. reflexivity.
Qed.

Lemma issue_cycle_write_quiet (h : mmc_host) (e : cycle_env) (s : issue_state)
    (f : flow) (s' : issue_state) (ev : list event) (b : mmc_blk_request) :
  do_reinit s = 0 -> do_remove s = 0 ->
  cmd_dir (req s) = WRITE ->
  issue_cycle h e s = (f, s', ev, b) ->
  existsb is_failure_report ev = false.
Proof.
  intros Hri Hrm Hdir. unfold issue_cycle. fold (brq_of h s e).
  destruct (brq_failed (brq_of h s e) && (data_blocks (brq_of h s e) >? 1)
            && direction_eqb (rq_data_dir (req s)) READ).
  { intros Heq. inversion Heq; subst. reflexivity. }
  assert (Hs1 : exists s1 ev1,
             (if brq_failed (brq_of h s e) then (s, [EvGetCardStatus])
              else if disable_multi s =? 1 then (set_disable_multi s 0, [])
                   else (s, [])) = (s1, ev1)
             /\ req s1 = req s
             /\ do_reinit s1 = 0 /\ do_remove s1 = 0
             /\ existsb is_failure_report ev1 = false).
  { destruct (brq_failed (brq_of h s e)); [|destruct (disable_multi s =? 1)];
      do 2 eexists; (split; [reflexivity|]); locals_simpl; auto. }
  destruct Hs1 as (s1 & ev1 & -> & Hr1 & Hri1 & Hrm1 & Hno1).
  destruct (wait_card_ready h e s1) as [[x s2] ev2] eqn:Hwait.
  destruct (wait_card_ready_shape h e s1 x s2 ev2 Hri1 Hrm1 Hwait)
    as (_ & Hpoll2 & _ & Hr2 & _).
  assert (Hno2 : existsb is_failure_report ev2 = false).
  { apply (existsb_none _ _ _) with (2 := Hpoll2).
    intros v; destruct v; cbn; congruence. }
  destruct x.
  - pose proof (recovery_write_quiet e (brq_of h s e) s2) as Hq3.
    rewrite Hr2, Hr1 in Hq3. specialize (Hq3 Hdir).
    destruct (recovery 2 e (brq_of h s e) s2) as [[f3 s3] ev3].
    cbn [snd] in Hq3.
    intros Heq. inversion Heq; subst. unfold brq_event.
    cbn [existsb is_failure_report orb].
    rewrite !existsb_app, Hno1, Hno2, Hq3. reflexivity.
  - intros Heq. inversion Heq; subst. unfold brq_event.
    cbn [existsb is_failure_report orb].
    rewrite !existsb_app, Hno1, Hno2. reflexivity.
  - intros Heq. inversion Heq; subst. unfold brq_event.
    cbn [existsb is_failure_report orb].
    rewrite !existsb_app, Hno1, Hno2. reflexivity.
Qed.

Lemma issue_loop_write_quiet (h : mmc_host) :
  forall (envs : list cycle_env) (s : issue_state),
    do_reinit s = 0 -> do_remove s = 0 ->
    cmd_dir (req s) = WRITE ->
    ending (issue_loop h envs s) = Returned 1 ->
    existsb is_failure_report (trace (issue_loop h envs s)) = false.
Proof.
  induction envs as [|e rest IH]; intros s Hri Hrm Hdir.
  { cbn. intros Hx; discriminate Hx. }
  cbn [issue_loop].
  destruct (issue_cycle h e s) as [[[f s1] ev] b] eqn:Hcyc.
  destruct (issue_cycle_shape h e s f s1 ev b Hri Hrm Hcyc)
    as (_ & _ & _ & Hdir1 & _ & Hclr & _).
  pose proof (issue_cycle_write_quiet h e s f s1 ev b Hri Hrm Hdir Hcyc)
    as Hq.
  destruct f.
  - destruct (Hclr eq_refl) as [Hri1 Hrm1].
    destruct (nonzero (ret s1)).
    + unfold after_cycle. cbn [trace ending]. intros Hend.
      rewrite existsb_app, Hq, (IH s1 Hri1 Hrm1); auto. congruence.
    + cbn [trace ending]. intros _. rewrite existsb_app, Hq. reflexivity.
  - destruct (cmd_err h (sdq e) b s1) as [[out s2] ev2].
    cbn [ending]. destruct out; intros Hend; discriminate Hend.
  - cbn [ending]. intros Hend; discriminate Hend.
Qed.

(** X23: a write request that comes back with 1 had no byte failed: every
    completion call of the call reported success.  (A read can come back
    with 1 after sectors were failed with [-EIO] one at a time.) *)
Theorem write_returning_1_failed_nothing (h : mmc_host) (c : mmc_card)
    (r : request) (envs : list cycle_env) :
  cmd_dir r = WRITE ->
  ending (mmc_blk_issue_rq h c r envs) = Returned 1 ->
  existsb is_failure_report (trace (mmc_blk_issue_rq h c r envs)) = false.
Proof.
  intros Hdir Hend. unfold mmc_blk_issue_rq in *.
  cbn [trace ending existsb is_failure_report orb] in *.
  apply (issue_loop_write_quiet h envs (init_state r c) eq_refl eq_refl Hdir
           Hend).
Qed.

Lemma write_returning_1_failed_nothing_witness :
  existsb is_failure_report
    (trace (mmc_blk_issue_rq Ex.host Ex.sdcard (Ex.rq WRITE 2)
              [Ex.env (Ex.x_ok 1024) Ex.q_fail])) = false.
Proof.
  apply write_returning_1_failed_nothing; reflexivity.
Defined.
